(** * The two-agent hotel search pipeline of documentdb-samples

    A shallow embedding of the planner / search-tool / vector-store code of
    the Go sample (ai/vector-search-agent-go) and of the TypeScript sample
    (ai/vector-search-agent-ts), of the start-up, the synthesizer and the
    programs of the Go sample and of the document upload, the synthesizer
    and the clean-up of the TypeScript sample, followed by the properties
    of that code.

    Conventions
    - a Go [int] is a [Z]; the only arithmetic the code does on it
      ([len(docs) - len(WriteErrors)], [i+1]) stays far from 2^63;
    - a Go [float64]/[float32] and a JavaScript number is a [spec_float];
    - a Go [error] is a value of [error]; [fmt.Errorf] builds its message;
    - calls that leave the process (chat completion, embeddings, the
      MongoDB collection, [json.Unmarshal], [JSON.stringify]) are fields of
      an environment record; every request sent is recorded in the world;
    - the host of a program (environment variables, credentials, the
      MongoDB connection) is a second record, and what the program does to
      it is recorded as a list of events. *)

From Stdlib Require Import ZArith List String Ascii Bool Lia.
From Stdlib Require Import SpecFloat DecimalString DecimalPos.
From stdpp Require Import base option gmap strings list.
Import ListNotations.

Set Warnings "-register-all".

#[local] Open Scope string_scope.
#[local] Open Scope Z_scope.

(* ===================================================================== *)
(** ** Go: the pieces of the standard library the code calls *)
(* ===================================================================== *)

Module strings.

(** [strings.Join]: the first element, then [sep] and the next element
    for each remaining one. *)
Definition Join (elems : list string) (sep : string) : string :=
  match elems with
  | [] => ""
  | e0 :: rest => fold_left (fun b s => b +:+ sep +:+ s) rest e0
  end.

(** [strings.HasPrefix] and [strings.Contains]. *)
Fixpoint HasPrefix (s prefix : string) {struct prefix} : bool :=
  match prefix, s with
  | EmptyString, _ => true
  | String c p', String d s' => Ascii.eqb c d && HasPrefix s' p'
  | String _ _, EmptyString => false
  end.

Fixpoint Contains (s substr : string) : bool :=
  HasPrefix s substr ||
  match s with
  | EmptyString => false
  | String _ s' => Contains s' substr
  end.

End strings.

Module fmt.

(** [%d] of an int. *)
Definition Itoa (n : Z) : string := NilZero.string_of_int (Z.to_int n).

(** [%t]. *)
Definition FormatBool (b : bool) : string := if b then "true" else "false".

(** [n] copies of the character ['0']. *)
Fixpoint zeros (n : nat) : string :=
  match n with
  | O => ""
  | S n' => String "0" (zeros n')
  end.

(** A non-negative integer in at least [width] digits, zero padded on the
    left. *)
Definition pad_left (width : nat) (n : Z) : string :=
  let d := Itoa n in
  zeros (width - String.length d) +:+ d.

(** How a value halfway between two candidates is rounded: Go's
    [strconv] takes the even neighbour, JavaScript's [toFixed] the larger
    one. *)
Inductive tie_rule := TieEven | TieUp.

(** The integer nearest to [m * 2^e * 10^prec]. *)
Definition scaled_round (tie : tie_rule) (m : positive) (e : Z) (prec : nat) : Z :=
  let num := Z.pos m * 10 ^ Z.of_nat prec in
  if 0 <=? e then num * 2 ^ e
  else
    let d := 2 ^ (- e) in
    let q := num / d in
    let r := num mod d in
    match 2 * r ?= d with
    | Lt => q
    | Gt => q + 1
    | Eq => match tie with
            | TieEven => if Z.even q then q else q + 1
            | TieUp => q + 1
            end
    end.

(** The character of a decimal digit [0 <= d < 10]. *)
Definition digit (d : Z) : ascii := ascii_of_nat (48 + Z.to_nat d).

(** The last [width] decimal digits of [n], most significant first. *)
Fixpoint frac_digits (width : nat) (n : Z) : string :=
  match width with
  | O => ""
  | S width' => frac_digits width' (n / 10) +:+ String (digit (n mod 10)) ""
  end.

(** The decimal writing of [n / 10^prec] with [prec] digits after the
    point, for [0 <= n]. *)
Definition fixed_digits (n : Z) (prec : nat) : string :=
  Itoa (n / 10 ^ Z.of_nat prec) +:+
  match prec with
  | O => ""
  | S _ => "." +:+ frac_digits prec (n mod 10 ^ Z.of_nat prec)
  end.

(** [%.<prec>f] of a float64 ([strconv.FormatFloat(x, 'f', prec, 64)] as
    [fmt] prints it): exact decimal expansion rounded half to even. *)
Definition FormatFloat (x : spec_float) (prec : nat) : string :=
  match x with
  | S754_nan => "NaN"
  | S754_infinity false => "+Inf"
  | S754_infinity true => "-Inf"
  | S754_zero s => (if s then "-" else "") +:+ fixed_digits 0 prec
  | S754_finite s m e =>
      (if s then "-" else "") +:+ fixed_digits (scaled_round TieEven m e prec) prec
  end.

End fmt.

(** A float that is neither NaN nor an infinity. *)
Definition is_finite (x : spec_float) : bool :=
  match x with
  | S754_zero _ | S754_finite _ _ _ => true
  | _ => false
  end.

(** The float64 with integer value [n] (exact for the small constants the
    code and the examples use). *)
Definition float_of_Z (n : Z) : spec_float :=
  match n with
  | Z0 => S754_zero false
  | Zpos p => S754_finite false p 0
  | Zneg p => S754_finite true p 0
  end.

Module Go.

(** Go [error] values.  [BulkWriteException] is the one dynamic type the
    code tests for ([err.(mongo.BulkWriteException)]); its message is
    produced by the driver. *)
Record BulkWriteError := mkBulkWriteError {
  Index : Z;
  Code : Z;
  Message : string
}.

Inductive error :=
| errorString (msg : string)
| BulkWriteException (WriteErrors : list BulkWriteError) (msg : string).

(** [err.Error()]. *)
Definition Error (e : error) : string :=
  match e with
  | errorString msg => msg
  | BulkWriteException _ msg => msg
  end.

(** [fmt.Errorf(msg)] with every verb already substituted. *)
Definition Errorf (msg : string) : error := errorString msg.

(** A Go [(T, error)] return where the value is the zero value whenever
    the error is not nil. *)
Inductive result (A : Type) :=
| Ok (a : A)
| Err (e : error).
Arguments Ok {A} a.
Arguments Err {A} e.

(** What [json.Unmarshal] stores in an [any]. *)
Inductive any :=
| any_nil
| any_bool (b : bool)
| any_float64 (x : spec_float)
| any_string (s : string)
| any_slice (l : list any)
| any_map (m : list (string * any)).

(** [int(x)] for a float64: truncation toward zero when the value fits
    an int64; the language leaves every other case to the implementation,
    here the function [unrepresentable]. *)
Definition int_of_float64 (unrepresentable : spec_float -> Z) (x : spec_float) : Z :=
  match x with
  | S754_zero _ => 0
  | S754_finite s m e =>
      let mag := if 0 <=? e then Z.pos m * 2 ^ e else Z.pos m / 2 ^ (- e) in
      let v := if s then - mag else mag in
      if (- 2 ^ 63 <=? v) && (v <? 2 ^ 63) then v else unrepresentable x
  | _ => unrepresentable x
  end.

(** [float32(x)] for a float64: round to nearest even in binary32. *)
Definition float32_of_float64 (x : spec_float) : spec_float :=
  match x with
  | S754_finite s m e => binary_round 24 128 s m e
  | _ => x
  end.

End Go.
Export Go.

(* ===================================================================== *)
(** ** Go: data model (internal/models) *)
(* ===================================================================== *)

Module models.

Record AddressStruct := mkAddress {
  StreetAddress : string;
  City : string;
  StateProvince : string;
  PostalCode : string;
  Country : string
}.

(** The calendar date of a [time.Time], which is all that
    [Format("2006-01-02")] reads. *)
Record Time := mkTime {
  Year : Z;
  Month : Z;
  Day : Z
}.

Record HotelForVectorStore := mkHotelForVectorStore {
  HotelID : string;
  HotelName : string;
  Description : string;
  Category : string;
  Tags : list string;
  ParkingIncluded : bool;
  IsDeleted : bool;
  LastRenovationDate : Time;
  Rating : spec_float;
  Address : AddressStruct;
  DescriptionVector : list spec_float
}.

Record HotelSearchResult := mkHotelSearchResult {
  Hotel : HotelForVectorStore;
  Score : spec_float
}.

End models.
Export models.

(** [appendInt] of package time: the sign of a negative number, then
    its magnitude in at least [width] digits, zero padded on the left. *)
Definition appendInt (x : Z) (width : nat) : string :=
  (if x <? 0 then "-" else "") +:+ fmt.pad_left width (Z.abs x).

(** [t.Format("2006-01-02")]: the year in at least four digits, after
    the sign of a year below 0, month and day in two. *)
Definition Format_2006_01_02 (t : Time) : string :=
  appendInt (Year t) 4 +:+ "-" +:+ appendInt (Month t) 2 +:+ "-" +:+
  appendInt (Day t) 2.

(* ===================================================================== *)
(** ** Go: the world outside the process *)
(* ===================================================================== *)

(** The chat completion response, as much of [openai.ChatCompletion] as the
    code reads. *)
Record FunctionCall := mkFunctionCall {
  Name : string;
  Arguments : string
}.

Record ToolCall := mkToolCall {
  ID : string;
  Type_ : string;
  Function_ : FunctionCall
}.

Record ChatCompletionMessage := mkChatCompletionMessage {
  Content : string;
  ToolCalls : list ToolCall
}.

Record Choice := mkChoice {
  FinishReason : string;
  Message_ : ChatCompletionMessage
}.

Record ChatCompletion := mkChatCompletion {
  Choices : list Choice
}.

(** One element of the embeddings response [resp.Data]. *)
Record Embedding := mkEmbedding {
  Embedding_ : list spec_float
}.

(** The [$search] stage that [VectorSearch] sends; the [$project] stage is
    constant. *)
Record Pipeline := mkPipeline {
  search_vector : list spec_float;
  search_path : string;
  search_k : Z
}.

(** One document of the aggregation cursor, as [cursor.Decode] sees it. *)
Record ScoredDocument := mkScoredDocument {
  score : spec_float;
  document : HotelForVectorStore
}.

(** A cursor: the documents it yields, each of which decodes or not, and
    the error [cursor.Err()] reports once [cursor.Next] has returned
    false. *)
Record Cursor := mkCursor {
  batch : list (result ScoredDocument);
  cursor_Err : option error
}.

Record InsertManyResult := mkInsertManyResult {
  InsertedIDs : list string
}.

(** A request that left the process. *)
Inductive Request :=
| ReqChatCompletion (model systemPrompt userMessage : string) (tools : list string)
| ReqEmbedding (model text : string)
| ReqInsertMany (docs : list HotelForVectorStore) (ordered : bool)
| ReqAggregate (pipeline : Pipeline).

(** The world: what was written to standard output, the requests sent so
    far (oldest first) and the documents of the collection. *)
Record World := mkWorld {
  stdout : list string;
  requests : list Request;
  collection : list HotelForVectorStore
}.

(** The services the process talks to, and the two library behaviours the
    code depends on without fixing them. *)
Class Services := mkServices {
  (** [client.Chat.Completions.New]: [(resp, err)], [resp] possibly nil. *)
  Completions_New : string -> string -> string -> option ChatCompletion * option error;
  (** [client.Embeddings.New]. *)
  Embeddings_New : string -> string -> result (list Embedding);
  (** [collection.InsertMany] on a collection: the collection afterwards,
      the result and the error. *)
  Collection_InsertMany :
    list HotelForVectorStore -> list HotelForVectorStore -> bool ->
    list HotelForVectorStore * InsertManyResult * option error;
  (** [collection.Aggregate] on a collection. *)
  Collection_Aggregate : list HotelForVectorStore -> Pipeline -> result Cursor;
  (** [json.Unmarshal] into a [map[string]any]. *)
  json_Unmarshal : string -> result (gmap string any);
  (** [int(x)] where the float does not fit an int. *)
  int_unrepresentable : spec_float -> Z;
  (** The text of the constant [prompts.PlannerSystemPrompt], which is sent
      and never inspected. *)
  PlannerSystemPrompt : string
}.

(** Computations that read and change the world. *)
Definition M (A : Type) : Type := World -> A * World.

Definition ret {A} (a : A) : M A := fun w => (a, w).

Definition bind {A B} (c : M A) (f : A -> M B) : M B :=
  fun w => let '(a, w') := c w in f a w'.

Declare Scope go_scope.
Delimit Scope go_scope with go.
Notation "x <- c ;; f" := (bind c (fun x => f))
  (at level 100, c at next level, right associativity) : go_scope.
Notation "c ;;; f" := (bind c (fun _ => f))
  (at level 100, right associativity) : go_scope.
#[local] Open Scope go_scope.

(** [fmt.Printf] / [fmt.Println] with the text already formatted. *)
Definition Print (s : string) : M unit :=
  fun w => (tt, mkWorld (stdout w ++ [s])%list (requests w) (collection w)).

(** Record a request. *)
Definition send (r : Request) : M unit :=
  fun w => (tt, mkWorld (stdout w) (requests w ++ [r])%list (collection w)).

(** [if debug { ... }]. *)
Definition when (b : bool) (c : M unit) : M unit := if b then c else ret tt.

(** The double quote and the line feed, as strings. *)
Definition dquote : string := String (ascii_of_nat 34) EmptyString.
Definition nl : string := String (ascii_of_nat 10) EmptyString.

(* ===================================================================== *)
(** ** Go: internal/prompts and internal/clients *)
(* ===================================================================== *)

Module prompts.
Definition ToolName : string := "search_hotels_collection".
End prompts.

Module clients.
Section clients.
Context `{Services}.

Record OpenAIConfig := mkOpenAIConfig {
  EmbeddingDeployment : string;
  PlannerDeployment : string;
  SynthDeployment : string;
  Debug : bool
}.

Record OpenAIClients := mkOpenAIClients {
  config : OpenAIConfig
}.

(** [GenerateEmbedding]. *)
Definition GenerateEmbedding (c : OpenAIClients) (text : string)
  : M (result (list spec_float)) :=
  send (ReqEmbedding (EmbeddingDeployment (config c)) text) ;;;
  match Embeddings_New (EmbeddingDeployment (config c)) text with
  | Err err => ret (Err (Errorf ("failed to generate embedding: " +:+ Error err)))
  | Ok Data =>
      match Data with
      | [] => ret (Err (Errorf "no embeddings returned"))
      | d0 :: _ => ret (Ok (map float32_of_float64 (Embedding_ d0)))
      end
  end.

(** The debug report on a response in [ChatCompletionWithTools]. *)
Definition debugResponse (resp : ChatCompletion) : M unit :=
  Print ("[planner] Response received with " +:+
         fmt.Itoa (Z.of_nat (length (Choices resp))) +:+ " choices" +:+ nl) ;;;
  match Choices resp with
  | [] => ret tt
  | c0 :: _ =>
      Print ("[planner] Finish reason: " +:+ FinishReason c0 +:+ nl) ;;;
      Print ("[planner] Tool calls count: " +:+
             fmt.Itoa (Z.of_nat (length (ToolCalls (Message_ c0)))) +:+ nl) ;;;
      when (bool_decide (length (ToolCalls (Message_ c0)) = 0%nat) &&
            negb (String.eqb (Content (Message_ c0)) ""))
        (Print ("[planner] Model response (text): " +:+ Content (Message_ c0) +:+ nl))
  end.

(** [ChatCompletionWithTools]; [tools] are the names of the tool
    definitions.  The result is [Ok resp] with [resp] never nil. *)
Definition ChatCompletionWithTools (c : OpenAIClients)
    (systemPrompt userMessage : string) (tools : list string)
  : M (result ChatCompletion) :=
  match tools with
  | [] => ret (Err (Errorf "no tools provided to ChatCompletionWithTools"))
  | _ :: _ =>
      when (Debug (config c))
        (Print ("[planner] Calling with temperature=0.0, tools enabled" +:+ nl) ;;;
         Print ("[planner] System prompt length: " +:+
                fmt.Itoa (Z.of_nat (String.length systemPrompt)) +:+ " characters" +:+ nl) ;;;
         Print ("[planner] User message length: " +:+
                fmt.Itoa (Z.of_nat (String.length userMessage)) +:+ " characters" +:+ nl)) ;;;
      send (ReqChatCompletion (PlannerDeployment (config c)) systemPrompt userMessage tools) ;;;
      match Completions_New (PlannerDeployment (config c)) systemPrompt userMessage with
      | (_, Some err) =>
          ret (Err (Errorf ("planner chat completion failed: " +:+ Error err)))
      | (None, None) => ret (Err (Errorf "planner returned nil response"))
      | (Some resp, None) =>
          when (Debug (config c)) (debugResponse resp) ;;;
          ret (Ok resp)
      end
  end.

(** [extractToolCallRaw]: the name and the raw JSON arguments of the
    first tool call. *)
Definition extractToolCallRaw (resp : option ChatCompletion) : result (string * string) :=
  match resp with
  | None => Err (Errorf "response is nil")
  | Some resp =>
      match Choices resp with
      | [] => Err (Errorf "no choices in response")
      | choice :: _ =>
          if String.eqb (FinishReason choice) "length" then
            Err (Errorf "response was cut off (length limit exceeded)")
          else if negb (String.eqb (FinishReason choice) "tool_calls") &&
                  negb (String.eqb (FinishReason choice) "stop") then
            Err (Errorf ("unexpected finish reason: " +:+ FinishReason choice +:+
                         " (expected 'tool_calls' or 'stop')"))
          else
            match ToolCalls (Message_ choice) with
            | [] =>
                let content := Content (Message_ choice) in
                if negb (String.eqb content "") then
                  Err (Errorf ("no tool calls in response - model returned: " +:+ content))
                else
                  Err (Errorf ("no tool calls in response and no text content - finish_reason: "
                               +:+ FinishReason choice))
            | toolCall :: _ =>
                if negb (String.eqb (Type_ toolCall) "function") then
                  Err (Errorf ("unexpected tool call type: " +:+ Type_ toolCall +:+
                               " (expected 'function')"))
                else
                  Ok (Name (Function_ toolCall), Arguments (Function_ toolCall))
            end
      end
  end.

(** [ExtractToolCall]: the name and the decoded arguments. *)
Definition ExtractToolCall (resp : option ChatCompletion)
  : result (string * gmap string any) :=
  match extractToolCallRaw resp with
  | Err err => Err err
  | Ok (toolName, argsJSON) =>
      match json_Unmarshal argsJSON with
      | Err err =>
          Err (Errorf ("failed to parse tool arguments: " +:+ Error err +:+
                       " (raw arguments: " +:+ argsJSON +:+ ")"))
      | Ok args => Ok (toolName, args)
      end
  end.

End clients.
End clients.

(* ===================================================================== *)
(** ** Go: internal/vectorstore *)
(* ===================================================================== *)

Module vectorstore.
Section vectorstore.
Context `{Services}.

Record VectorStoreConfig := mkVectorStoreConfig {
  CollectionName : string;
  IndexName : string;
  EmbeddedField : string;
  Debug : bool
}.

Record VectorStore := mkVectorStore {
  config : VectorStoreConfig
}.

(** [vs.collection.InsertMany(ctx, docs, opts)]: the request is recorded
    and the collection becomes what the store makes of it.  The driver
    hands back a result next to a [BulkWriteException]. *)
Definition InsertMany (docs : list HotelForVectorStore) (ordered : bool)
  : M (InsertManyResult * option error) :=
  fun w =>
    let '(coll', res, err) := Collection_InsertMany (collection w) docs ordered in
    ((res, err), mkWorld (stdout w) (requests w ++ [ReqInsertMany docs ordered])%list coll').

(** [InsertHotelsWithEmbeddings]; [None] is the nil error. *)
Definition InsertHotelsWithEmbeddings (vs : VectorStore)
    (hotels : list HotelForVectorStore) : M (option error) :=
  if bool_decide (length hotels = 0%nat) then ret None
  else
    let docs := hotels in
    r <- InsertMany docs false ;;
    let '(result, err) := r in
    let finish :=
      when (Debug (config vs))
        (Print ("[vectorstore] Inserted " +:+
                fmt.Itoa (Z.of_nat (length (InsertedIDs result))) +:+ " documents" +:+ nl)) ;;;
      ret None in
    match err with
    | None => finish
    | Some (BulkWriteException WriteErrors _ as err) =>
        let inserted := Z.of_nat (length docs) - Z.of_nat (length WriteErrors) in
        when (Debug (config vs))
          (Print ("[vectorstore] Partial insert: " +:+ fmt.Itoa inserted +:+ " inserted, " +:+
                  fmt.Itoa (Z.of_nat (length WriteErrors)) +:+ " failed" +:+ nl)) ;;;
        if inserted =? 0 then
          ret (Some (Errorf ("failed to insert any documents: " +:+ Error err)))
        else
          Print ("[vectorstore] Warning: partial insert completed with " +:+
                 fmt.Itoa (Z.of_nat (length WriteErrors)) +:+ " errors" +:+ nl) ;;;
          finish
    | Some err =>
        ret (Some (Errorf ("failed to insert documents: " +:+ Error err)))
    end.

(** [vs.collection.Aggregate(ctx, pipeline)]. *)
Definition Aggregate (pipeline : Pipeline) : M (result Cursor) :=
  fun w =>
    (Collection_Aggregate (collection w) pipeline,
     mkWorld (stdout w) (requests w ++ [ReqAggregate pipeline])%list (collection w)).

(** The loop [for cursor.Next(ctx) { ... }] of [VectorSearch]: decode
    each document and append it to [results]; stop at the first one that
    does not decode. *)
Fixpoint decodeAll (items : list (result ScoredDocument))
    (results : list HotelSearchResult) : result (list HotelSearchResult) :=
  match items with
  | [] => Ok results
  | Err err :: _ => Err (Errorf ("failed to decode result: " +:+ Error err))
  | Ok r :: rest =>
      decodeAll rest (results ++ [mkHotelSearchResult (document r) (score r)])%list
  end.

(** [VectorSearch]. *)
Definition VectorSearch (vs : VectorStore) (queryVector : list spec_float) (k : Z)
  : M (result (list HotelSearchResult)) :=
  let vectorInterface := queryVector in
  let pipeline := mkPipeline vectorInterface (EmbeddedField (config vs)) k in
  c <- Aggregate pipeline ;;
  match c with
  | Err err => ret (Err (Errorf ("vector search failed: " +:+ Error err)))
  | Ok cursor =>
      match decodeAll (batch cursor) [] with
      | Err err => ret (Err err)
      | Ok results =>
          match cursor_Err cursor with
          | Some err => ret (Err (Errorf ("cursor error: " +:+ Error err)))
          | None =>
              when (Debug (config vs))
                (Print ("[vectorstore] Found " +:+
                        fmt.Itoa (Z.of_nat (length results)) +:+
                        " results from vector search" +:+ nl)) ;;;
              ret (Ok results)
          end
      end
  end.

(** [FormatHotelForSynthesizer]. *)
Definition FormatHotelForSynthesizer (result : HotelSearchResult) : string :=
  let hotel := Hotel result in
  let tags := strings.Join (Tags hotel) ", " in
  let fields := [
    "--- HOTEL START ---";
    "HotelId: " +:+ HotelID hotel;
    "HotelName: " +:+ HotelName hotel;
    "Description: " +:+ Description hotel;
    "Category: " +:+ Category hotel;
    "Tags: " +:+ tags;
    "ParkingIncluded: " +:+ fmt.FormatBool (ParkingIncluded hotel);
    "IsDeleted: " +:+ fmt.FormatBool (IsDeleted hotel);
    "LastRenovationDate: " +:+ Format_2006_01_02 (LastRenovationDate hotel);
    "Rating: " +:+ fmt.FormatFloat (Rating hotel) 1;
    "Address.StreetAddress: " +:+ StreetAddress (Address hotel);
    "Address.City: " +:+ City (Address hotel);
    "Address.StateProvince: " +:+ StateProvince (Address hotel);
    "Address.PostalCode: " +:+ PostalCode (Address hotel);
    "Address.Country: " +:+ Country (Address hotel);
    "Score: " +:+ fmt.FormatFloat (Score result) 6;
    "--- HOTEL END ---"
  ] in
  strings.Join fields nl.

End vectorstore.
End vectorstore.

(* ===================================================================== *)
(** ** Go: internal/agents *)
(* ===================================================================== *)

Module agents.
Section agents.
Context `{Services}.

Record VectorSearchTool := mkVectorSearchTool {
  tool_openAIClients : clients.OpenAIClients;
  vectorStore : vectorstore.VectorStore;
  tool_debug : bool
}.

(** The loop of [Execute]: print a line per result and append its
    formatted block; [i] is the index of the first result of [results]. *)
Fixpoint formatLoop (i : Z) (results : list HotelSearchResult)
    (formattedResults : list string) : M (list string) :=
  match results with
  | [] => ret formattedResults
  | result :: rest =>
      Print ("Hotel #" +:+ fmt.Itoa (i + 1) +:+ ": " +:+ HotelName (Hotel result) +:+
             ", Score: " +:+ fmt.FormatFloat (Score result) 6 +:+ nl) ;;;
      formatLoop (i + 1) rest
        (formattedResults ++ [vectorstore.FormatHotelForSynthesizer result])%list
  end.

(** [VectorSearchTool.Execute]. *)
Definition Execute (t : VectorSearchTool) (query : string) (nearestNeighbors : Z)
  : M (result string) :=
  e <- clients.GenerateEmbedding (tool_openAIClients t) query ;;
  match e with
  | Err err => ret (Err (Errorf ("failed to generate embedding: " +:+ Error err)))
  | Ok queryVector =>
      s <- vectorstore.VectorSearch (vectorStore t) queryVector nearestNeighbors ;;
      match s with
      | Err err => ret (Err (Errorf ("vector search failed: " +:+ Error err)))
      | Ok results =>
          formattedResults <- formatLoop 0 results [] ;;
          ret (Ok (strings.Join formattedResults (nl +:+ nl)))
      end
  end.

(** [GetToolDefinition], of which only the function name matters here. *)
Definition GetToolDefinition (t : VectorSearchTool) : string := prompts.ToolName.

Record toolArguments := mktoolArguments {
  Query : string;
  NearestNeighbors : Z
}.

(** [parseToolArgumentsFromMap]. *)
Definition parseToolArgumentsFromMap (argsMap : gmap string any) : result toolArguments :=
  match argsMap !! "query" with
  | Some (any_string query) =>
      match argsMap !! "nearestNeighbors" with
      | Some (any_float64 nn) =>
          Ok (mktoolArguments query (int_of_float64 int_unrepresentable nn))
      | _ => Ok (mktoolArguments query 0)
      end
  | _ => Err (Errorf "query argument missing or invalid")
  end.

Record PlannerAgent := mkPlannerAgent {
  openAIClients : clients.OpenAIClients;
  searchTool : VectorSearchTool;
  debug : bool
}.

(** [PlannerAgent.Run]. *)
Definition Run (a : PlannerAgent) (userQuery : string) (nearestNeighbors : Z)
  : M (result string) :=
  Print (nl +:+ "--- PLANNER ---" +:+ nl) ;;;
  let userMessage :=
    "Search for hotels matching this request: " +:+ dquote +:+ userQuery +:+ dquote +:+
    ". Use nearestNeighbors=" +:+ fmt.Itoa nearestNeighbors +:+ "." in
  let toolDef := GetToolDefinition (searchTool a) in
  r <- clients.ChatCompletionWithTools (openAIClients a) PlannerSystemPrompt userMessage [toolDef] ;;
  match r with
  | Err err => ret (Err (Errorf ("planner failed: " +:+ Error err)))
  | Ok resp =>
      match clients.ExtractToolCall (Some resp) with
      | Err err => ret (Err (Errorf ("failed to extract tool call: " +:+ Error err)))
      | Ok (toolName, argsMap) =>
          if negb (String.eqb toolName prompts.ToolName) then
            ret (Err (Errorf ("unexpected tool called: " +:+ toolName)))
          else
            match parseToolArgumentsFromMap argsMap with
            | Err err => ret (Err (Errorf ("failed to parse tool arguments: " +:+ Error err)))
            | Ok args =>
                let args :=
                  if NearestNeighbors args =? 0
                  then mktoolArguments (Query args) nearestNeighbors
                  else args in
                Print ("Tool: " +:+ toolName +:+ nl) ;;;
                Print ("Query: " +:+ Query args +:+ nl) ;;;
                Print ("K: " +:+ fmt.Itoa (NearestNeighbors args) +:+ nl) ;;;
                s <- Execute (searchTool a) (Query args) (NearestNeighbors args) ;;
                match s with
                | Err err => ret (Err (Errorf ("search tool execution failed: " +:+ Error err)))
                | Ok searchResults => ret (Ok searchResults)
                end
            end
      end
  end.

End agents.
End agents.

(* ===================================================================== *)
(** ** TypeScript: values and the language operations the code uses *)
(* ===================================================================== *)

Module JS.

(** The values that reach the code: metadata read from the database and
    the messages of the agent are JSON-like. *)
Inductive Value :=
| JSUndefined
| JSNull
| JSBoolean (b : bool)
| JSNumber (x : spec_float)
| JSString (s : string)
| JSArray (elems : list Value)
| JSObject (props : list (string * Value)).

(** A normal completion or a thrown value. *)
Inductive Completion (A : Type) :=
| Return (a : A)
| Throw (e : Value).
Arguments Return {A} a.
Arguments Throw {A} e.

Definition TypeError (msg : string) : Value :=
  JSObject [("name", JSString "TypeError"); ("message", JSString msg)].

(** What [console.log], [console.warn] and [console.error] received. *)
Inductive ConsoleEntry :=
| console_log (s : string)
| console_warn (s : string)
| console_error (s : string) (e : Value).

(** What the language leaves to number parsing and printing, to
    [JSON.stringify], to the schema library and to the agent framework. *)
Class Runtime := mkRuntime {
  (** [Number::toString] of a finite non-zero number. *)
  Number_toString_finite : spec_float -> string;
  (** [StringToNumber]. *)
  StringToNumber : string -> spec_float;
  (** [JSON.stringify(v)]: a string, or undefined. *)
  JSON_stringify : Value -> Value;
  (** Whether [z.number()] refuses the infinities (it always refuses NaN). *)
  zod_rejects_infinite : bool;
  (** The [ToolInputParsingException] that a tool built by [tool(...)]
      throws for an input its schema refuses. *)
  ToolInputParsingException : Value -> Value;
  (** [createAgent(...).invoke(...)] on a user message: the agent result
      or a thrown value, and what the run of the agent (the model, the
      tool it calls and the debug callbacks) wrote to the console. *)
  agent_invoke : string -> Completion Value * list ConsoleEntry
}.

(** The bind of [Completion]. *)
Definition cbind {A B} (r : Completion A) (f : A -> Completion B) : Completion B :=
  match r with
  | Return a => f a
  | Throw e => Throw e
  end.

(** [arr.map(f)], left to right, stopping at the first throw. *)
Definition mapC {A B} (f : A -> Completion B) : list A -> Completion (list B) :=
  fix go (l : list A) : Completion (list B) :=
    match l with
    | [] => Return []
    | x :: rest =>
        match f x with
        | Throw e => Throw e
        | Return y =>
            match go rest with
            | Throw e => Throw e
            | Return ys => Return (y :: ys)
            end
        end
    end.

Fixpoint lookup_prop (props : list (string * Value)) (key : string) : Value :=
  match props with
  | [] => JSUndefined
  | (k, v) :: rest => if String.eqb k key then v else lookup_prop rest key
  end.

(** [v?.key].  None of the keys this code reads is a property of a
    primitive or of an array, so those give undefined. *)
Definition GetOpt (v : Value) (key : string) : Value :=
  match v with
  | JSObject props => lookup_prop props key
  | _ => JSUndefined
  end.

(** Whether an object has a property of its own named [key]. *)
Definition has_key (props : list (string * Value)) (key : string) : bool :=
  existsb (fun kv => String.eqb (fst kv) key) props.

(** [v.key], which throws on undefined and null. *)
Definition Get (v : Value) (key : string) : Completion Value :=
  match v with
  | JSUndefined =>
      Throw (TypeError ("Cannot read properties of undefined (reading '" +:+ key +:+ "')"))
  | JSNull =>
      Throw (TypeError ("Cannot read properties of null (reading '" +:+ key +:+ "')"))
  | _ => Return (GetOpt v key)
  end.

(** [ToBoolean]. *)
Definition truthy (v : Value) : bool :=
  match v with
  | JSUndefined | JSNull => false
  | JSBoolean b => b
  | JSNumber x => match x with S754_zero _ | S754_nan => false | _ => true end
  | JSString s => negb (String.eqb s "")
  | JSArray _ | JSObject _ => true
  end.

(** [a || b] and [a ?? b]. *)
Definition or_else (a b : Value) : Value := if truthy a then a else b.
Definition nullish (a b : Value) : Value :=
  match a with
  | JSUndefined | JSNull => b
  | _ => a
  end.

(** [v === true]. *)
Definition is_true (v : Value) : bool :=
  match v with
  | JSBoolean true => true
  | _ => false
  end.

Definition isArray (v : Value) : bool :=
  match v with
  | JSArray _ => true
  | _ => false
  end.

(** Whether the magnitude of a number is [10^21] or more. *)
Definition at_least_1e21 (x : spec_float) : bool :=
  match x with
  | S754_finite _ m e =>
      if 0 <=? e then 10 ^ 21 <=? Z.pos m * 2 ^ e
      else 10 ^ 21 * 2 ^ (- e) <=? Z.pos m
  | S754_infinity _ => true
  | _ => false
  end.

Section runtime.
Context `{Runtime}.

(** [Number::toString]. *)
Definition Number_toString (x : spec_float) : string :=
  match x with
  | S754_nan => "NaN"
  | S754_infinity false => "Infinity"
  | S754_infinity true => "-Infinity"
  | S754_zero _ => "0"
  | S754_finite _ _ _ => Number_toString_finite x
  end.

(** [ToString], as a template literal, [String(v)] and
    [Array.prototype.join] apply it to a JSON-like value.  An array is
    its elements joined by commas, with undefined and null elements
    empty.  An object answers [[object Object]], unless it has a property
    of its own named [toString]: that property is not a function, the
    inherited [valueOf] returns the object itself, and [ToPrimitive]
    throws. *)
Fixpoint ToString (v : Value) : Completion string :=
  match v with
  | JSUndefined => Return "undefined"
  | JSNull => Return "null"
  | JSBoolean b => Return (if b then "true" else "false")
  | JSNumber x => Return (Number_toString x)
  | JSString s => Return s
  | JSArray elems =>
      cbind (mapC (fun e => match e with
                            | JSUndefined | JSNull => Return ""
                            | _ => ToString e
                            end) elems)
            (fun texts => Return (String.concat "," texts))
  | JSObject props =>
      if has_key props "toString"
      then Throw (TypeError "Cannot convert object to primitive value")
      else Return "[object Object]"
  end.

(** [Array.prototype.join(sep)]. *)
Definition join (elems : list Value) (sep : string) : Completion string :=
  cbind (mapC (fun e => match e with
                        | JSUndefined | JSNull => Return ""
                        | _ => ToString e
                        end) elems)
        (fun texts => Return (String.concat sep texts)).

(** [Number(v)].  For an array or an object [ToPrimitive] ends in the
    same [toString] as above, and throws where that throws. *)
Definition ToNumber (v : Value) : Completion spec_float :=
  match v with
  | JSUndefined => Return S754_nan
  | JSNull => Return (S754_zero false)
  | JSBoolean b => Return (if b then float_of_Z 1 else S754_zero false)
  | JSNumber x => Return x
  | JSString s => Return (StringToNumber s)
  | JSArray _ | JSObject _ => cbind (ToString v) (fun s => Return (StringToNumber s))
  end.

(** Whether [ToString] of a value returns. *)
Definition converts (v : Value) : bool :=
  match ToString v with
  | Return _ => true
  | Throw _ => false
  end.

(** The text of a value that converts. *)
Definition textOf (v : Value) : string :=
  match ToString v with
  | Return s => s
  | Throw _ => ""
  end.

(** [x.toFixed(fractionDigits)]: the nearest multiple of
    [10^-fractionDigits], the larger one of two equally near; numbers
    from [10^21] on are printed by [Number::toString]. *)
Definition toFixed (x : spec_float) (fractionDigits : nat) : string :=
  match x with
  | S754_zero _ => fmt.fixed_digits 0 fractionDigits
  | S754_finite s m e =>
      if at_least_1e21 x then Number_toString x
      else (if s then "-" else "") +:+
           fmt.fixed_digits (fmt.scaled_round fmt.TieUp m e fractionDigits) fractionDigits
  | _ => Number_toString x
  end.

End runtime.

(** Computations that write to the console and may throw. *)
Definition JSM (A : Type) : Type :=
  list ConsoleEntry -> Completion A * list ConsoleEntry.

Definition jret {A} (a : A) : JSM A := fun c => (Return a, c).
Definition jthrow {A} (e : Value) : JSM A := fun c => (Throw e, c).
Definition jbind {A B} (m : JSM A) (f : A -> JSM B) : JSM B :=
  fun c => match m c with
           | (Return a, c') => f a c'
           | (Throw e, c') => (Throw e, c')
           end.
Definition lift {A} (r : Completion A) : JSM A := fun c => (r, c).
Definition console (e : ConsoleEntry) : JSM unit := fun c => (Return tt, (c ++ [e])%list).
(** A call that writes [entries] to the console before it completes. *)
Definition writing {A} (r : Completion A * list ConsoleEntry) : JSM A :=
  fun c => (fst r, (c ++ snd r)%list).

(** [try { body } catch (error) { handler }]. *)
Definition try_catch {A} (body : JSM A) (handler : Value -> JSM A) : JSM A :=
  fun c => match body c with
           | (Return a, c') => (Return a, c')
           | (Throw e, c') => handler e c'
           end.

(** [arr.map(f)], left to right, stopping at the first throw. *)
Fixpoint mapM {A B} (f : A -> JSM B) (l : list A) : JSM (list B) :=
  match l with
  | [] => jret []
  | x :: rest =>
      jbind (f x) (fun y => jbind (mapM f rest) (fun ys => jret (y :: ys)))
  end.

End JS.

(* ===================================================================== *)
(** ** TypeScript: vector-store.ts and agent.ts *)
(* ===================================================================== *)

Module TS.
Import JS.

Declare Scope js_scope.
Delimit Scope js_scope with js.
Notation "x <-- c ;; f" := (jbind c (fun x => f))
  (at level 100, c at next level, right associativity) : js_scope.
Notation "c ;;;; f" := (jbind c (fun _ => f))
  (at level 100, right associativity) : js_scope.
#[local] Open Scope js_scope.

Definition TOOL_NAME : string := "search_hotels_collection".

(** The objects handed to the tool in [config.context]. *)
Record EmbeddingClient := mkEmbeddingClient {
  embedQuery : string -> Completion (list spec_float)
}.

(** A search hit [[doc, score]]; [metadata] is [doc.metadata]. *)
Record Hit := mkHit {
  metadata : Value;
  hit_score : Value
}.

Record Store := mkStore {
  similaritySearchVectorWithScore : list spec_float -> spec_float -> Completion (list Hit)
}.

Record Context := mkContext {
  store : Store;
  embeddingClient : EmbeddingClient
}.

(** The second argument of the tool function; [context] may be missing. *)
Record ToolConfig := mkToolConfig {
  context : option Context
}.

Section app.
Context `{Runtime}.

(** [formatAddress]: the entries of the object it returns, in order. *)
Definition formatAddress (addr : Value) : list (string * Value) :=
  [ ("Address.StreetAddress", nullish (GetOpt addr "StreetAddress") (JSString ""));
    ("Address.City", nullish (GetOpt addr "City") (JSString ""));
    ("Address.StateProvince", nullish (GetOpt addr "StateProvince") (JSString ""));
    ("Address.PostalCode", nullish (GetOpt addr "PostalCode") (JSString ""));
    ("Address.Country", nullish (GetOpt addr "Country") (JSString "")) ].

(** [formatHotelForSynthesizer]. *)
Definition formatHotelForSynthesizer (md score : Value) : Completion string :=
  cbind (Get md "Address") (fun mdAddress =>
  let addr := or_else mdAddress (JSObject []) in
  cbind (Get md "Tags") (fun mdTags =>
  cbind (match mdTags with
         | JSArray elems => join elems ", "
         | _ => ToString (or_else mdTags (JSString ""))
         end) (fun tags =>
  cbind (Get md "HotelId") (fun mdHotelId =>
  cbind (Get md "HotelName") (fun mdHotelName =>
  cbind (Get md "Description") (fun mdDescription =>
  cbind (Get md "Category") (fun mdCategory =>
  cbind (Get md "ParkingIncluded") (fun mdParkingIncluded =>
  cbind (Get md "IsDeleted") (fun mdIsDeleted =>
  cbind (Get md "LastRenovationDate") (fun mdLastRenovationDate =>
  cbind (Get md "Rating") (fun mdRating =>
  cbind (ToNumber (nullish score (JSNumber (S754_zero false)))) (fun scoreNumber =>
  let fields : list (string * Value) :=
    ([ ("HotelId", nullish mdHotelId (JSString "N/A"));
       ("HotelName", nullish mdHotelName (JSString "N/A"));
       ("Description", nullish mdDescription (JSString ""));
       ("Category", nullish mdCategory (JSString ""));
       ("Tags", JSString tags);
       ("ParkingIncluded", JSBoolean (is_true mdParkingIncluded));
       ("IsDeleted", JSBoolean (is_true mdIsDeleted));
       ("LastRenovationDate", nullish mdLastRenovationDate (JSString ""));
       ("Rating", nullish mdRating (JSString "")) ]
     ++ formatAddress addr
     ++ [ ("Score", JSString (toFixed scoreNumber 6)) ])%list in
  cbind (mapC (fun '(key, value) =>
                 cbind (ToString value) (fun text => Return (key +:+ ": " +:+ text)))
              fields) (fun lines =>
  Return
    (String.concat nl
       (["--- HOTEL START ---"] ++ lines ++ ["--- HOTEL END ---"])%list)))))))))))))).

(** The callback of [results.map] in the tool function: log the hit and
    format it. *)
Definition formatHit (hit : Hit) : JSM string :=
  let md := metadata hit in
  let score := hit_score hit in
  name <-- lift (Get md "HotelName") ;;
  nameText <-- lift (ToString (nullish name (JSString "N/A"))) ;;
  scoreText <-- lift (ToString score) ;;
  console (console_log ("Hotel: " +:+ nameText +:+ ", Score: " +:+ scoreText)) ;;;;
  lift (formatHotelForSynthesizer md score).

(** The text the tool returns from its [catch] clause. *)
Definition errorText : string := "Error occurred while searching for hotels.".

(** The [try] block of the tool function. *)
Definition searchAndFormat (query : string) (nearestNeighbors : spec_float)
    (config : ToolConfig) : JSM string :=
  ctx <-- lift (match context config with
                | Some ctx => Return ctx
                | None => Throw (TypeError "Cannot read properties of undefined (reading 'store')")
                end) ;;
  let store := store ctx in
  let embeddingClient := embeddingClient ctx in
  queryVector <-- lift (embedQuery embeddingClient query) ;;
  results <-- lift (similaritySearchVectorWithScore store queryVector nearestNeighbors) ;;
  console (console_log ("Found " +:+ fmt.Itoa (Z.of_nat (length results)) +:+
                        " documents from vector store")) ;;;;
  formatted <-- mapM formatHit results ;;
  jret (String.concat (nl +:+ nl) formatted).

(** The function given to [tool(...)] as [getHotelsToMatchSearchQuery]:
    the block above inside [try], and the [catch] clause. *)
Definition getHotelsToMatchSearchQuery (query : string) (nearestNeighbors : spec_float)
    (config : ToolConfig) : JSM string :=
  try_catch
    (searchAndFormat query nearestNeighbors config)
    (fun error =>
       console (console_error "Error in getHotelsToMatchSearchQuery tool:" error) ;;;;
       jret errorText).

(** The schema of the tool:
    [z.object({ query: z.string(), nearestNeighbors: z.number().optional().default(5) })];
    the parsed arguments, or nothing for an input the schema refuses. *)
Definition schema_parse (input : Value) : option (string * spec_float) :=
  match input with
  | JSObject props =>
      match lookup_prop props "query" with
      | JSString query =>
          match lookup_prop props "nearestNeighbors" with
          | JSUndefined => Some (query, float_of_Z 5)
          | JSNumber x =>
              match x with
              | S754_nan => None
              | S754_infinity _ => if zod_rejects_infinite then None else Some (query, x)
              | _ => Some (query, x)
              end
          | _ => None
          end
      | _ => None
      end
  | _ => None
  end.

(** Calling the tool that [tool(fn, { schema })] builds: the input is
    parsed by the schema and the parsed arguments go to the function; for
    an input the schema refuses the call throws the exception of the
    framework and the function is not run. *)
Definition tool_invoke (input : Value) (config : ToolConfig) : JSM string :=
  match schema_parse input with
  | Some args => getHotelsToMatchSearchQuery (fst args) (snd args) config
  | None => jthrow (ToolInputParsingException input)
  end.

(** The predicate of [messages.find] in [extractPlannerToolOutput]. *)
Definition isToolMessage (m : Value) : bool :=
  if negb (truthy m) then false
  else if match GetOpt m "name" with
          | JSString n => String.eqb n TOOL_NAME
          | _ => false
          end then true
  else if match GetOpt m "role" with
          | JSString r => String.eqb r "tool"
          | _ => false
          end then true
  else if truthy (GetOpt m "tool_call_id") then true
  else false.

(** The warning of [extractPlannerToolOutput]. *)
Definition notInvokedWarning : string :=
  "Tool " +:+ dquote +:+ TOOL_NAME +:+ dquote +:+ " was not invoked by the planner agent.".

(** [extractPlannerToolOutput]. *)
Definition extractPlannerToolOutput (plannerMessages : Value) : JSM Value :=
  let messages := or_else plannerMessages (JSArray []) in
  match messages with
  | JSArray elems =>
      match List.find isToolMessage elems with
      | None =>
          console (console_warn notInvokedWarning) ;;;;
          jret (JSString "")
      | Some toolMsg =>
          match GetOpt toolMsg "content" with
          | JSString content => jret (JSString content)
          | JSArray blocks =>
              texts <-- mapM (fun block =>
                  text <-- lift (Get block "text") ;;
                  jret (nullish text (JSON_stringify block))) blocks ;;
              joined <-- lift (join texts "") ;;
              jret (JSString joined)
          | content => jret (JSON_stringify content)
          end
      end
  | _ => jthrow (TypeError "messages.find is not a function")
  end.

(** The message [runPlannerAgent] sends to the agent. *)
Definition plannerUserMessage (userQuery : string) (nearestNeighbors : spec_float) : string :=
  "Use the " +:+ dquote +:+ TOOL_NAME +:+ dquote +:+ " tool with nearestNeighbors=" +:+
  Number_toString nearestNeighbors +:+ " and query=" +:+ dquote +:+ userQuery +:+ dquote +:+
  ". Do not answer directly; call the tool.".

(** [runPlannerAgent]. *)
Definition runPlannerAgent (userQuery : string) (nearestNeighbors : spec_float)
  : JSM Value :=
  console (console_log (nl +:+ "--- PLANNER ---")) ;;;;
  let userMessage := plannerUserMessage userQuery nearestNeighbors in
  agentResult <-- writing (agent_invoke userMessage) ;;
  messages <-- lift (Get agentResult "messages") ;;
  let plannerMessages := or_else messages (JSArray []) in
  extractPlannerToolOutput plannerMessages.

End app.
End TS.

(* ===================================================================== *)
(** ** Views of a run, used to state the properties *)
(* ===================================================================== *)

(** The requests the Search Tool makes: one embedding request, then one
    aggregation. *)
Definition is_search_request (r : Request) : bool :=
  match r with
  | ReqEmbedding _ _ | ReqAggregate _ => true
  | _ => false
  end.

Definition search_requests (w : World) : list Request :=
  List.filter is_search_request (requests w).

(** The neighbour counts of the aggregations recorded in a world. *)
Definition searched_ks (w : World) : list Z :=
  flat_map (fun r => match r with
                     | ReqAggregate p => [search_k p]
                     | _ => []
                     end) (requests w).

(** The insert calls recorded in a world. *)
Definition insert_calls (w : World) : list Request :=
  List.filter (fun r => match r with ReqInsertMany _ _ => true | _ => false end) (requests w).

Definition all_digits (s : string) : bool :=
  forallb (fun c => (48 <=? nat_of_ascii c)%nat && (nat_of_ascii c <=? 57)%nat)
          (list_ascii_of_string s).

(** A block enclosed by a start line and an end line. *)
Definition wrapped (start_marker end_marker block : string) : Prop :=
  exists body, block = start_marker +:+ nl +:+ body +:+ nl +:+ end_marker.

(** The similarity metrics of the index, and when a score is at least as
    good as another: larger for cosine and inner product, smaller for the
    Euclidean distance. *)
Inductive Metric := COS | IP | L2.

Definition at_least_as_good (m : Metric) (s1 s2 : spec_float) : bool :=
  match m with
  | L2 => SFleb s1 s2
  | COS | IP => SFleb s2 s1
  end.

(** Best match first: each score is at least as good as the next. *)
Fixpoint best_first (m : Metric) (scores : list spec_float) : bool :=
  match scores with
  | s1 :: (s2 :: _) as rest => at_least_as_good m s1 s2 && best_first m rest
  | _ => true
  end.

Module Spec.
Section spec.
Context `{Services}.

(** The message [Run] sends to the planner model. *)
Definition plannerUserMessage (userQuery : string) (nearestNeighbors : Z) : string :=
  "Search for hotels matching this request: " +:+ dquote +:+ userQuery +:+ dquote +:+
  ". Use nearestNeighbors=" +:+ fmt.Itoa nearestNeighbors +:+ ".".

(** How [Run] starts: the banner and the model call. *)
Definition plannerCall (a : agents.PlannerAgent) (userQuery : string)
    (nearestNeighbors : Z) : M (result ChatCompletion) :=
  Print (nl +:+ "--- PLANNER ---" +:+ nl) ;;;
  clients.ChatCompletionWithTools (agents.openAIClients a) PlannerSystemPrompt
    (plannerUserMessage userQuery nearestNeighbors)
    [agents.GetToolDefinition (agents.searchTool a)].

(** How [Run] ends once the arguments are settled: three lines of
    output, the Search Tool, and its result or its error wrapped. *)
Definition invokeSearchTool (a : agents.PlannerAgent) (toolName query : string) (k : Z)
  : M (result string) :=
  Print ("Tool: " +:+ toolName +:+ nl) ;;;
  Print ("Query: " +:+ query +:+ nl) ;;;
  Print ("K: " +:+ fmt.Itoa k +:+ nl) ;;;
  s <- agents.Execute (agents.searchTool a) query k ;;
  match s with
  | Err err => ret (Err (Errorf ("search tool execution failed: " +:+ Error err)))
  | Ok searchResults => ret (Ok searchResults)
  end.

(** The results the vector search hands to the formatting loop of
    [Execute], when both the embedding and the search succeed. *)
Definition searchResultsOf (t : agents.VectorSearchTool) (query : string) (k : Z)
    (w : World) : option (list HotelSearchResult) :=
  match clients.GenerateEmbedding (agents.tool_openAIClients t) query w with
  | (Ok queryVector, w1) =>
      match vectorstore.VectorSearch (agents.vectorStore t) queryVector k w1 with
      | (Ok results, _) => Some results
      | (Err _, _) => None
      end
  | (Err _, _) => None
  end.

(** The block of one result, written field by field in the order of the
    specification. *)
Definition hotelBlock (r : HotelSearchResult) : string :=
  "--- HOTEL START ---" +:+ nl +:+
  "HotelId: " +:+ HotelID (Hotel r) +:+ nl +:+
  "HotelName: " +:+ HotelName (Hotel r) +:+ nl +:+
  "Description: " +:+ Description (Hotel r) +:+ nl +:+
  "Category: " +:+ Category (Hotel r) +:+ nl +:+
  "Tags: " +:+ String.concat ", " (Tags (Hotel r)) +:+ nl +:+
  "ParkingIncluded: " +:+ (if ParkingIncluded (Hotel r) then "true" else "false") +:+ nl +:+
  "IsDeleted: " +:+ (if IsDeleted (Hotel r) then "true" else "false") +:+ nl +:+
  "LastRenovationDate: " +:+ Format_2006_01_02 (LastRenovationDate (Hotel r)) +:+ nl +:+
  "Rating: " +:+ fmt.FormatFloat (Rating (Hotel r)) 1 +:+ nl +:+
  "Address.StreetAddress: " +:+ StreetAddress (Address (Hotel r)) +:+ nl +:+
  "Address.City: " +:+ City (Address (Hotel r)) +:+ nl +:+
  "Address.StateProvince: " +:+ StateProvince (Address (Hotel r)) +:+ nl +:+
  "Address.PostalCode: " +:+ PostalCode (Address (Hotel r)) +:+ nl +:+
  "Address.Country: " +:+ Country (Address (Hotel r)) +:+ nl +:+
  "Score: " +:+ fmt.FormatFloat (Score r) 6 +:+ nl +:+
  "--- HOTEL END ---".

End spec.
End Spec.

(* ===================================================================== *)
(** ** Statements that the code is checked against *)
(* ===================================================================== *)

Module Stated.

(** A reply without tool calls and with text makes [Run] fail with an
    error that contains the text, whatever else the reply says. *)
Definition text_reply_fails_with_text : Prop :=
  forall (S : Services) (a : agents.PlannerAgent) (userQuery : string) (requestedK : Z)
         (w w1 : World) (resp : ChatCompletion) (c0 : Choice) (rest : list Choice),
    Spec.plannerCall a userQuery requestedK w = (Ok resp, w1) ->
    Choices resp = c0 :: rest ->
    ToolCalls (Message_ c0) = [] ->
    Content (Message_ c0) <> "" ->
    exists e, fst (agents.Run a userQuery requestedK w) = Err e /\
              strings.Contains (Error e) (Content (Message_ c0)) = true.

(** With the neighbour count of the parsed arguments zero, every search
    that [Run] issues uses the caller's count, and that count is not
    zero. *)
Definition default_k_never_zero : Prop :=
  forall (S : Services) (a : agents.PlannerAgent) (userQuery : string) (requestedK : Z)
         (w w1 : World) (resp : ChatCompletion) (argsMap : gmap string any)
         (args : agents.toolArguments),
    Spec.plannerCall a userQuery requestedK w = (Ok resp, w1) ->
    clients.ExtractToolCall (Some resp) = Ok (prompts.ToolName, argsMap) ->
    agents.parseToolArgumentsFromMap argsMap = Ok args ->
    agents.NearestNeighbors args = 0 ->
    forall kk, In kk (searched_ks (snd (agents.Run a userQuery requestedK w))) ->
               ~ In kk (searched_ks w) ->
               kk = requestedK /\ kk <> 0.

(** [Execute] hands back a string whatever happens. *)
Definition execute_always_returns_string : Prop :=
  forall (S : Services) (t : agents.VectorSearchTool) (query : string) (kk : Z) (w : World),
    exists s, fst (agents.Execute t query kk w) = Ok s.

(** The output for a non-empty list of results is one block per result,
    each between the lines [start_marker] and [end_marker], the blocks
    separated by an empty line. *)
Definition blocks_between (start_marker end_marker : string) : Prop :=
  forall (S : Services) (t : agents.VectorSearchTool) (query : string) (kk : Z) (w : World)
         (results : list HotelSearchResult) (out : string),
    results <> [] ->
    Spec.searchResultsOf t query kk w = Some results ->
    fst (agents.Execute t query kk w) = Ok out ->
    exists blocks,
      out = String.concat (nl +:+ nl) blocks /\
      length blocks = length results /\
      Forall (wrapped start_marker end_marker) blocks.

(** Whatever order the store answers in, the results of [VectorSearch]
    are best match first under the metric of the index. *)
Definition search_normalizes_order : Prop :=
  forall (S : Services) (metric : Metric) (vs : vectorstore.VectorStore)
         (queryVector : list spec_float) (kk : Z) (w : World)
         (cursor : Cursor) (docs : list ScoredDocument),
    1 <= kk <= 20 ->
    collection w <> [] ->
    Collection_Aggregate (collection w)
      (mkPipeline queryVector (vectorstore.EmbeddedField (vectorstore.config vs)) kk)
      = Ok cursor ->
    batch cursor = List.map Ok docs ->
    cursor_Err cursor = None ->
    length docs = Nat.min (Z.to_nat kk) (length (collection w)) ->
    exists results,
      fst (vectorstore.VectorSearch vs queryVector kk w) = Ok results /\
      length results = Nat.min (Z.to_nat kk) (length (collection w)) /\
      best_first metric (List.map Score results) = true.

(** The TypeScript planner fails when no message of the agent is a tool
    message. *)
Definition ts_planner_fails_without_tool : Prop :=
  forall (R : JS.Runtime) (userQuery : string) (nn : spec_float) (c : list JS.ConsoleEntry)
         (aprops : list (string * JS.Value)) (messages : list JS.Value),
    fst (JS.agent_invoke (TS.plannerUserMessage userQuery nn)) = JS.Return (JS.JSObject aprops) ->
    JS.lookup_prop aprops "messages" = JS.JSArray messages ->
    List.find TS.isToolMessage messages = None ->
    exists e, fst (TS.runPlannerAgent userQuery nn c) = JS.Throw e.

(** The TypeScript tool, called without [nearestNeighbors], runs with the
    caller's count. *)
Definition ts_missing_k_is_requestedK : Prop :=
  forall (R : JS.Runtime) (requestedK : spec_float) (props : list (string * JS.Value))
         (q : string) (config : TS.ToolConfig) (c : list JS.ConsoleEntry),
    JS.lookup_prop props "query" = JS.JSString q ->
    JS.lookup_prop props "nearestNeighbors" = JS.JSUndefined ->
    TS.tool_invoke (JS.JSObject props) config c =
    TS.getHotelsToMatchSearchQuery q requestedK config c.

(** The TypeScript formatter returns a block for every metadata object
    and every score. *)
Definition ts_formatter_total : Prop :=
  forall (R : JS.Runtime) (props : list (string * JS.Value)) (score : JS.Value),
    exists block, TS.formatHotelForSynthesizer (JS.JSObject props) score = JS.Return block.

End Stated.

(* ===================================================================== *)
(** ** Concrete runs *)
(* ===================================================================== *)

Module Scenario.

Definition hotelA : HotelForVectorStore :=
  mkHotelForVectorStore "1" "Stay-Kay City Hotel"
    "Ideally located on the main commercial artery of the city." "Boutique"
    ["view"; "air conditioning"; "concierge"] false false (mkTime 2022 1 18)
    (S754_finite false 9 (-2))
    (mkAddress "677 5th Ave" "New York" "NY" "10022" "USA") [].

Definition hotelB : HotelForVectorStore :=
  mkHotelForVectorStore "2" "Old Century Hotel"
    "A historic hotel close to gardens and restaurants." "Budget"
    ["pool"; "free wifi"] true false (mkTime 2019 2 18)
    (S754_finite false 7 (-1))
    (mkAddress "140 University Town Center Dr" "Sarasota" "FL" "34243" "USA") [].

(** 1/8 and 7/8. *)
Definition low : spec_float := S754_finite false 1 (-3).
Definition high : spec_float := S754_finite false 7 (-3).

Definition openai : clients.OpenAIClients :=
  clients.mkOpenAIClients (clients.mkOpenAIConfig "embed" "planner" "synth" false).

Definition vstore (debug : bool) : vectorstore.VectorStore :=
  vectorstore.mkVectorStore
    (vectorstore.mkVectorStoreConfig "hotels" "vectorIndex" "DescriptionVector" debug).

Definition tool : agents.VectorSearchTool :=
  agents.mkVectorSearchTool openai (vstore false) false.

Definition agent : agents.PlannerAgent := agents.mkPlannerAgent openai tool false.

Definition w0 : World := mkWorld [] [] [hotelA; hotelB].

(** The raw arguments of a tool call that names only the query. *)
Definition argsJSON : string :=
  "{" +:+ dquote +:+ "query" +:+ dquote +:+ ": " +:+ dquote +:+
  "budget hotel with good value" +:+ dquote +:+ "}".

Definition argsMap : gmap string any :=
  {[ "query" := any_string "budget hotel with good value" ]}.

Definition unmarshal (s : string) : result (gmap string any) :=
  if String.eqb s argsJSON then Ok argsMap
  else Err (errorString "invalid character").

(** A reply that calls the tool [name] with the arguments above. *)
Definition callReply (name finish : string) : ChatCompletion :=
  mkChatCompletion
    [mkChoice finish
       (mkChatCompletionMessage ""
          [mkToolCall "call_1" "function" (mkFunctionCall name argsJSON)])].

(** A reply in plain text. *)
Definition textReply (text finish : string) : ChatCompletion :=
  mkChatCompletion [mkChoice finish (mkChatCompletionMessage text [])].

Definition embeddingOk : result (list Embedding) :=
  Ok [mkEmbedding [float_of_Z 1; float_of_Z 0]].

(** The services of a run: the planner's reply, the embedding answer,
    the cursor and the outcome of an insert. *)
Definition services (reply : ChatCompletion) (embedding : result (list Embedding))
    (cursor : result Cursor)
    (insert : list HotelForVectorStore -> list HotelForVectorStore ->
              list HotelForVectorStore * InsertManyResult * option error)
  : Services :=
  mkServices
    (fun _ _ _ => (Some reply, None))
    (fun _ _ => embedding)
    (fun coll docs _ => insert coll docs)
    (fun _ _ => cursor)
    unmarshal
    (fun _ => - 2 ^ 63)
    "You are a hotel search planner.".

Definition insertAll (coll docs : list HotelForVectorStore)
  : list HotelForVectorStore * InsertManyResult * option error :=
  ((coll ++ docs)%list, mkInsertManyResult (List.map HotelID docs), None).

(** An unordered insert in which the last document is refused. *)
Definition insertAllButLast (coll docs : list HotelForVectorStore)
  : list HotelForVectorStore * InsertManyResult * option error :=
  ((coll ++ removelast docs)%list,
   mkInsertManyResult (List.map HotelID (removelast docs)),
   Some (BulkWriteException
           [mkBulkWriteError (Z.of_nat (length docs) - 1) 11000 "duplicate key"]
           "bulk write exception: write errors: [duplicate key]")).

(** The store answers with [hotelA] at score 1/8, then [hotelB] at 7/8. *)
Definition cursorLowHigh : Cursor :=
  mkCursor [Ok (mkScoredDocument low hotelA); Ok (mkScoredDocument high hotelB)] None.

Definition cursorHighLow : Cursor :=
  mkCursor [Ok (mkScoredDocument high hotelB); Ok (mkScoredDocument low hotelA)] None.

(** The planner calls the tool; everything downstream works. *)
Definition happy : Services :=
  services (callReply prompts.ToolName "tool_calls") embeddingOk (Ok cursorHighLow) insertAll.

(** The planner answers in text and is cut off by the length limit. *)
Definition truncated : Services :=
  services (textReply "I can suggest a few hotels near" "length") embeddingOk
    (Ok cursorHighLow) insertAll.

(** The planner answers in text instead of calling the tool. *)
Definition declined : Services :=
  services (textReply "I cannot search for hotels." "stop") embeddingOk
    (Ok cursorHighLow) insertAll.

(** The planner calls another tool. *)
Definition otherTool : Services :=
  services (callReply "book_hotel" "tool_calls") embeddingOk (Ok cursorHighLow) insertAll.

(** The embedding service is down. *)
Definition embeddingDown : Services :=
  services (callReply prompts.ToolName "tool_calls") (Err (errorString "503 Service Unavailable"))
    (Ok cursorHighLow) insertAll.

(** The store answers worst match first. *)
Definition worstFirst : Services :=
  services (callReply prompts.ToolName "tool_calls") embeddingOk (Ok cursorLowHigh) insertAll.

(** The store refuses one document of an insert. *)
Definition partialInsert : Services :=
  services (callReply prompts.ToolName "tool_calls") embeddingOk (Ok cursorHighLow)
    insertAllButLast.

(** A JavaScript runtime for the TypeScript examples: the agent answers
    with [agentResult] after writing [entries] to the console. *)
Definition runtimeWriting (agentResult : JS.Completion JS.Value)
    (entries : list JS.ConsoleEntry) : JS.Runtime :=
  JS.mkRuntime (fun _ => "4.5") (fun _ => S754_nan) (fun _ => JS.JSString "{}") false
    (fun _ => JS.JSObject
                [("name", JS.JSString "ToolInputParsingException");
                 ("message", JS.JSString "Received tool input did not match expected schema")])
    (fun _ => (agentResult, entries)).

Definition runtime (agentResult : JS.Completion JS.Value) : JS.Runtime :=
  runtimeWriting agentResult [].

(** The messages of a planner run in which the model answered in text:
    the user's message and the model's. *)
Definition messagesWithoutTool : list JS.Value :=
  [ JS.JSObject [("type", JS.JSString "human");
                 ("content", JS.JSString "Use the tool")];
    JS.JSObject [("type", JS.JSString "ai");
                 ("content", JS.JSString "I cannot search for hotels.");
                 ("tool_calls", JS.JSArray [])] ].

Definition tsContext (embed : JS.Completion (list spec_float))
    (hits : JS.Completion (list TS.Hit)) : TS.ToolConfig :=
  TS.mkToolConfig
    (Some (TS.mkContext (TS.mkStore (fun _ _ => hits))
                        (TS.mkEmbeddingClient (fun _ => embed)))).

(** Two hits of the TypeScript store, the second with sparse metadata. *)
Definition tsHits : list TS.Hit :=
  [ TS.mkHit
      (JS.JSObject [("HotelId", JS.JSString "2");
                    ("HotelName", JS.JSString "Old Century Hotel");
                    ("Tags", JS.JSArray [JS.JSString "pool"; JS.JSString "free wifi"]);
                    ("ParkingIncluded", JS.JSBoolean true);
                    ("Address", JS.JSObject [("City", JS.JSString "Sarasota")])])
      (JS.JSNumber high);
    TS.mkHit (JS.JSObject []) (JS.JSNumber low) ].

Definition tsContextOk : TS.Context :=
  TS.mkContext (TS.mkStore (fun _ _ => JS.Return tsHits))
               (TS.mkEmbeddingClient (fun _ => JS.Return [float_of_Z 1; float_of_Z 0])).

Definition tsConfigOk : TS.ToolConfig := TS.mkToolConfig (Some tsContextOk).

(** The embedding client of the TypeScript tool rejects. *)
Definition tsConfigEmbeddingDown : TS.ToolConfig :=
  tsContext (JS.Throw (JS.JSString "503 Service Unavailable")) (JS.Return tsHits).

Definition runtime0 : JS.Runtime := runtime (JS.Return (JS.JSObject [])).

(** The results of the Go search in the [happy] run. *)
Definition happyResults : list HotelSearchResult :=
  [mkHotelSearchResult hotelB high; mkHotelSearchResult hotelA low].

(** A TypeScript store that answers with as many hits as it is asked for,
    out of two. *)
Definition tsConfigByK : TS.ToolConfig :=
  TS.mkToolConfig
    (Some (TS.mkContext
             (TS.mkStore (fun _ kk =>
                JS.Return (List.firstn (Z.to_nat (int_of_float64 (fun _ => 0) kk))
                             (tsHits ++ tsHits ++ tsHits ++ tsHits)%list)))
             (TS.mkEmbeddingClient (fun _ => JS.Return [float_of_Z 1; float_of_Z 0])))).

(** The agent result of a planner run in which the model answered in
    text. *)
Definition runtimeDeclined : JS.Runtime :=
  runtime (JS.Return (JS.JSObject [("messages", JS.JSArray messagesWithoutTool)])).

End Scenario.

(* ===================================================================== *)
(** ** TypeScript: the block of a hit as the specification words it *)
(* ===================================================================== *)

Module TSSpec.
Import JS.
Section tsspec.
Context `{Runtime}.

(** A value that counts as missing. *)
Definition absent (v : Value) : Prop := v = JSUndefined \/ v = JSNull.

(** The text of a field, or [default] when the field is missing. *)
Definition textOr (v : Value) (default : string) : string :=
  match v with
  | JSUndefined | JSNull => default
  | _ => textOf v
  end.

(** A flag is true only when the field is the boolean true. *)
Definition flagText (v : Value) : string :=
  match v with
  | JSBoolean true => "true"
  | _ => "false"
  end.

(** The tags: the elements of an array joined by comma and space; the
    text of any other value, empty for a missing or falsy one. *)
Definition tagsText (v : Value) : string :=
  match v with
  | JSArray elems =>
      match join elems ", " with
      | Return text => text
      | Throw _ => ""
      end
  | _ => if truthy v then textOf v else ""
  end.

(** A field of the address, empty when the address or the field is
    missing. *)
Definition addressField (address : Value) (key : string) : string :=
  textOr (GetOpt (if truthy address then address else JSObject []) key) "".

(** The score with six decimals, a missing score counting as 0. *)
Definition scoreText (score : Value) : string :=
  match score with
  | JSUndefined | JSNull => "0.000000"
  | _ =>
      match ToNumber score with
      | Return x => toFixed x 6
      | Throw _ => ""
      end
  end.

(** The complete block of a metadata object with properties [props]. *)
Definition hotelBlock (props : list (string * Value)) (score : Value) : string :=
  "--- HOTEL START ---" +:+ nl +:+
  "HotelId: " +:+ textOr (lookup_prop props "HotelId") "N/A" +:+ nl +:+
  "HotelName: " +:+ textOr (lookup_prop props "HotelName") "N/A" +:+ nl +:+
  "Description: " +:+ textOr (lookup_prop props "Description") "" +:+ nl +:+
  "Category: " +:+ textOr (lookup_prop props "Category") "" +:+ nl +:+
  "Tags: " +:+ tagsText (lookup_prop props "Tags") +:+ nl +:+
  "ParkingIncluded: " +:+ flagText (lookup_prop props "ParkingIncluded") +:+ nl +:+
  "IsDeleted: " +:+ flagText (lookup_prop props "IsDeleted") +:+ nl +:+
  "LastRenovationDate: " +:+ textOr (lookup_prop props "LastRenovationDate") "" +:+ nl +:+
  "Rating: " +:+ textOr (lookup_prop props "Rating") "" +:+ nl +:+
  "Address.StreetAddress: " +:+ addressField (lookup_prop props "Address") "StreetAddress" +:+ nl +:+
  "Address.City: " +:+ addressField (lookup_prop props "Address") "City" +:+ nl +:+
  "Address.StateProvince: " +:+ addressField (lookup_prop props "Address") "StateProvince" +:+ nl +:+
  "Address.PostalCode: " +:+ addressField (lookup_prop props "Address") "PostalCode" +:+ nl +:+
  "Address.Country: " +:+ addressField (lookup_prop props "Address") "Country" +:+ nl +:+
  "Score: " +:+ scoreText score +:+ nl +:+
  "--- HOTEL END ---".

(** The values of a hit that the formatter turns into text, in the
    order in which it does: the tags, the score, and the fields that are
    not flags. *)
Definition printed (props : list (string * Value)) (score : Value) : list Value :=
  let address := if truthy (lookup_prop props "Address")
                 then lookup_prop props "Address" else JSObject [] in
  [ lookup_prop props "Tags"; score;
    lookup_prop props "HotelId"; lookup_prop props "HotelName";
    lookup_prop props "Description"; lookup_prop props "Category";
    lookup_prop props "LastRenovationDate"; lookup_prop props "Rating";
    GetOpt address "StreetAddress"; GetOpt address "City";
    GetOpt address "StateProvince"; GetOpt address "PostalCode";
    GetOpt address "Country" ].

(** Whether each of these values converts to text. *)
Definition printable (props : list (string * Value)) (score : Value) : bool :=
  forallb converts (printed props score).

(** The block of a search hit whose metadata is an object. *)
Definition blockOf (hit : TS.Hit) : string :=
  match TS.metadata hit with
  | JSObject props => hotelBlock props (TS.hit_score hit)
  | _ => ""
  end.

(** Whether the metadata of a hit is an object whose values convert. *)
Definition printableHit (hit : TS.Hit) : bool :=
  match TS.metadata hit with
  | JSObject props => printable props (TS.hit_score hit)
  | _ => false
  end.

End tsspec.
End TSSpec.

(** A number written with exactly six decimals: an optional sign, at least
    one digit, the point, six digits. *)
Definition six_decimals (s : string) : Prop :=
  exists sign ip fp,
    s = sign +:+ ip +:+ "." +:+ fp /\
    (sign = "" \/ sign = "-") /\
    ip <> "" /\ all_digits ip = true /\
    all_digits fp = true /\ String.length fp = 6%nat.

(* ===================================================================== *)
(** ** More concrete runs *)
(* ===================================================================== *)

Module Scenario2.
Import Scenario.

(** A reply whose tool call has arguments that are not JSON. *)
Definition brokenReply : ChatCompletion :=
  mkChatCompletion
    [mkChoice "tool_calls"
       (mkChatCompletionMessage ""
          [mkToolCall "call_1" "function" (mkFunctionCall "book_hotel" "{query:")])].

Definition brokenArguments : Services :=
  services brokenReply embeddingOk (Ok cursorHighLow) insertAll.

(** A reply with two choices and two tool calls. *)
Definition firstChoice : Choice :=
  mkChoice "tool_calls"
    (mkChatCompletionMessage ""
       [mkToolCall "call_1" "function" (mkFunctionCall prompts.ToolName argsJSON);
        mkToolCall "call_2" "function" (mkFunctionCall "book_hotel" "{}")]).

(** The store answers with a document that does not decode. *)
Definition cursorUndecodable : Cursor :=
  mkCursor [Ok (mkScoredDocument high hotelB); Err (errorString "cannot decode string into a float64")]
    None.

Definition undecodable : Services :=
  services (callReply prompts.ToolName "tool_calls") embeddingOk (Ok cursorUndecodable) insertAll.

(** The store finds nothing. *)
Definition nothingFound : Services :=
  services (callReply prompts.ToolName "tool_calls") embeddingOk (Ok (mkCursor [] None)) insertAll.

(** The connection to the store is lost during an insert. *)
Definition insertUnreachable (coll docs : list HotelForVectorStore)
  : list HotelForVectorStore * InsertManyResult * option error :=
  (coll, mkInsertManyResult [], Some (errorString "server selection timeout")).

Definition storeUnreachable : Services :=
  services (callReply prompts.ToolName "tool_calls") embeddingOk (Ok cursorHighLow)
    insertUnreachable.

End Scenario2.

Module Scenario3.
Import Scenario.

(** The agent of the concrete runs with every debug flag on. *)
Definition loudOpenai : clients.OpenAIClients :=
  clients.mkOpenAIClients (clients.mkOpenAIConfig "embed" "planner" "synth-2" true).

Definition loudAgent : agents.PlannerAgent :=
  agents.mkPlannerAgent loudOpenai
    (agents.mkVectorSearchTool loudOpenai
       (vectorstore.mkVectorStore
          (vectorstore.mkVectorStoreConfig "inns" "idx" "DescriptionVector" true)) true)
    true.

(** The messages of a planner run in which the model called the tool
    twice. *)
Definition messagesWithTool : list JS.Value :=
  [ JS.JSObject [("type", JS.JSString "human"); ("content", JS.JSString "Use the tool")];
    JS.JSObject [("type", JS.JSString "ai"); ("content", JS.JSString "")];
    JS.JSObject [("name", JS.JSString TS.TOOL_NAME);
                 ("content", JS.JSString "--- HOTEL START ---")];
    JS.JSObject [("role", JS.JSString "tool"); ("content", JS.JSString "second answer")] ].

(** What the tool wrote while the agent ran. *)
Definition toolEntries : list JS.ConsoleEntry :=
  [ JS.console_log "Found 1 documents from vector store";
    JS.console_log "Hotel: Old Century Hotel, Score: 4.5" ].

Definition runtimeCalled : JS.Runtime :=
  Scenario.runtimeWriting
    (JS.Return (JS.JSObject [("messages", JS.JSArray messagesWithTool)])) toolEntries.

End Scenario3.

(* ===================================================================== *)
(** ** Go: strconv *)
(* ===================================================================== *)

Module strconv.

(** The value of a decimal digit. *)
Definition digit_value (c : ascii) : option Z :=
  let n := Z.of_N (N_of_ascii c) in
  if (48 <=? n) && (n <=? 57) then Some (n - 48) else None.

(** The value of a string of decimal digits read after [acc]. *)
Fixpoint digits_value (s : string) (acc : Z) : option Z :=
  match s with
  | EmptyString => Some acc
  | String c rest =>
      match digit_value c with
      | Some d => digits_value rest (10 * acc + d)
      | None => None
      end
  end.

(** [strconv.Atoi] where [int] has 64 bits: an optional sign and at least
    one decimal digit, nothing else; [None] is the syntax error or the
    range error. *)
Definition Atoi (s : string) : option Z :=
  let '(neg, body) :=
    match s with
    | String "+"%char rest => (false, rest)
    | String "-"%char rest => (true, rest)
    | _ => (false, s)
    end in
  match body with
  | EmptyString => None
  | _ =>
      match digits_value body 0 with
      | None => None
      | Some n =>
          let v := if neg then - n else n in
          if (- 2 ^ 63 <=? v) && (v <=? 2 ^ 63 - 1) then Some v else None
      end
  end.

End strconv.

(* ===================================================================== *)
(** ** Go: the host of the process *)
(* ===================================================================== *)

(** How the OpenAI client authenticates: [azure.WithTokenCredential] or
    [option.WithAPIKey]. *)
Inductive Auth :=
| WithTokenCredential
| WithAPIKey (key : string).

(** What [openai.NewClient] was given. *)
Record Client := mkClient {
  client_endpoint : string;
  client_apiVersion : string;
  client_auth : Auth
}.

(** What [mongo.Connect] was given: the URI, and whether the options carry
    the OIDC callback. *)
Record MongoClient := mkMongoClient {
  uri : string;
  oidc : bool
}.

Inductive BsonValue :=
| BsonInt (n : Z)
| BsonString (s : string).

(** The command of [CreateVectorIndex]: the collection, and the name, the
    key field (mapped to [cosmosSearch]) and the options of its one
    index. *)
Record IndexCommand := mkIndexCommand {
  createIndexes : string;
  index_name : string;
  index_key : string;
  cosmosSearchOptions : list (string * BsonValue)
}.

(** What the process did to its host, besides the requests of [World]. *)
Inductive Event :=
| EvCredential
| EvConnect (client : MongoClient)
| EvPing
| EvDisconnect
| EvRunCommand (command : IndexCommand)
| EvDrop (database : string)
| EvLog (msg : string).

Record Process := mkProcess {
  world : World;
  events : list Event
}.

(** The host.  The answers may depend on what the process did so far. *)
Class Host := mkHost {
  (** [os.Getenv], after [godotenv.Load] where the program calls it. *)
  Getenv : string -> string;
  (** [godotenv.Load(".env")]. *)
  godotenv_Load : option error;
  (** [azidentity.NewDefaultAzureCredential(nil)]. *)
  NewDefaultAzureCredential : list Event -> option error;
  (** [mongo.Connect]. *)
  mongo_Connect : MongoClient -> option error;
  (** [client.Ping]. *)
  client_Ping : MongoClient -> option error;
  (** [client.Disconnect]. *)
  client_Disconnect : MongoClient -> option error;
  (** [database.RunCommand(ctx, indexDef).Err()]. *)
  database_RunCommand : IndexCommand -> option error;
  (** [database.Drop] on a collection: the collection afterwards and the
      error. *)
  database_Drop : list HotelForVectorStore -> list HotelForVectorStore * option error;
  (** The text of the constant [prompts.SynthesizerSystemPrompt], which is
      sent and never inspected. *)
  SynthesizerSystemPrompt : string
}.

(** Computations of the process. *)
Definition P (A : Type) : Type := Process -> A * Process.

Definition pret {A} (a : A) : P A := fun p => (a, p).

Definition pbind {A B} (c : P A) (f : A -> P B) : P B :=
  fun p => let '(a, p') := c p in f a p'.

(** A computation on the world alone. *)
Definition liftM {A} (c : M A) : P A :=
  fun p => let '(a, w) := c (world p) in (a, mkProcess w (events p)).

Definition emit (e : Event) : P unit :=
  fun p => (tt, mkProcess (world p) (events p ++ [e])%list).

Definition pwhen (b : bool) (c : P unit) : P unit := if b then c else pret tt.

(** [fmt.Printf] and [fmt.Println] with the text already formatted. *)
Definition Printf (s : string) : P unit := liftM (Print s).
Definition Println (s : string) : P unit := liftM (Print (s +:+ nl)).

(** [log.Printf]: a line on standard error (its time stamp is left out). *)
Definition log_Printf (msg : string) : P unit := emit (EvLog msg).

(** [log.Fatalf]: the line, then [os.Exit(1)]; deferred calls do not run.
    The value is the exit status. *)
Definition log_Fatalf (msg : string) : P Z :=
  pbind (emit (EvLog msg)) (fun _ => pret 1).

Declare Scope proc_scope.
Delimit Scope proc_scope with proc.
Notation "x <- c ;; f" := (pbind c (fun x => f))
  (at level 100, c at next level, right associativity) : proc_scope.
Notation "c ;;; f" := (pbind c (fun _ => f))
  (at level 100, right associativity) : proc_scope.

(** A call that returns, or panics. *)
Inductive outcome (A : Type) :=
| Returns (a : A)
| Panics (msg : string).
Arguments Returns {A} a.
Arguments Panics {A} msg.

Section host.
Context `{Host}.

(** [azidentity.NewDefaultAzureCredential(nil)]. *)
Definition newCredential : P (option error) :=
  fun p => (NewDefaultAzureCredential (events p),
            mkProcess (world p) (events p ++ [EvCredential])%list).

(** An integer setting, as [CreateVectorIndex] and [main] read each of
    theirs: the default, unless the variable is set and [strconv.Atoi]
    reads it. *)
Definition envInt (name : string) (default : Z) : Z :=
  if String.eqb (Getenv name) "" then default
  else match strconv.Atoi (Getenv name) with
       | Some d => d
       | None => default
       end.

End host.

(* ===================================================================== *)
(** ** Go: internal/clients, configuration, creation and the synthesizer call *)
(* ===================================================================== *)

Module openai.
Section openai.
Context `{Services} `{Host}.
#[local] Open Scope proc_scope.

(** The configuration as [LoadConfigFromEnv] fills it; the record
    [clients.OpenAIConfig] is the part of it that the calls read. *)
Record OpenAIConfig := mkOpenAIConfig {
  Endpoint : string;
  APIKey : string;
  EmbeddingDeployment : string;
  EmbeddingAPIVersion : string;
  PlannerDeployment : string;
  PlannerAPIVersion : string;
  SynthDeployment : string;
  SynthAPIVersion : string;
  UsePasswordless : bool;
  Debug : bool
}.

Record OpenAIClients := mkOpenAIClients {
  config : OpenAIConfig;
  client : Client
}.

(** The clients as the calls of [clients] see them. *)
Definition handle (c : OpenAIClients) : clients.OpenAIClients :=
  clients.mkOpenAIClients
    (clients.mkOpenAIConfig (EmbeddingDeployment (config c)) (PlannerDeployment (config c))
       (SynthDeployment (config c)) (Debug (config c))).

(** [LoadConfigFromEnv]. *)
Definition LoadConfigFromEnv : OpenAIConfig :=
  let debug := String.eqb (Getenv "DEBUG") "true" || String.eqb (Getenv "DEBUG") "1" in
  let usePasswordless :=
    String.eqb (Getenv "USE_PASSWORDLESS") "true" ||
    String.eqb (Getenv "USE_PASSWORDLESS") "1" in
  mkOpenAIConfig
    (Getenv "AZURE_OPENAI_ENDPOINT")
    (Getenv "AZURE_OPENAI_API_KEY")
    (Getenv "AZURE_OPENAI_EMBEDDING_DEPLOYMENT")
    (Getenv "AZURE_OPENAI_EMBEDDING_API_VERSION")
    (Getenv "AZURE_OPENAI_PLANNER_DEPLOYMENT")
    (Getenv "AZURE_OPENAI_PLANNER_API_VERSION")
    (Getenv "AZURE_OPENAI_SYNTH_DEPLOYMENT")
    (Getenv "AZURE_OPENAI_SYNTH_API_VERSION")
    usePasswordless
    debug.

(** [NewOpenAIClients]. *)
Definition NewOpenAIClients (config : OpenAIConfig) : P (result OpenAIClients) :=
  if String.eqb (Endpoint config) "" then
    pret (Err (Errorf "AZURE_OPENAI_ENDPOINT is required"))
  else
    let apiVersion :=
      if String.eqb (EmbeddingAPIVersion config) "" then "2024-06-01"
      else EmbeddingAPIVersion config in
    let usePasswordless := UsePasswordless config || String.eqb (APIKey config) "" in
    let created (client : Client) : P (result OpenAIClients) :=
      pwhen (Debug config)
        (Printf ("[clients] OpenAI client created for endpoint: " +:+ Endpoint config +:+ nl) ;;;
         Printf ("[clients] Embedding deployment: " +:+ EmbeddingDeployment config +:+ nl) ;;;
         Printf ("[clients] Planner deployment: " +:+ PlannerDeployment config +:+ nl) ;;;
         Printf ("[clients] Synthesizer deployment: " +:+ SynthDeployment config +:+ nl)) ;;;
      pret (Ok (mkOpenAIClients config client)) in
    if usePasswordless then
      pwhen (Debug config)
        (Println "[clients] Using passwordless (Azure Identity) authentication") ;;;
      err <- newCredential ;;
      match err with
      | Some err => pret (Err (Errorf ("failed to create Azure credential: " +:+ Error err)))
      | None => created (mkClient (Endpoint config) apiVersion WithTokenCredential)
      end
    else
      pwhen (Debug config) (Println "[clients] Using API key authentication") ;;;
      if String.eqb (APIKey config) "" then
        pret (Err (Errorf
          "AZURE_OPENAI_API_KEY is required when USE_PASSWORDLESS is not enabled"))
      else
        created (mkClient (Endpoint config) apiVersion (WithAPIKey (APIKey config))).

#[local] Open Scope go_scope.

(** [ChatCompletion], the call of the synthesizer.  The response is read
    without a nil check, so a nil response without an error panics. *)
Definition ChatCompletion (c : clients.OpenAIClients) (systemPrompt userMessage : string)
  : M (outcome (result string)) :=
  send (ReqChatCompletion (clients.SynthDeployment (clients.config c))
          systemPrompt userMessage []) ;;;
  match Completions_New (clients.SynthDeployment (clients.config c))
          systemPrompt userMessage with
  | (_, Some err) =>
      ret (Returns (Err (Errorf ("synthesizer chat completion failed: " +:+ Error err))))
  | (None, None) =>
      ret (Panics "runtime error: invalid memory address or nil pointer dereference")
  | (Some resp, None) =>
      match Choices resp with
      | [] => ret (Returns (Err (Errorf "no completion choices returned")))
      | c0 :: _ =>
          let content := Content (Message_ c0) in
          when (clients.Debug (clients.config c))
            (Print ("[synthesizer] Output: " +:+
                    fmt.Itoa (Z.of_nat (String.length content)) +:+ " characters" +:+ nl)) ;;;
          ret (Returns (Ok content))
      end
  end.

End openai.
End openai.

(* ===================================================================== *)
(** ** Go: internal/prompts and internal/agents, the synthesizer *)
(* ===================================================================== *)

Module synthesizer.
Section synthesizer.
Context `{Services} `{Host}.

(** [prompts.CreateSynthesizerUserPrompt]. *)
Definition CreateSynthesizerUserPrompt (userQuery toolSummary : string) : string :=
  "User asked: " +:+ userQuery +:+ nl +:+
  nl +:+
  "Tool summary:" +:+ nl +:+
  toolSummary +:+ nl +:+
  nl +:+
  "Analyze the TOP 3 results by COMPARING them across all attributes (rating, score, tags, parking, location, category, rooms)." +:+ nl +:+
  nl +:+
  "Structure your response:" +:+ nl +:+
  "1. COMPARISON SUMMARY: Compare the top 3 options highlighting key differences and tradeoffs" +:+ nl +:+
  "2. BEST OVERALL: Recommend the single best option with clear reasoning" +:+ nl +:+
  "3. ALTERNATIVE PICKS: Briefly explain when the other options might be preferred (e.g., " +:+
  dquote +:+ "Choose X if budget is priority" +:+ dquote +:+ " or " +:+
  dquote +:+ "Choose Y if location matters most" +:+ dquote +:+ ")" +:+ nl +:+
  nl +:+
  "Your goal is to help the user DECIDE between the options, not just describe them." +:+ nl +:+
  nl +:+
  "Format your response using plain text (NO markdown formatting like ** or ###). Use simple numbered lists, bullet points (•), and use the exact hotel names from the tool summary (preserve original capitalization).".

Record SynthesizerAgent := mkSynthesizerAgent {
  openAIClients : clients.OpenAIClients;
  debug : bool
}.

(** [SynthesizerAgent.Run]. *)
Definition Run (a : SynthesizerAgent) (userQuery hotelContext : string)
  : M (outcome (result string)) :=
  Print (nl +:+ "--- SYNTHESIZER ---" +:+ nl) ;;;
  Print ("Context size: " +:+ fmt.Itoa (Z.of_nat (String.length hotelContext)) +:+
         " characters" +:+ nl) ;;;
  let userMessage := CreateSynthesizerUserPrompt userQuery hotelContext in
  r <- openai.ChatCompletion (openAIClients a) SynthesizerSystemPrompt userMessage ;;
  match r with
  | Panics msg => ret (Panics msg)
  | Returns (Err err) => ret (Returns (Err (Errorf ("synthesizer failed: " +:+ Error err))))
  | Returns (Ok finalAnswer) => ret (Returns (Ok finalAnswer))
  end.

End synthesizer.
End synthesizer.

(* ===================================================================== *)
(** ** Go: internal/vectorstore, configuration, connection and the index *)
(* ===================================================================== *)

Module store.
Section store.
Context `{Services} `{Host}.
#[local] Open Scope proc_scope.

(** The configuration as [LoadConfigFromEnv] fills it; the record
    [vectorstore.VectorStoreConfig] is the part of it that the searches
    and the inserts read. *)
Record VectorStoreConfig := mkVectorStoreConfig {
  ConnectionString : string;
  ClusterName : string;
  DatabaseName : string;
  CollectionName : string;
  IndexName : string;
  EmbeddedField : string;
  UsePasswordless : bool;
  Debug : bool
}.

Record VectorStore := mkVectorStore {
  config : VectorStoreConfig;
  client : MongoClient
}.

(** The store as the calls of [vectorstore] see it. *)
Definition handle (vs : VectorStore) : vectorstore.VectorStore :=
  vectorstore.mkVectorStore
    (vectorstore.mkVectorStoreConfig (CollectionName (config vs)) (IndexName (config vs))
       (EmbeddedField (config vs)) (Debug (config vs))).

(** [LoadConfigFromEnv]. *)
Definition LoadConfigFromEnv : VectorStoreConfig :=
  let debug := String.eqb (Getenv "DEBUG") "true" || String.eqb (Getenv "DEBUG") "1" in
  let usePasswordless :=
    String.eqb (Getenv "USE_PASSWORDLESS") "true" ||
    String.eqb (Getenv "USE_PASSWORDLESS") "1" in
  let embeddedField :=
    if String.eqb (Getenv "EMBEDDED_FIELD") "" then "DescriptionVector"
    else Getenv "EMBEDDED_FIELD" in
  mkVectorStoreConfig
    (Getenv "AZURE_DOCUMENTDB_CONNECTION_STRING")
    (Getenv "AZURE_DOCUMENTDB_CLUSTER")
    (Getenv "AZURE_DOCUMENTDB_DATABASENAME")
    (Getenv "AZURE_DOCUMENTDB_COLLECTION")
    (Getenv "AZURE_DOCUMENTDB_INDEX_NAME")
    embeddedField
    usePasswordless
    debug.

(** [mongo.Connect]. *)
Definition connect (c : MongoClient) : P (option error) :=
  emit (EvConnect c) ;;; pret (mongo_Connect c).

(** [connectWithOIDC].  The token callback runs inside the driver; the
    lines it prints in debug mode are not part of this model. *)
Definition connectWithOIDC (clusterName : string) (debug : bool) : P (result MongoClient) :=
  err <- newCredential ;;
  match err with
  | Some err => pret (Err (Errorf ("failed to create Azure credential: " +:+ Error err)))
  | None =>
      let mongoURI :=
        "mongodb+srv://" +:+ clusterName +:+ ".global.mongocluster.cosmos.azure.com/" in
      pwhen debug
        (Printf ("[vectorstore] Attempting OIDC authentication to " +:+ clusterName +:+ nl)) ;;;
      let mongoClient := mkMongoClient mongoURI true in
      err <- connect mongoClient ;;
      match err with
      | Some err => pret (Err (Errorf ("failed to connect with OIDC: " +:+ Error err)))
      | None =>
          pwhen debug (Println "[vectorstore] OIDC authentication successful!") ;;;
          pret (Ok mongoClient)
      end
  end.

(** [NewVectorStore]. *)
Definition NewVectorStore (config : VectorStoreConfig) : P (result VectorStore) :=
  let usePasswordless :=
    UsePasswordless config ||
    (String.eqb (ConnectionString config) "" && negb (String.eqb (ClusterName config) "")) in
  let connected (client : MongoClient) : P (result VectorStore) :=
    emit EvPing ;;;
    match client_Ping client with
    | Some err => pret (Err (Errorf ("failed to ping MongoDB: " +:+ Error err)))
    | None =>
        pwhen (Debug config)
          (Printf ("[vectorstore] Connected to database: " +:+ DatabaseName config +:+
                   ", collection: " +:+ CollectionName config +:+ nl)) ;;;
        pret (Ok (mkVectorStore config client))
    end in
  if usePasswordless then
    pwhen (Debug config) (Println "[vectorstore] Using passwordless (OIDC) authentication") ;;;
    if String.eqb (ClusterName config) "" then
      pret (Err (Errorf "AZURE_DOCUMENTDB_CLUSTER is required for passwordless authentication"))
    else
      r <- connectWithOIDC (ClusterName config) (Debug config) ;;
      match r with
      | Err err => pret (Err (Errorf ("OIDC authentication failed: " +:+ Error err)))
      | Ok client => connected client
      end
  else
    pwhen (Debug config) (Println "[vectorstore] Using connection string authentication") ;;;
    if String.eqb (ConnectionString config) "" then
      pret (Err (Errorf
        "AZURE_DOCUMENTDB_CONNECTION_STRING is required when USE_PASSWORDLESS is not enabled"))
    else
      let client := mkMongoClient (ConnectionString config) false in
      err <- connect client ;;
      match err with
      | Some err => pret (Err (Errorf ("failed to connect to MongoDB: " +:+ Error err)))
      | None => connected client
      end.

(** [Close]. *)
Definition Close (vs : VectorStore) : P (option error) :=
  emit EvDisconnect ;;; pret (client_Disconnect (client vs)).

(** [CreateVectorIndex]; [None] is the nil error. *)
Definition CreateVectorIndex (vs : VectorStore) : P (option error) :=
  let algorithm :=
    if String.eqb (Getenv "VECTOR_INDEX_ALGORITHM") "" then "vector-ivf"
    else Getenv "VECTOR_INDEX_ALGORITHM" in
  let dimensions := envInt "EMBEDDING_DIMENSIONS" 1536 in
  let similarity :=
    if String.eqb (Getenv "VECTOR_SIMILARITY") "" then "COS" else Getenv "VECTOR_SIMILARITY" in
  let run (cosmosSearchOptions : list (string * BsonValue)) : P (option error) :=
    let indexDef :=
      mkIndexCommand (CollectionName (config vs)) (IndexName (config vs))
        (EmbeddedField (config vs)) cosmosSearchOptions in
    emit (EvRunCommand indexDef) ;;;
    match database_RunCommand indexDef with
    | Some err => pret (Some (Errorf ("failed to create vector index: " +:+ Error err)))
    | None =>
        pwhen (Debug (config vs))
          (Printf ("[vectorstore] Created vector index: " +:+ IndexName (config vs) +:+
                   " (algorithm: " +:+ algorithm +:+ ")" +:+ nl)) ;;;
        pret None
    end in
  if String.eqb algorithm "vector-ivf" then
    let numLists := envInt "IVF_NUM_LISTS" 10 in
    run [ ("kind", BsonString "vector-ivf");
          ("numLists", BsonInt numLists);
          ("dimensions", BsonInt dimensions);
          ("similarity", BsonString similarity) ]
  else if String.eqb algorithm "vector-hnsw" then
    let m := envInt "HNSW_M" 16 in
    let efConstruction := envInt "HNSW_EF_CONSTRUCTION" 64 in
    run [ ("kind", BsonString "vector-hnsw");
          ("m", BsonInt m);
          ("efConstruction", BsonInt efConstruction);
          ("dimensions", BsonInt dimensions);
          ("similarity", BsonString similarity) ]
  else if String.eqb algorithm "vector-diskann" then
    let maxDegree := envInt "DISKANN_MAX_DEGREE" 20 in
    let lBuild := envInt "DISKANN_L_BUILD" 10 in
    run [ ("kind", BsonString "vector-diskann");
          ("maxDegree", BsonInt maxDegree);
          ("lBuild", BsonInt lBuild);
          ("dimensions", BsonInt dimensions);
          ("similarity", BsonString similarity) ]
  else
    pret (Some (Errorf ("unsupported vector index algorithm: " +:+ algorithm))).

(** [DeleteDatabase]. *)
Definition DeleteDatabase (vs : VectorStore) : P (option error) :=
  fun p =>
    let '(coll', err) := database_Drop (collection (world p)) in
    let p' :=
      mkProcess (mkWorld (stdout (world p)) (requests (world p)) coll')
        (events p ++ [EvDrop (DatabaseName (config vs))])%list in
    match err with
    | Some err => (Some (Errorf ("failed to drop database: " +:+ Error err)), p')
    | None =>
        (pwhen (Debug (config vs))
           (Printf ("[vectorstore] Deleted database: " +:+ DatabaseName (config vs) +:+ nl)) ;;;
         pret None) p'
    end.

End store.
End store.

(* ===================================================================== *)
(** ** Go: cmd/agent and cmd/cleanup *)
(* ===================================================================== *)

Module cmd_agent.
Section cmd_agent.
Context `{Services} `{Host}.
#[local] Open Scope proc_scope.

(** The function [main] of [cmd/agent]; the value is the exit status.  The
    deferred [store.Close] runs when [main] returns and when it panics. *)
Definition main : P Z :=
  match godotenv_Load with
  | Some err => log_Printf ("Warning: .env file not found: " +:+ Error err)
  | None => pret tt
  end ;;;
  let openaiConfig := openai.LoadConfigFromEnv in
  let vsConfig := store.LoadConfigFromEnv in
  let debug := openai.Debug openaiConfig in
  pwhen debug (Printf ("DEBUG mode is ON" +:+ nl)) ;;;
  r <- openai.NewOpenAIClients openaiConfig ;;
  match r with
  | Err err => log_Fatalf ("Failed to create OpenAI clients: " +:+ Error err)
  | Ok openaiClients =>
      r <- store.NewVectorStore vsConfig ;;
      match r with
      | Err err => log_Fatalf ("Failed to connect to vector store: " +:+ Error err)
      | Ok store_ =>
          let searchTool :=
            agents.mkVectorSearchTool (openai.handle openaiClients) (store.handle store_)
              debug in
          let plannerAgent :=
            agents.mkPlannerAgent (openai.handle openaiClients) searchTool debug in
          let synthesizerAgent :=
            synthesizer.mkSynthesizerAgent (openai.handle openaiClients) debug in
          let query :=
            if String.eqb (Getenv "QUERY") ""
            then "quintessential lodging near running trails, eateries, retail"
            else Getenv "QUERY" in
          let nearestNeighbors := envInt "NEAREST_NEIGHBORS" 5 in
          Printf (nl +:+ "Query: " +:+ query +:+ nl) ;;;
          Printf ("Nearest Neighbors: " +:+ fmt.Itoa nearestNeighbors +:+ nl) ;;;
          r <- liftM (agents.Run plannerAgent query nearestNeighbors) ;;
          match r with
          | Err err => log_Fatalf ("Planner agent failed: " +:+ Error err)
          | Ok hotelContext =>
              pwhen debug
                (Printf (nl +:+ "--- HOTEL CONTEXT ---" +:+ nl +:+ hotelContext +:+ nl)) ;;;
              r <- liftM (synthesizer.Run synthesizerAgent query hotelContext) ;;
              match r with
              | Panics _ => store.Close store_ ;;; pret 2
              | Returns (Err err) =>
                  log_Fatalf ("Synthesizer agent failed: " +:+ Error err)
              | Returns (Ok finalAnswer) =>
                  Println (nl +:+ "--- FINAL ANSWER ---") ;;;
                  Println finalAnswer ;;;
                  store.Close store_ ;;;
                  pret 0
              end
          end
      end
  end.

End cmd_agent.
End cmd_agent.

Module cmd_cleanup.
Section cmd_cleanup.
Context `{Services} `{Host}.
#[local] Open Scope proc_scope.

(** The function [main] of [cmd/cleanup]. *)
Definition main : P Z :=
  match godotenv_Load with
  | Some err => log_Printf ("Warning: .env file not found: " +:+ Error err)
  | None => pret tt
  end ;;;
  let vsConfig := store.LoadConfigFromEnv in
  Printf ("Connecting to database: " +:+ store.DatabaseName vsConfig +:+ nl) ;;;
  r <- store.NewVectorStore vsConfig ;;
  match r with
  | Err err => log_Fatalf ("Failed to connect to vector store: " +:+ Error err)
  | Ok store_ =>
      Printf (nl +:+ "Deleting database: " +:+ store.DatabaseName vsConfig +:+ nl) ;;;
      err <- store.DeleteDatabase store_ ;;
      match err with
      | Some err => log_Fatalf ("Failed to delete database: " +:+ Error err)
      | None =>
          Println "Database deleted successfully!" ;;;
          store.Close store_ ;;;
          pret 0
      end
  end.

End cmd_cleanup.
End cmd_cleanup.

Module Scenario4.

(** A host: the environment, the outcome of creating a credential, of
    connecting, of the ping and of the index command. *)
Definition host (env : list (string * string)) (credential connect ping run : option error)
  : Host :=
  mkHost
    (fun name => match List.find (fun kv => String.eqb (fst kv) name) env with
                 | Some kv => snd kv
                 | None => ""
                 end)
    (Some (errorString "open .env: no such file or directory"))
    (fun _ => credential)
    (fun _ => connect)
    (fun _ => ping)
    (fun _ => None)
    (fun _ => run)
    (fun _ => ([], None))
    "You are an expert hotel recommendation assistant.".

(** The settings of a run with an API key and a connection string. *)
Definition envWithKeys : list (string * string) :=
  [ ("AZURE_OPENAI_ENDPOINT", "https://example.openai.azure.com/");
    ("AZURE_OPENAI_API_KEY", "secret");
    ("AZURE_OPENAI_EMBEDDING_DEPLOYMENT", "embed");
    ("AZURE_OPENAI_PLANNER_DEPLOYMENT", "planner");
    ("AZURE_OPENAI_SYNTH_DEPLOYMENT", "synth");
    ("AZURE_DOCUMENTDB_CONNECTION_STRING", "mongodb://localhost:10260/");
    ("AZURE_DOCUMENTDB_DATABASENAME", "Hotels");
    ("AZURE_DOCUMENTDB_COLLECTION", "hotels");
    ("AZURE_DOCUMENTDB_INDEX_NAME", "vectorIndex") ].

Definition hostWithKeys : Host := host envWithKeys None None None None.

(** The same with a neighbour count of zero. *)
Definition hostZeroNeighbours : Host :=
  host (("NEAREST_NEIGHBORS", "0") :: envWithKeys) None None None None.

Definition p0 : Process := mkProcess Scenario.w0 [].

End Scenario4.

Module Scenario5.
Import Scenario4.

(** Settings without an API key and with the passwordless flag. *)
Definition hostPasswordless : Host :=
  host [ ("AZURE_OPENAI_ENDPOINT", "https://example.openai.azure.com/");
         ("AZURE_OPENAI_API_KEY", "secret");
         ("USE_PASSWORDLESS", "true");
         ("AZURE_DOCUMENTDB_CLUSTER", "hotels-cluster");
         ("AZURE_DOCUMENTDB_CONNECTION_STRING", "mongodb://localhost:10260/") ]
    None None None None.

(** The ping fails. *)
Definition hostPingFails : Host :=
  host envWithKeys None None (Some (errorString "context deadline exceeded")) None.

(** The index algorithm is not one of the three. *)
Definition hostFlatIndex : Host :=
  host (("VECTOR_INDEX_ALGORITHM", "vector-flat") :: envWithKeys) None None None None.

(** An HNSW index with a dimension that is not a number. *)
Definition hostHnsw : Host :=
  host (("VECTOR_INDEX_ALGORITHM", "vector-hnsw") :: ("EMBEDDING_DIMENSIONS", "3072 ") ::
        ("HNSW_M", "32") :: envWithKeys) None None None None.

Definition storeWithKeys : store.VectorStore :=
  store.mkVectorStore (@store.LoadConfigFromEnv hostWithKeys)
    (mkMongoClient "mongodb://localhost:10260/" false).

(** The synthesizer's reply, cut off by the length limit. *)
Definition synthReply : ChatCompletion :=
  mkChatCompletion
    [mkChoice "length" (mkChatCompletionMessage "1. COMPARISON SUMMARY: Old Century" [])].

Definition synthServices : Services :=
  Scenario.services synthReply Scenario.embeddingOk (Ok Scenario.cursorHighLow)
    Scenario.insertAll.

Definition synthAgent : synthesizer.SynthesizerAgent :=
  synthesizer.mkSynthesizerAgent Scenario.openai false.

End Scenario5.

(* ===================================================================== *)
(** ** TypeScript: the documents of the store and the clean-up *)
(* ===================================================================== *)

Module TSops.
Import JS.

(** [new Error(message)]. *)
Definition Error_ (message : string) : Value :=
  JSObject [("name", JSString "Error"); ("message", JSString message)].

(** A LangChain [Document]. *)
Record Document := mkDocument {
  pageContent : string;
  doc_metadata : Value;
  id : string
}.

(** The calls that leave the process. *)
Inductive Call :=
| new_MongoClient (connectionString : string)
| client_connect
| db_dropDatabase (dbName : option string)
| client_close (force : bool)
| fromDocuments (documents : list Document).

(** What a run has written to the console and called so far. *)
Record Effects := mkEffects {
  console_entries : list ConsoleEntry;
  calls : list Call
}.

(** The environment, the file system and the libraries. *)
Class Platform := mkPlatform {
  (** [process.env[name]]: a string, or undefined. *)
  process_env : string -> option string;
  (** [new MongoClient(connectionString, ...)], which parses the string. *)
  MongoClient_new : string -> Completion unit;
  (** [await client.connect()]. *)
  connect_outcome : Completion unit;
  (** [await db.dropDatabase()]. *)
  dropDatabase_outcome : option string -> Completion unit;
  (** [await client.close(true)]. *)
  close_outcome : Completion unit;
  (** [JSON.parse(readFileSync(path, 'utf-8'))]. *)
  read_json : string -> Completion Value;
  (** [await AzureCosmosDBMongoDBVectorStore.fromDocuments(...)]. *)
  fromDocuments_outcome : list Document -> Completion TS.Store
}.

(** Computations that write to the console, call out and may throw. *)
Definition T (A : Type) : Type := Effects -> Completion A * Effects.

Definition tret {A} (a : A) : T A := fun s => (Return a, s).
Definition tthrow {A} (e : Value) : T A := fun s => (Throw e, s).
Definition tbind {A B} (m : T A) (f : A -> T B) : T B :=
  fun s => match m s with
           | (Return a, s') => f a s'
           | (Throw e, s') => (Throw e, s')
           end.
Definition tlift {A} (r : Completion A) : T A := fun s => (r, s).
Definition log (text : string) : T unit :=
  fun s => (Return tt, mkEffects (console_entries s ++ [console_log text])%list (calls s)).
Definition call {A} (c : Call) (outcome : Completion A) : T A :=
  fun s => (outcome, mkEffects (console_entries s) (calls s ++ [c])%list).

(** [try { body } finally { finalizer }]: the finalizer always runs, and
    when it throws, its exception replaces the completion of the body. *)
Definition try_finally {A} (body : T A) (finalizer : T unit) : T A :=
  fun s => let '(r, s1) := body s in
           match finalizer s1 with
           | (Return _, s2) => (r, s2)
           | (Throw e, s2) => (Throw e, s2)
           end.

Declare Scope ts_scope.
Delimit Scope ts_scope with ts.
Notation "x <-- c ;; f" := (tbind c (fun x => f))
  (at level 100, c at next level, right associativity) : ts_scope.
Notation "c ;;;; f" := (tbind c (fun _ => f))
  (at level 100, right associativity) : ts_scope.
#[local] Open Scope ts_scope.

(** [!value] for a string or undefined. *)
Definition missing (value : option string) : bool :=
  match value with
  | None => true
  | Some s => String.eqb s ""
  end.

Section ops.
Context `{Runtime} `{Platform}.

(** [v.toString()]. *)
Definition toString_method (v : Value) : Completion string :=
  match v with
  | JSUndefined =>
      Throw (TypeError "Cannot read properties of undefined (reading 'toString')")
  | JSNull =>
      Throw (TypeError "Cannot read properties of null (reading 'toString')")
  | JSObject props =>
      if has_key props "toString"
      then Throw (TypeError "hotel.HotelId.toString is not a function")
      else Return "[object Object]"
  | _ => ToString v
  end.

(** The three properties that the destructuring of [getStore] takes out. *)
Definition excluded (key : string) : bool :=
  String.eqb key "Description_fr" || String.eqb key "Location" || String.eqb key "Rooms".

(** The callback of [hotelsData.map] in [getStore]. *)
Definition toDocument (hotel : Value) : Completion Document :=
  match hotel with
  | JSUndefined =>
      Throw (TypeError "Cannot destructure property 'Description_fr' of 'hotel' as it is undefined.")
  | JSNull =>
      Throw (TypeError "Cannot destructure property 'Description_fr' of 'hotel' as it is null.")
  | JSObject props =>
      let hotelData := List.filter (fun kv => negb (excluded (fst kv))) props in
      cbind (ToString (lookup_prop props "HotelName")) (fun name =>
      cbind (ToString (lookup_prop props "Description")) (fun description =>
      cbind (toString_method (lookup_prop props "HotelId")) (fun hotelId =>
      Return (mkDocument ("Hotel: " +:+ name +:+ nl +:+ nl +:+ description)
                (JSObject hotelData) hotelId))))
  | _ =>
      (* a primitive or an array has no [HotelId] *)
      Throw (TypeError "Cannot read properties of undefined (reading 'toString')")
  end.

(** [getStore].  The index options, which [getVectorIndexOptions] reads
    from the environment, are part of the call to [fromDocuments] and left
    out here. *)
Definition getStore (dataFilePath : string) : T TS.Store :=
  hotelsData <-- tlift (read_json dataFilePath) ;;
  documents <-- tlift (match hotelsData with
                       | JSArray elems => mapC toDocument elems
                       | JSUndefined | JSNull =>
                           Throw (TypeError "Cannot read properties of null (reading 'map')")
                       | _ => Throw (TypeError "hotelsData.map is not a function")
                       end) ;;
  store <-- call (fromDocuments documents) (fromDocuments_outcome documents) ;;
  log ("Inserted " +:+ fmt.Itoa (Z.of_nat (length documents)) +:+
       " documents into DocumentDB (Mongo API) vector store.") ;;;;
  tret store.

(** [deleteCosmosMongoDatabase] of [vector-store.ts], which connects with
    the connection string. *)
Definition deleteCosmosMongoDatabase_connectionString : T unit :=
  log (nl +:+ nl +:+ "CLEAN UP" +:+ nl +:+ nl) ;;;;
  let databaseName := process_env "AZURE_DOCUMENTDB_DATABASENAME" in
  let connectionString := process_env "AZURE_DOCUMENTDB_CONNECTION_STRING" in
  if missing connectionString then
    tthrow (Error_ "Environment variable AZURE_DOCUMENTDB_CONNECTION_STRING is not set.")
  else
    let connectionString := default "" connectionString in
    call (new_MongoClient connectionString) (MongoClient_new connectionString) ;;;;
    try_finally
      (call client_connect connect_outcome ;;;;
       call (db_dropDatabase databaseName) (dropDatabase_outcome databaseName))
      (call (client_close true) close_outcome).

(** [deleteCosmosMongoDatabase] of [utils/mongo.ts], which connects to the
    cluster with OIDC; [databaseName] is the optional argument. *)
Definition deleteCosmosMongoDatabase (databaseName : option string) : T unit :=
  log (nl +:+ nl +:+ "CLEAN UP" +:+ nl +:+ nl) ;;;;
  let dbName :=
    if missing databaseName then process_env "AZURE_DOCUMENTDB_DATABASENAME"
    else databaseName in
  let clusterName := process_env "MONGO_CLUSTER_NAME" in
  if missing clusterName then
    tthrow (Error_ "Environment variable MONGO_CLUSTER_NAME is not set.")
  else if missing dbName then
    tthrow (Error_ "Database name not provided and AZURE_DOCUMENTDB_DATABASENAME environment variable is not set.")
  else
    let clusterName := default "" clusterName in
    let dbText := default "" dbName in
    let connectionString :=
      "mongodb+srv://" +:+ clusterName +:+ ".global.mongocluster.cosmos.azure.com/" in
    call (new_MongoClient connectionString) (MongoClient_new connectionString) ;;;;
    try_finally
      (log ("Connecting to cluster: " +:+ clusterName) ;;;;
       call client_connect connect_outcome ;;;;
       log ("Dropping database: " +:+ dbText) ;;;;
       call (db_dropDatabase dbName) (dropDatabase_outcome dbName) ;;;;
       log ("âœ“ Database " +:+ dquote +:+ dbText +:+ dquote +:+ " deleted successfully"))
      (call (client_close true) close_outcome).

End ops.
End TSops.

Module Scenario6.

(** The services of a whole run of the Go agent: the planner calls the
    tool and the synthesizer answers. *)
Definition pipeline : Services :=
  mkServices
    (fun model _ _ =>
       if String.eqb model "planner"
       then (Some (Scenario.callReply prompts.ToolName "tool_calls"), None)
       else (Some Scenario5.synthReply, None))
    (fun _ _ => Scenario.embeddingOk)
    (fun coll docs _ => Scenario.insertAll coll docs)
    (fun _ _ => Ok Scenario.cursorHighLow)
    Scenario.unmarshal
    (fun _ => - 2 ^ 63)
    "You are a hotel search planner.".

(** A TypeScript platform: the environment and the outcomes of connecting
    and of dropping. *)
Definition platform (env : list (string * string)) (connect drop : JS.Completion unit)
    (hotels : JS.Value) : TSops.Platform :=
  TSops.mkPlatform
    (fun name => match List.find (fun kv => String.eqb (fst kv) name) env with
                 | Some kv => Some (snd kv)
                 | None => None
                 end)
    (fun _ => JS.Return tt)
    connect
    (fun _ => drop)
    (JS.Return tt)
    (fun _ => JS.Return hotels)
    (fun _ => JS.Return (TS.mkStore (fun _ _ => JS.Return []))).

(** The cluster cannot be reached. *)
Definition platformUnreachable : TSops.Platform :=
  platform [("MONGO_CLUSTER_NAME", "hotels-cluster");
            ("AZURE_DOCUMENTDB_DATABASENAME", "Hotels")]
    (JS.Throw (TSops.Error_ "connect ETIMEDOUT")) (JS.Return tt) (JS.JSArray []).

(** A hotel of the data file, and one without an identifier. *)
Definition hotelJSON : JS.Value :=
  JS.JSObject [("HotelId", JS.JSString "1");
               ("HotelName", JS.JSString "Stay-Kay City Hotel");
               ("Description", JS.JSString "Ideally located.");
               ("Description_fr", JS.JSString "Situation ideale.");
               ("Rating", JS.JSNumber (S754_finite false 9 (-2)));
               ("Location", JS.JSObject [("type", JS.JSString "Point")]);
               ("Rooms", JS.JSArray [])].

Definition hotelWithoutId : JS.Value :=
  JS.JSObject [("HotelName", JS.JSString "Nameless Inn")].

Definition platformTwoHotels : TSops.Platform :=
  platform [] (JS.Return tt) (JS.Return tt) (JS.JSArray [hotelJSON; hotelWithoutId]).

Definition effects0 : TSops.Effects := TSops.mkEffects [] [].

End Scenario6.

(* ===================================================================== *)
(** ** TypeScript: the synthesizer (utils/prompts.ts and agent.ts) *)
(* ===================================================================== *)

Module TSsynth.
Import JS.
Import TS.
#[local] Open Scope js_scope.

(** The synthesizer agent, [createAgent({ model: synthClient, systemPrompt })]:
    the [messages] array of the result of [invoke] on a user message. *)
Class SynthAgent := mkSynthAgent {
  synth_invoke : string -> Completion (list Value)
}.

(** [s.length]: the number of UTF-16 code units of a string that is held
    in UTF-8. *)
Fixpoint utf16_length (s : string) : Z :=
  match s with
  | EmptyString => 0
  | String c rest =>
      let n := Z.of_N (N_of_ascii c) in
      (if (128 <=? n) && (n <? 192) then 0 else if 240 <=? n then 2 else 1) +
      utf16_length rest
  end.

Section synth.
Context `{Runtime} `{SynthAgent}.

(** [v.length]. *)
Definition length_of (v : Value) : Completion Value :=
  match v with
  | JSUndefined =>
      Throw (TypeError "Cannot read properties of undefined (reading 'length')")
  | JSNull =>
      Throw (TypeError "Cannot read properties of null (reading 'length')")
  | JSString s => Return (JSNumber (float_of_Z (utf16_length s)))
  | JSArray elems => Return (JSNumber (float_of_Z (Z.of_nat (length elems))))
  | JSObject props => Return (lookup_prop props "length")
  | _ => Return JSUndefined
  end.

(** [createSynthesizerUserPrompt]. *)
Definition createSynthesizerUserPrompt (userQuery : string) (toolSummary : Value)
  : Completion string :=
  cbind (ToString toolSummary) (fun summary =>
  Return
    ("User asked: " +:+ userQuery +:+ nl +:+
     nl +:+
     "Tool summary:" +:+ nl +:+
     summary +:+ nl +:+
     nl +:+
     "Analyze the TOP 3 results by COMPARING them across all attributes (rating, score, tags, parking, location, category, rooms)." +:+ nl +:+
     nl +:+
     "Structure your response:" +:+ nl +:+
     "1. COMPARISON SUMMARY: Compare the top 3 options highlighting key differences and tradeoffs" +:+ nl +:+
     "2. BEST OVERALL: Recommend the single best option with clear reasoning" +:+ nl +:+
     "3. ALTERNATIVE PICKS: Briefly explain when the other options might be preferred (e.g., " +:+
     dquote +:+ "Choose X if budget is priority" +:+ dquote +:+ " or " +:+
     dquote +:+ "Choose Y if location matters most" +:+ dquote +:+ ")" +:+ nl +:+
     nl +:+
     "Your goal is to help the user DECIDE between the options, not just describe them." +:+ nl +:+
     nl +:+
     "Format your response using plain text (NO markdown formatting like ** or ###). Use simple numbered lists, bullet points (•), and use the exact hotel names from the tool summary (preserve original capitalization).")).

(** [runSynthesizerAgent]. *)
Definition runSynthesizerAgent (userQuery : string) (hotelContext : Value) : JSM Value :=
  console (console_log (nl +:+ "--- SYNTHESIZER ---")) ;;;;
  let conciseContext := hotelContext in
  size <-- lift (cbind (length_of conciseContext) ToString) ;;
  console (console_log ("Context size is " +:+ size +:+ " characters")) ;;;;
  content <-- lift (createSynthesizerUserPrompt userQuery conciseContext) ;;
  synthMessages <-- lift (synth_invoke content) ;;
  finalAnswer <-- lift (Get (List.last synthMessages JSUndefined) "content") ;;
  outSize <-- lift (cbind (length_of finalAnswer) ToString) ;;
  console (console_log ("Output: " +:+ outSize +:+ " characters of final recommendation")) ;;;;
  jret finalAnswer.

End synth.
End TSsynth.

Module Scenario7.

(** The synthesizer agent answers with the user's message and its own. *)
Definition synthAgent : TSsynth.SynthAgent :=
  TSsynth.mkSynthAgent
    (fun prompt =>
       JS.Return [ JS.JSObject [("type", JS.JSString "human"); ("content", JS.JSString prompt)];
                   JS.JSObject [("type", JS.JSString "ai");
                                ("content", JS.JSString "1. COMPARISON SUMMARY")] ]).

End Scenario7.

(* ===================================================================== *)
(** ** TypeScript: the options of the vector index (vector-store.ts) *)
(* ===================================================================== *)

Module TSindex.

(** The two built-in functions the options are computed with. *)
Class Builtins := mkBuiltins {
  (** [String.prototype.toUpperCase]. *)
  toUpperCase : string -> string;
  (** [parseInt] with one argument. *)
  parseInt : string -> spec_float
}.

(** A value of the options object. *)
Inductive OptionValue :=
| OptKind (kind : string)
| OptNumber (x : spec_float)
| OptSimilarity (similarity : Metric).

Section index.
Context `{Builtins} `{TSops.Platform}.

(** [process.env[name] || fallback]. *)
Definition env_or (name fallback : string) : string :=
  if TSops.missing (TSops.process_env name) then fallback
  else default "" (TSops.process_env name).

(** [getSimilarityType]. *)
Definition getSimilarityType (similarity : string) : Metric :=
  let upper := toUpperCase similarity in
  if String.eqb upper "COS" then COS
  else if String.eqb upper "L2" then L2
  else if String.eqb upper "IP" then IP
  else COS.

(** [getVectorIndexOptions]: the entries of the object it returns, in
    order. *)
Definition getVectorIndexOptions : list (string * OptionValue) :=
  let algorithm := env_or "VECTOR_INDEX_ALGORITHM" "vector-ivf" in
  let dimensions := parseInt (env_or "EMBEDDING_DIMENSIONS" "1536") in
  let similarity := getSimilarityType (env_or "VECTOR_SIMILARITY" "COS") in
  let baseOptions :=
    [("dimensions", OptNumber dimensions); ("similarity", OptSimilarity similarity)] in
  if String.eqb algorithm "vector-hnsw" then
    ([ ("kind", OptKind "vector-hnsw");
       ("m", OptNumber (parseInt (env_or "HNSW_M" "16")));
       ("efConstruction", OptNumber (parseInt (env_or "HNSW_EF_CONSTRUCTION" "64"))) ]
     ++ baseOptions)%list
  else if String.eqb algorithm "vector-diskann" then
    ([ ("kind", OptKind "vector-diskann") ] ++ baseOptions)%list
  else
    ([ ("numLists", OptNumber (parseInt (env_or "IVF_NUM_LISTS" "10"))) ]
     ++ baseOptions)%list.

End index.
End TSindex.

Module Scenario8.

Definition builtins : TSindex.Builtins :=
  TSindex.mkBuiltins (fun s => s) (fun _ => float_of_Z 10).

(** The TypeScript environment with the algorithm of [Scenario5.hostFlatIndex]. *)
Definition platformFlatIndex : TSops.Platform :=
  Scenario6.platform [("VECTOR_INDEX_ALGORITHM", "vector-flat")] (JS.Return tt) (JS.Return tt)
    (JS.JSArray []).

End Scenario8.

(* ===================================================================== *)
(** * Properties *)
(* ===================================================================== *)

(** ** Sample evaluations *)

(** 1/128 lies halfway between 0.007812 and 0.007813: Go rounds to the
    even neighbour, JavaScript to the larger one. *)
Example FormatFloat_half_even : fmt.FormatFloat (S754_finite false 1 (-7)) 6 = "0.007812".
Proof. vm_compute. reflexivity. Qed.

Example toFixed_half_up :
  @JS.toFixed Scenario.runtime0 (S754_finite false 1 (-7)) 6 = "0.007813".
Proof. vm_compute. reflexivity. Qed.

Example FormatFloat_rating : fmt.FormatFloat (S754_finite false 7 (-1)) 1 = "3.5".
Proof. vm_compute. reflexivity. Qed.

Example FormatFloat_negative : fmt.FormatFloat (S754_finite true 5 (-2)) 6 = "-1.250000".
Proof. vm_compute. reflexivity. Qed.

Example FormatFloat_not_a_number : fmt.FormatFloat S754_nan 6 = "NaN".
Proof. reflexivity. Qed.

Example int_of_float64_truncates :
  int_of_float64 (fun _ => - 2 ^ 63) (S754_finite true 63 (-3)) = -7.
Proof. vm_compute. reflexivity. Qed.

Example Format_date : Format_2006_01_02 (mkTime 2019 2 18) = "2019-02-18".
Proof. vm_compute. reflexivity. Qed.

Example Format_date_before_year_1 : Format_2006_01_02 (mkTime (-1) 12 31) = "-0001-12-31".
Proof. vm_compute. reflexivity. Qed.

Example Join_tags : strings.Join ["pool"; "free wifi"; "view"] ", " = "pool, free wifi, view".
Proof. vm_compute. reflexivity. Qed.

Example Go_block :
  vectorstore.FormatHotelForSynthesizer (mkHotelSearchResult Scenario.hotelB Scenario.high) =
  "--- HOTEL START ---" +:+ nl +:+ "HotelId: 2" +:+ nl +:+
  "HotelName: Old Century Hotel" +:+ nl +:+
  "Description: A historic hotel close to gardens and restaurants." +:+ nl +:+
  "Category: Budget" +:+ nl +:+ "Tags: pool, free wifi" +:+ nl +:+
  "ParkingIncluded: true" +:+ nl +:+ "IsDeleted: false" +:+ nl +:+
  "LastRenovationDate: 2019-02-18" +:+ nl +:+ "Rating: 3.5" +:+ nl +:+
  "Address.StreetAddress: 140 University Town Center Dr" +:+ nl +:+
  "Address.City: Sarasota" +:+ nl +:+ "Address.StateProvince: FL" +:+ nl +:+
  "Address.PostalCode: 34243" +:+ nl +:+ "Address.Country: USA" +:+ nl +:+
  "Score: 0.875000" +:+ nl +:+ "--- HOTEL END ---".
Proof. vm_compute. reflexivity. Qed.

Example TS_block :
  @TS.formatHotelForSynthesizer Scenario.runtime0
    (JS.JSObject [("HotelName", JS.JSString "Old Century Hotel");
                  ("Tags", JS.JSArray [JS.JSString "pool"; JS.JSNull; JS.JSString "view"]);
                  ("ParkingIncluded", JS.JSString "yes");
                  ("Address", JS.JSObject [("City", JS.JSString "Sarasota")])])
    (JS.JSNumber Scenario.high) =
  JS.Return
    ("--- HOTEL START ---" +:+ nl +:+ "HotelId: N/A" +:+ nl +:+
     "HotelName: Old Century Hotel" +:+ nl +:+ "Description: " +:+ nl +:+
     "Category: " +:+ nl +:+ "Tags: pool, , view" +:+ nl +:+
     "ParkingIncluded: false" +:+ nl +:+ "IsDeleted: false" +:+ nl +:+
     "LastRenovationDate: " +:+ nl +:+ "Rating: " +:+ nl +:+
     "Address.StreetAddress: " +:+ nl +:+ "Address.City: Sarasota" +:+ nl +:+
     "Address.StateProvince: " +:+ nl +:+ "Address.PostalCode: " +:+ nl +:+
     "Address.Country: " +:+ nl +:+ "Score: 0.875000" +:+ nl +:+ "--- HOTEL END ---").
Proof. vm_compute. reflexivity. Qed.

Example TS_block_of_odd_description_throws :
  @TS.formatHotelForSynthesizer Scenario.runtime0
    (JS.JSObject [("HotelName", JS.JSString "Old Century Hotel");
                  ("Description", JS.JSObject [("toString", JS.JSString "x")])])
    (JS.JSNumber Scenario.high) =
  JS.Throw (JS.TypeError "Cannot convert object to primitive value").
Proof. vm_compute. reflexivity. Qed.

Example TS_block_of_undefined_throws :
  exists e, @TS.formatHotelForSynthesizer Scenario.runtime0 JS.JSUndefined
              (JS.JSNumber Scenario.high) = JS.Throw e.
Proof. eexists. reflexivity. Qed.

Example parse_with_count :
  @agents.parseToolArgumentsFromMap Scenario.happy
    {[ "query" := any_string "quiet hotel"; "nearestNeighbors" := any_float64 (float_of_Z 7) ]} =
  Ok (agents.mktoolArguments "quiet hotel" 7).
Proof. vm_compute. reflexivity. Qed.

Example parse_with_text_count :
  @agents.parseToolArgumentsFromMap Scenario.happy
    {[ "query" := any_string "quiet hotel"; "nearestNeighbors" := any_string "7" ]} =
  Ok (agents.mktoolArguments "quiet hotel" 0).
Proof. vm_compute. reflexivity. Qed.

Example parse_without_query :
  @agents.parseToolArgumentsFromMap Scenario.happy
    {[ "nearestNeighbors" := any_float64 (float_of_Z 7) ]} =
  Err (errorString "query argument missing or invalid").
Proof. vm_compute. reflexivity. Qed.

Example Run_with_another_tool :
  fst (@agents.Run Scenario.otherTool Scenario.agent "cheap hotel" 5 Scenario.w0) =
  Err (errorString "unexpected tool called: book_hotel").
Proof. vm_compute. reflexivity. Qed.

Example Run_with_text_reply :
  fst (@agents.Run Scenario.declined Scenario.agent "cheap hotel" 5 Scenario.w0) =
  Err (errorString
         "failed to extract tool call: no tool calls in response - model returned: I cannot search for hotels.").
Proof. vm_compute. reflexivity. Qed.

Example Run_with_truncated_reply :
  fst (@agents.Run Scenario.truncated Scenario.agent "cheap hotel" 5 Scenario.w0) =
  Err (errorString
         "failed to extract tool call: response was cut off (length limit exceeded)").
Proof. vm_compute. reflexivity. Qed.

Example Run_searches_with_requestedK :
  searched_ks (snd (@agents.Run Scenario.happy Scenario.agent "cheap hotel" 7 Scenario.w0)) = [7].
Proof. vm_compute. reflexivity. Qed.

Example insert_one_of_two :
  stdout (snd (@vectorstore.InsertHotelsWithEmbeddings Scenario.partialInsert
                 (Scenario.vstore true) [Scenario.hotelA; Scenario.hotelB] (mkWorld [] [] []))) =
  [ "[vectorstore] Partial insert: 1 inserted, 1 failed" +:+ nl;
    "[vectorstore] Warning: partial insert completed with 1 errors" +:+ nl;
    "[vectorstore] Inserted 1 documents" +:+ nl ].
Proof. vm_compute. reflexivity. Qed.

Example insert_none_of_one :
  fst (@vectorstore.InsertHotelsWithEmbeddings Scenario.partialInsert
         (Scenario.vstore false) [Scenario.hotelA] (mkWorld [] [] [])) =
  Some (errorString
          "failed to insert any documents: bulk write exception: write errors: [duplicate key]").
Proof. vm_compute. reflexivity. Qed.

Example TS_tool_with_embedding_down :
  @TS.getHotelsToMatchSearchQuery Scenario.runtime0 "budget hotel" (float_of_Z 5)
    Scenario.tsConfigEmbeddingDown [] =
  (JS.Return "Error occurred while searching for hotels.",
   [JS.console_error "Error in getHotelsToMatchSearchQuery tool:"
      (JS.JSString "503 Service Unavailable")]).
Proof. vm_compute. reflexivity. Qed.

Example TS_extract_tool_message :
  fst (@TS.extractPlannerToolOutput Scenario.runtime0
         (JS.JSArray (Scenario.messagesWithoutTool ++
                      [JS.JSObject [("name", JS.JSString "search_hotels_collection");
                                    ("tool_call_id", JS.JSString "call_1");
                                    ("content", JS.JSString "--- HOTEL START ---")]])%list) []) =
  JS.Return (JS.JSString "--- HOTEL START ---").
Proof. vm_compute. reflexivity. Qed.

Example TS_schema_default :
  @TS.schema_parse Scenario.runtime0 (JS.JSObject [("query", JS.JSString "quiet hotel")]) =
  Some ("quiet hotel", float_of_Z 5).
Proof. vm_compute. reflexivity. Qed.

(** ** Strings *)

Lemma append_cons (c : ascii) (s t : string) : String c s +:+ t = String c (s +:+ t).
Proof. reflexivity. Qed.

Lemma append_nil_l (s : string) : "" +:+ s = s.
Proof. reflexivity. Qed.

Lemma append_nil_r (s : string) : s +:+ "" = s.
Proof. induction s as [|c s IH]; [reflexivity|]. now rewrite append_cons, IH. Qed.

Lemma append_assoc (s t u : string) : (s +:+ t) +:+ u = s +:+ (t +:+ u).
Proof. induction s as [|c s IH]; [reflexivity|]. now rewrite !append_cons, IH. Qed.

Lemma length_append (s t : string) :
  String.length (s +:+ t) = (String.length s + String.length t)%nat.
Proof. induction s as [|c s IH]; [reflexivity|]. rewrite append_cons. simpl. now rewrite IH. Qed.

Lemma HasPrefix_append (p s : string) : strings.HasPrefix (p +:+ s) p = true.
Proof.
  induction p as [|c p IH]; [reflexivity|].
  rewrite append_cons. simpl. now rewrite Ascii.eqb_refl, IH.
Qed.

Lemma HasPrefix_refl (s : string) : strings.HasPrefix s s = true.
Proof. rewrite <- (append_nil_r s) at 1. apply HasPrefix_append. Qed.

Lemma Contains_refl (s : string) : strings.Contains s s = true.
Proof. destruct s; simpl; [reflexivity|]. now rewrite Ascii.eqb_refl, HasPrefix_refl. Qed.

(** A string contains each of its suffixes. *)
Lemma Contains_suffix (p s : string) : strings.Contains (p +:+ s) s = true.
Proof.
  induction p as [|c p IH]; [apply Contains_refl|].
  rewrite append_cons. simpl. rewrite IH. apply orb_true_r.
Qed.

(** [strings.Contains] finds exactly the substrings. *)
Lemma HasPrefix_spec (s p : string) :
  strings.HasPrefix s p = true <-> exists t, s = p +:+ t.
Proof.
  revert s; induction p as [|c p IH]; intros s; simpl.
  - split; [exists s; reflexivity|reflexivity].
  - destruct s as [|d s].
    + split; [discriminate|]. intros [t Ht]. rewrite append_cons in Ht. discriminate.
    + rewrite andb_true_iff, Ascii.eqb_eq, IH. split.
      * intros [-> [t ->]]. exists t. reflexivity.
      * intros [t Ht]. rewrite append_cons in Ht. injection Ht as -> ->. eauto.
Qed.

Lemma Contains_spec (s sub : string) :
  strings.Contains s sub = true <-> exists a b, s = a +:+ sub +:+ b.
Proof.
  induction s as [|c s IH].
  - simpl. rewrite orb_false_r, HasPrefix_spec. split.
    + intros [t Ht]. exists "", t. exact Ht.
    + intros [a [b Hab]]. destruct a; [exists b; exact Hab|]. rewrite append_cons in Hab.
      discriminate.
  - change (strings.Contains (String c s) sub)
      with (strings.HasPrefix (String c s) sub || strings.Contains s sub).
    rewrite orb_true_iff, HasPrefix_spec, IH. split.
    + intros [[t Ht]|[a [b Hab]]].
      * exists "", t. exact Ht.
      * exists (String c a), b. rewrite append_cons. now rewrite Hab.
    + intros [a [b Hab]]. destruct a as [|d a].
      * left. exists b. exact Hab.
      * right. rewrite append_cons in Hab. injection Hab as -> ->. eauto.
Qed.

(** Go's [strings.Join] builds what [String.concat] builds. *)
Lemma concat_append_head (sep a b : string) (l : list string) :
  String.concat sep ((a +:+ b) :: l) = a +:+ String.concat sep (b :: l).
Proof. destruct l; simpl; [reflexivity|]. now rewrite append_assoc. Qed.

Lemma Join_fold (sep : string) (rest : list string) (e0 : string) :
  fold_left (fun b s => b +:+ sep +:+ s) rest e0 = String.concat sep (e0 :: rest).
Proof.
  revert e0; induction rest as [|x rest IH]; intros e0; [reflexivity|].
  cbn [fold_left]. rewrite IH, !concat_append_head. reflexivity.
Qed.

Lemma Join_concat (elems : list string) (sep : string) :
  strings.Join elems sep = String.concat sep elems.
Proof. destruct elems as [|e0 rest]; [reflexivity|]. apply Join_fold. Qed.

(** ** The Go code, step by step *)

Ltac run_monad := unfold bind, ret, when, Print, send in *; cbn [fst snd] in *.

Section go_steps.
Context `{Services}.

Lemma GenerateEmbedding_world (c : clients.OpenAIClients) (text : string) (w : World) :
  snd (clients.GenerateEmbedding c text w) =
  mkWorld (stdout w)
    (requests w ++ [ReqEmbedding (clients.EmbeddingDeployment (clients.config c)) text])%list
    (collection w).
Proof.
  unfold clients.GenerateEmbedding. run_monad.
  destruct (Embeddings_New _ text) as [[|d0 Data]|err]; reflexivity.
Qed.

Lemma formatLoop_value (results : list HotelSearchResult) :
  forall (i : Z) (acc : list string) (w : World),
    fst (agents.formatLoop i results acc w) =
    (acc ++ List.map vectorstore.FormatHotelForSynthesizer results)%list.
Proof.
  induction results as [|r rest IH]; intros i acc w; simpl.
  - now rewrite app_nil_r.
  - run_monad. rewrite IH, <- app_assoc. reflexivity.
Qed.

Lemma formatLoop_world (results : list HotelSearchResult) :
  forall (i : Z) (acc : list string) (w : World),
    requests (snd (agents.formatLoop i results acc w)) = requests w /\
    collection (snd (agents.formatLoop i results acc w)) = collection w.
Proof.
  induction results as [|r rest IH]; intros i acc w; simpl.
  - split; reflexivity.
  - run_monad. destruct (IH (i + 1) (acc ++ [vectorstore.FormatHotelForSynthesizer r])%list
      (mkWorld (stdout w ++ ["Hotel #" +:+ fmt.Itoa (i + 1) +:+ ": " +:+ HotelName (Hotel r) +:+
             ", Score: " +:+ fmt.FormatFloat (Score r) 6 +:+ nl])%list (requests w) (collection w)))
      as [Hr Hc].
    split; assumption.
Qed.

(** The loop over the cursor keeps the documents in their order. *)
Lemma decodeAll_Ok (docs : list ScoredDocument) :
  forall acc : list HotelSearchResult,
    vectorstore.decodeAll (List.map Ok docs) acc =
    Ok (acc ++ List.map (fun d => mkHotelSearchResult (document d) (score d)) docs)%list.
Proof.
  induction docs as [|d docs IH]; intros acc; simpl.
  - now rewrite app_nil_r.
  - rewrite IH, <- app_assoc. reflexivity.
Qed.

Lemma VectorSearch_world (vs : vectorstore.VectorStore) (qv : list spec_float) (kk : Z)
    (w : World) :
  requests (snd (vectorstore.VectorSearch vs qv kk w)) =
    (requests w ++
     [ReqAggregate (mkPipeline qv (vectorstore.EmbeddedField (vectorstore.config vs)) kk)])%list /\
  collection (snd (vectorstore.VectorSearch vs qv kk w)) = collection w.
Proof.
  unfold vectorstore.VectorSearch, vectorstore.Aggregate. run_monad.
  destruct (Collection_Aggregate _ _) as [cursor|err]; [|split; reflexivity].
  destruct (vectorstore.decodeAll _ _) as [results|err]; [|split; reflexivity].
  destruct (cursor_Err cursor); [split; reflexivity|].
  destruct (vectorstore.Debug _); split; reflexivity.
Qed.

(** The Search Tool sends the embedding request for its query and, when
    the embedding arrives, one aggregation with its neighbour count. *)
Lemma Execute_requests (t : agents.VectorSearchTool) (query : string) (kk : Z) (w : World) :
  requests (snd (agents.Execute t query kk w)) =
  (requests w ++
   ReqEmbedding (clients.EmbeddingDeployment (clients.config (agents.tool_openAIClients t))) query ::
   match fst (clients.GenerateEmbedding (agents.tool_openAIClients t) query w) with
   | Ok qv =>
       [ReqAggregate
          (mkPipeline qv
             (vectorstore.EmbeddedField (vectorstore.config (agents.vectorStore t))) kk)]
   | Err _ => []
   end)%list.
Proof.
  unfold agents.Execute. run_monad.
  pose proof (GenerateEmbedding_world (agents.tool_openAIClients t) query w) as Hw.
  destruct (clients.GenerateEmbedding _ query w) as [[qv|err] w1]; cbn [fst snd] in *; subst w1.
  - pose proof (VectorSearch_world (agents.vectorStore t) qv kk
      (mkWorld (stdout w)
         (requests w ++ [ReqEmbedding
            (clients.EmbeddingDeployment (clients.config (agents.tool_openAIClients t))) query])%list
         (collection w))) as [Hr _].
    destruct (vectorstore.VectorSearch _ qv kk _) as [[results|err] w2]; cbn [fst snd] in *.
    + pose proof (formatLoop_world results 0 [] w2) as [Hr2 _].
      destruct (agents.formatLoop 0 results [] w2) as [fr w3]; cbn [fst snd] in *.
      rewrite Hr2, Hr. cbn [requests]. now rewrite <- app_assoc.
    + rewrite Hr. cbn [requests]. now rewrite <- app_assoc.
  - reflexivity.
Qed.

Lemma searched_ks_app (w : World) (l : list Request) :
  searched_ks (mkWorld (stdout w) (requests w ++ l)%list (collection w)) =
  (searched_ks w ++ flat_map (fun r => match r with
                                       | ReqAggregate p => [search_k p]
                                       | _ => []
                                       end) l)%list.
Proof. unfold searched_ks. cbn [requests]. apply flat_map_app. Qed.

(** Every search the Search Tool issues carries the neighbour count it
    was called with. *)
Lemma Execute_searched_ks (t : agents.VectorSearchTool) (query : string) (kk : Z) (w : World) :
  forall k', In k' (searched_ks (snd (agents.Execute t query kk w))) ->
             In k' (searched_ks w) \/ k' = kk.
Proof.
  intros k'. unfold searched_ks at 1. rewrite Execute_requests, flat_map_app, in_app_iff.
  intros [Hin|Hin]; [left; exact Hin|right].
  cbn [flat_map] in Hin.
  destruct (fst (clients.GenerateEmbedding _ query w)); simpl in Hin; intuition.
Qed.

(** A successful [Execute] returns the blocks of the results, in order,
    with an empty line between them. *)
Lemma Execute_output (t : agents.VectorSearchTool) (query : string) (kk : Z) (w : World)
    (results : list HotelSearchResult) :
  Spec.searchResultsOf t query kk w = Some results ->
  fst (agents.Execute t query kk w) =
  Ok (String.concat (nl +:+ nl) (List.map vectorstore.FormatHotelForSynthesizer results)).
Proof.
  unfold Spec.searchResultsOf, agents.Execute. run_monad.
  destruct (clients.GenerateEmbedding _ query w) as [[qv|err] w1]; [|discriminate].
  destruct (vectorstore.VectorSearch _ qv kk w1) as [[rs|err] w2]; [|discriminate].
  intros [= ->].
  pose proof (formatLoop_value results 0 [] w2) as Hv.
  destruct (agents.formatLoop 0 results [] w2) as [fr w3]; cbn [fst snd] in *.
  subst fr. now rewrite Join_concat.
Qed.

End go_steps.

Section go_run.
Context `{Services}.

(** [Run] after the model has replied. *)
Lemma Run_after_reply (a : agents.PlannerAgent) (userQuery : string) (requestedK : Z)
    (w w1 : World) (resp : ChatCompletion) :
  Spec.plannerCall a userQuery requestedK w = (Ok resp, w1) ->
  agents.Run a userQuery requestedK w =
  match clients.ExtractToolCall (Some resp) with
  | Err err => (Err (Errorf ("failed to extract tool call: " +:+ Error err)), w1)
  | Ok (toolName, argsMap) =>
      if negb (String.eqb toolName prompts.ToolName) then
        (Err (Errorf ("unexpected tool called: " +:+ toolName)), w1)
      else
        match agents.parseToolArgumentsFromMap argsMap with
        | Err err => (Err (Errorf ("failed to parse tool arguments: " +:+ Error err)), w1)
        | Ok args =>
            Spec.invokeSearchTool a toolName (agents.Query args)
              (if agents.NearestNeighbors args =? 0 then requestedK
               else agents.NearestNeighbors args) w1
        end
  end.
Proof.
  unfold Spec.plannerCall, agents.Run, Spec.plannerUserMessage. run_monad.
  intros ->.
  destruct (clients.ExtractToolCall (Some resp)) as [[toolName argsMap]|err]; [|reflexivity].
  destruct (negb (String.eqb toolName prompts.ToolName)); [reflexivity|].
  destruct (agents.parseToolArgumentsFromMap argsMap) as [args|err]; [|reflexivity].
  unfold Spec.invokeSearchTool. run_monad.
  destruct (agents.NearestNeighbors args =? 0); reflexivity.
Qed.

(** The requests of the last part of [Run] are those of the Search Tool. *)
Lemma invokeSearchTool_requests (a : agents.PlannerAgent) (toolName query : string) (kk : Z)
    (w : World) :
  requests (snd (Spec.invokeSearchTool a toolName query kk w)) =
  requests (snd (agents.Execute (agents.searchTool a) query kk
                   (mkWorld (stdout w ++ ["Tool: " +:+ toolName +:+ nl] ++
                             ["Query: " +:+ query +:+ nl] ++
                             ["K: " +:+ fmt.Itoa kk +:+ nl])%list
                            (requests w) (collection w)))).
Proof.
  unfold Spec.invokeSearchTool. run_monad. cbn [stdout requests collection].
  rewrite <- !app_assoc.
  destruct (agents.Execute _ query kk _) as [[s|err] w2]; reflexivity.
Qed.

Lemma invokeSearchTool_embeds (a : agents.PlannerAgent) (toolName query : string) (kk : Z)
    (w : World) :
  exists more,
    requests (snd (Spec.invokeSearchTool a toolName query kk w)) =
    (requests w ++
     ReqEmbedding (clients.EmbeddingDeployment
                     (clients.config (agents.tool_openAIClients (agents.searchTool a)))) query ::
     more)%list.
Proof.
  rewrite invokeSearchTool_requests, Execute_requests. cbn [requests]. eauto.
Qed.

End go_run.

Section go_planner.
Context `{Services}.

(** What a successful extraction says about the reply. *)
Lemma extractToolCallRaw_Ok (resp : ChatCompletion) (toolName argsJSON : string) :
  clients.extractToolCallRaw (Some resp) = Ok (toolName, argsJSON) ->
  exists c0 rest tc tcs,
    Choices resp = c0 :: rest /\
    (FinishReason c0 = "tool_calls" \/ FinishReason c0 = "stop") /\
    ToolCalls (Message_ c0) = tc :: tcs /\
    Type_ tc = "function" /\
    Name (Function_ tc) = toolName /\ Arguments (Function_ tc) = argsJSON.
Proof.
  unfold clients.extractToolCallRaw.
  destruct (Choices resp) as [|c0 rest]; [discriminate|].
  destruct (String.eqb_spec (FinishReason c0) "length") as [|Hlen]; [discriminate|].
  destruct (String.eqb_spec (FinishReason c0) "tool_calls") as [Htc|Htc];
    destruct (String.eqb_spec (FinishReason c0) "stop") as [Hstop|Hstop];
    cbn [negb andb]; try discriminate;
    (destruct (ToolCalls (Message_ c0)) as [|tc tcs] eqn:Htcs;
     [destruct (negb _); discriminate|];
     destruct (String.eqb_spec (Type_ tc) "function") as [Hty|Hty];
     cbn [negb]; [|discriminate];
     intros [= <- <-]; exists c0, rest, tc, tcs; intuition).
Qed.

(** A reply whose finish reason is neither a tool call nor a stop is
    refused. *)
Lemma extractToolCallRaw_finish (resp : ChatCompletion) (c0 : Choice) (rest : list Choice) :
  Choices resp = c0 :: rest ->
  FinishReason c0 <> "tool_calls" -> FinishReason c0 <> "stop" ->
  exists e, clients.extractToolCallRaw (Some resp) = Err e.
Proof.
  intros Hc Htc Hstop. unfold clients.extractToolCallRaw. rewrite Hc.
  destruct (String.eqb_spec (FinishReason c0) "length"); [eauto|].
  destruct (String.eqb_spec (FinishReason c0) "tool_calls"); [contradiction|].
  destruct (String.eqb_spec (FinishReason c0) "stop"); [contradiction|].
  cbn [negb andb]. eauto.
Qed.

(** A reply without tool calls is refused, and with an acceptable finish
    reason the error carries its text. *)
Lemma extractToolCallRaw_no_calls (resp : ChatCompletion) (c0 : Choice) (rest : list Choice) :
  Choices resp = c0 :: rest ->
  ToolCalls (Message_ c0) = [] ->
  exists e, clients.extractToolCallRaw (Some resp) = Err e /\
    ((FinishReason c0 = "tool_calls" \/ FinishReason c0 = "stop") ->
     Content (Message_ c0) <> "" ->
     Error e = "no tool calls in response - model returned: " +:+ Content (Message_ c0)).
Proof.
  intros Hc Hno. unfold clients.extractToolCallRaw. rewrite Hc, Hno.
  destruct (String.eqb_spec (FinishReason c0) "length") as [Hlen|Hlen].
  { eexists; split; [reflexivity|]. rewrite Hlen. intros [?|?]; discriminate. }
  destruct (String.eqb_spec (FinishReason c0) "tool_calls") as [Htc|Htc];
    destruct (String.eqb_spec (FinishReason c0) "stop") as [Hstop|Hstop];
    cbn [negb andb];
    try (destruct (String.eqb_spec (Content (Message_ c0)) "") as [He|He]; cbn [negb];
         (eexists; split; [reflexivity|]; intros _ Hne; (contradiction || reflexivity))).
  eexists; split; [reflexivity|]. intros [?|?]; contradiction.
Qed.

Lemma ExtractToolCall_Err (resp : option ChatCompletion) (e : error) :
  clients.extractToolCallRaw resp = Err e -> clients.ExtractToolCall resp = Err e.
Proof. unfold clients.ExtractToolCall. now intros ->. Qed.

Lemma ExtractToolCall_Ok (resp : option ChatCompletion) (toolName : string)
    (argsMap : gmap string any) :
  clients.ExtractToolCall resp = Ok (toolName, argsMap) ->
  exists argsJSON, clients.extractToolCallRaw resp = Ok (toolName, argsJSON) /\
                   json_Unmarshal argsJSON = Ok argsMap.
Proof.
  unfold clients.ExtractToolCall.
  destruct (clients.extractToolCallRaw resp) as [[tn aj]|err]; [|discriminate].
  destruct (json_Unmarshal aj) as [m|err] eqn:Hu; [|discriminate].
  intros [= <- <-]. eauto.
Qed.

(** The model call adds no search request. *)
Lemma plannerCall_requests (a : agents.PlannerAgent) (userQuery : string) (requestedK : Z)
    (w w1 : World) (r : result ChatCompletion) :
  Spec.plannerCall a userQuery requestedK w = (r, w1) ->
  searched_ks w1 = searched_ks w /\ collection w1 = collection w.
Proof.
  unfold Spec.plannerCall, clients.ChatCompletionWithTools, agents.GetToolDefinition,
    clients.debugResponse, searched_ks. run_monad.
  destruct (clients.Debug _);
    (destruct (Completions_New _ _ _) as [[resp|] [err|]];
     try (intros [= <- <-]; cbn [requests collection]; rewrite flat_map_app;
          cbn [flat_map]; rewrite !app_nil_r; split; reflexivity)).
  destruct (Choices resp) as [|c0 rest];
    [intros [= <- <-]; cbn [requests collection]; rewrite flat_map_app;
     cbn [flat_map]; rewrite !app_nil_r; split; reflexivity|].
  destruct (bool_decide _ && negb _);
    intros [= <- <-]; cbn [requests collection]; rewrite flat_map_app;
    cbn [flat_map]; rewrite !app_nil_r; split; reflexivity.
Qed.

End go_planner.

(** ** The planner's checks *)

(** C7. Once the planner model has replied, [Run] fails, without calling
    the Search Tool, when the finish reason of the reply is neither
    [tool_calls] nor [stop] (a reply cut off by the length limit
    included), and when the tool named by the extracted call is not the
    Search Tool; if [Run] sends any request after the reply, the finish
    reason was one of the two and the first tool call named the Search
    Tool. *)
Theorem Run_checks_finish_reason_and_tool_name
    (S : Services) (a : agents.PlannerAgent) (userQuery : string) (requestedK : Z)
    (w w1 : World) (resp : ChatCompletion) :
  Spec.plannerCall a userQuery requestedK w = (Ok resp, w1) ->
  (forall c0 rest,
      Choices resp = c0 :: rest ->
      FinishReason c0 <> "tool_calls" -> FinishReason c0 <> "stop" ->
      exists e, agents.Run a userQuery requestedK w = (Err e, w1)) /\
  (forall toolName argsJSON,
      clients.extractToolCallRaw (Some resp) = Ok (toolName, argsJSON) ->
      toolName <> prompts.ToolName ->
      exists e, agents.Run a userQuery requestedK w = (Err e, w1)) /\
  (requests (snd (agents.Run a userQuery requestedK w)) <> requests w1 ->
   exists c0 rest tc tcs,
     Choices resp = c0 :: rest /\
     (FinishReason c0 = "tool_calls" \/ FinishReason c0 = "stop") /\
     ToolCalls (Message_ c0) = tc :: tcs /\
     Name (Function_ tc) = prompts.ToolName).
Proof.
  intros Hcall. rewrite (Run_after_reply _ _ _ _ _ _ Hcall). repeat split.
  - intros c0 rest Hc Htc Hstop.
    destruct (extractToolCallRaw_finish resp c0 rest Hc Htc Hstop) as [e He].
    rewrite (ExtractToolCall_Err _ _ He). eauto.
  - intros toolName argsJSON Hraw Hname.
    unfold clients.ExtractToolCall. rewrite Hraw.
    destruct (json_Unmarshal argsJSON) as [argsMap|err]; [|eauto].
    destruct (String.eqb_spec toolName prompts.ToolName) as [|_]; [contradiction|].
    cbn [negb]. eauto.
  - destruct (clients.ExtractToolCall (Some resp)) as [[toolName argsMap]|err] eqn:Hex;
      [|intros Hne; now contradiction Hne].
    destruct (String.eqb_spec toolName prompts.ToolName) as [->|_]; cbn [negb];
      [|intros Hne; now contradiction Hne].
    intros _.
    destruct (ExtractToolCall_Ok _ _ _ Hex) as [argsJSON [Hraw _]].
    destruct (extractToolCallRaw_Ok _ _ _ Hraw) as (c0 & rest & tc & tcs & Hc & Hf & Ht & _ & Hn & _).
    exists c0, rest, tc, tcs. auto.
Qed.

(** A reply cut off by the length limit: [Run] fails and no search is
    made. *)
Lemma Run_checks_witness :
  (exists e, @agents.Run Scenario.truncated Scenario.agent "cheap hotel" 5 Scenario.w0 =
             (Err e, snd (@Spec.plannerCall Scenario.truncated Scenario.agent "cheap hotel" 5
                            Scenario.w0))).
Proof.
  refine (proj1 (Run_checks_finish_reason_and_tool_name Scenario.truncated Scenario.agent
            "cheap hotel" 5 Scenario.w0 _ _ _) _ _ _ _ _);
    [reflexivity | reflexivity | discriminate | discriminate].
Defined.

(** ** The tool arguments *)

(** C10. [parseToolArgumentsFromMap] fails exactly when [query] is missing
    or is not a string; with a string [query], a [nearestNeighbors] that
    is missing or is not a number gives the neighbour count 0 without
    failing, and [Run] then calls the Search Tool with the caller's
    count. *)
Theorem parseToolArguments_fails_iff_query_invalid
    (S : Services) (argsMap : gmap string any) :
  ((exists e, agents.parseToolArgumentsFromMap argsMap = Err e) <->
   (argsMap !! "query" = None \/
    exists v, argsMap !! "query" = Some v /\ forall q, v <> any_string q)) /\
  (forall q,
      argsMap !! "query" = Some (any_string q) ->
      (argsMap !! "nearestNeighbors" = None \/
       exists v, argsMap !! "nearestNeighbors" = Some v /\ forall x, v <> any_float64 x) ->
      agents.parseToolArgumentsFromMap argsMap = Ok (agents.mktoolArguments q 0) /\
      forall a userQuery requestedK w w1 resp,
        Spec.plannerCall a userQuery requestedK w = (Ok resp, w1) ->
        clients.ExtractToolCall (Some resp) = Ok (prompts.ToolName, argsMap) ->
        agents.Run a userQuery requestedK w =
        Spec.invokeSearchTool a prompts.ToolName q requestedK w1).
Proof.
  split.
  - unfold agents.parseToolArgumentsFromMap. split.
    + destruct (argsMap !! "query") as [v|] eqn:Hq; [|auto].
      destruct v; try (intros _; right; eexists; split; [reflexivity|discriminate]).
      destruct (argsMap !! "nearestNeighbors") as [[]|]; intros [e He]; discriminate.
    + intros [->|[v [-> Hv]]]; [eauto|].
      destruct v; eauto. now contradiction (Hv s).
  - intros q Hq Hnn.
    assert (Hparse : agents.parseToolArgumentsFromMap argsMap = Ok (agents.mktoolArguments q 0)).
    { unfold agents.parseToolArgumentsFromMap. rewrite Hq.
      destruct Hnn as [->|[v [-> Hv]]]; [reflexivity|].
      destruct v; try reflexivity. now contradiction (Hv x). }
    split; [exact Hparse|].
    intros a userQuery requestedK w w1 resp Hcall Hex.
    rewrite (Run_after_reply _ _ _ _ _ _ Hcall), Hex, Hparse. reflexivity.
Qed.

(** The arguments [{query: ...}] parse to the neighbour count 0. *)
Lemma parseToolArguments_witness :
  @agents.parseToolArgumentsFromMap Scenario.happy Scenario.argsMap =
  Ok (agents.mktoolArguments "budget hotel with good value" 0).
Proof.
  refine (proj1 (proj2 (parseToolArguments_fails_iff_query_invalid Scenario.happy
            Scenario.argsMap) "budget hotel with good value" _ _)).
  - vm_compute. reflexivity.
  - left. vm_compute. reflexivity.
Defined.

(** ** Bulk insert *)

(** C5. When the store answers an insert of [N] documents with a bulk
    write exception listing [failed] write errors, the operation counts
    [inserted = N - failed], so that [inserted + failed = N]; it returns
    an error exactly when [inserted] is zero; otherwise it succeeds, after
    writing the warning with the number of errors (and, in debug mode, the
    line with both counts). *)
Theorem InsertHotels_partial_failure
    (S : Services) (vs : vectorstore.VectorStore) (hotels : list HotelForVectorStore)
    (w : World) (coll' : list HotelForVectorStore) (res : InsertManyResult)
    (WriteErrors : list BulkWriteError) (msg : string) :
  hotels <> [] ->
  Collection_InsertMany (collection w) hotels false =
    (coll', res, Some (BulkWriteException WriteErrors msg)) ->
  let N := Z.of_nat (length hotels) in
  let failed := Z.of_nat (length WriteErrors) in
  let inserted := N - failed in
  let out := vectorstore.InsertHotelsWithEmbeddings vs hotels w in
  inserted + failed = N /\
  (1 <= inserted -> fst out = None) /\
  ((exists e, fst out = Some e) <-> inserted = 0) /\
  (inserted <> 0 ->
   In ("[vectorstore] Warning: partial insert completed with " +:+ fmt.Itoa failed +:+
       " errors" +:+ nl) (stdout (snd out))) /\
  (vectorstore.Debug (vectorstore.config vs) = true ->
   In ("[vectorstore] Partial insert: " +:+ fmt.Itoa inserted +:+ " inserted, " +:+
       fmt.Itoa failed +:+ " failed" +:+ nl) (stdout (snd out))) /\
  collection (snd out) = coll'.
Proof.
  intros Hne Hins N failed inserted out.
  assert (Hout : out =
    let finish :=
      (when (vectorstore.Debug (vectorstore.config vs))
         (Print ("[vectorstore] Inserted " +:+
                 fmt.Itoa (Z.of_nat (length (InsertedIDs res))) +:+ " documents" +:+ nl)) ;;;
       ret None)%go in
    ((when (vectorstore.Debug (vectorstore.config vs))
        (Print ("[vectorstore] Partial insert: " +:+ fmt.Itoa inserted +:+ " inserted, " +:+
                fmt.Itoa failed +:+ " failed" +:+ nl)) ;;;
      if inserted =? 0 then
        ret (Some (Errorf ("failed to insert any documents: " +:+ msg)))
      else
        Print ("[vectorstore] Warning: partial insert completed with " +:+
               fmt.Itoa failed +:+ " errors" +:+ nl) ;;; finish)%go)
      (mkWorld (stdout w) (requests w ++ [ReqInsertMany hotels false])%list coll')).
  { subst out. unfold vectorstore.InsertHotelsWithEmbeddings, vectorstore.InsertMany.
    destruct hotels as [|h hs]; [contradiction|].
    rewrite bool_decide_eq_false_2 by discriminate.
    unfold bind at 1. rewrite Hins. reflexivity. }
  clearbody out. subst out. run_monad.
  split; [lia|].
  destruct (Z.eqb_spec inserted 0) as [Hz|Hz];
    destruct (vectorstore.Debug (vectorstore.config vs)); cbn [fst snd stdout collection];
    repeat split; try (intros; first [lia | discriminate | reflexivity | contradiction]);
    try (intros [e He]; discriminate); try (intros _; eauto);
    try (intros _; rewrite ?in_app_iff; simpl; tauto).
  all: unfold ret; cbn [fst snd stdout]; rewrite ?in_app_iff; simpl; tauto.
Qed.

(** Two documents, one refused: the insert succeeds and warns. *)
Lemma InsertHotels_partial_witness :
  fst (@vectorstore.InsertHotelsWithEmbeddings Scenario.partialInsert (Scenario.vstore true)
         [Scenario.hotelA; Scenario.hotelB] (mkWorld [] [] [])) = None.
Proof.
  refine (proj1 (proj2 (InsertHotels_partial_failure Scenario.partialInsert
            (Scenario.vstore true) [Scenario.hotelA; Scenario.hotelB] (mkWorld [] [] [])
            _ _ _ _ _ _)) _).
  - discriminate.
  - reflexivity.
  - vm_compute. discriminate.
Defined.

(** C8. Inserting the empty list succeeds at once: the result is the nil
    error and the world is untouched (the collection is the same and no
    request, so no insert call, has been added). *)
Theorem InsertHotels_empty_is_noop (S : Services) (vs : vectorstore.VectorStore) (w : World) :
  vectorstore.InsertHotelsWithEmbeddings vs [] w = (None, w) /\
  collection (snd (vectorstore.InsertHotelsWithEmbeddings vs [] w)) = collection w /\
  insert_calls (snd (vectorstore.InsertHotelsWithEmbeddings vs [] w)) = insert_calls w.
Proof. repeat split. Qed.

(** A non-empty insert does reach the store. *)
Lemma InsertHotels_nonempty_calls_store (S : Services) (vs : vectorstore.VectorStore)
    (h : HotelForVectorStore) (hs : list HotelForVectorStore) (w : World) :
  insert_calls (snd (vectorstore.InsertHotelsWithEmbeddings vs (h :: hs) w)) =
  (insert_calls w ++ [ReqInsertMany (h :: hs) false])%list.
Proof.
  unfold vectorstore.InsertHotelsWithEmbeddings, vectorstore.InsertMany, insert_calls.
  rewrite bool_decide_eq_false_2 by discriminate. run_monad.
  destruct (Collection_InsertMany (collection w) (h :: hs) false) as [[coll' res] err].
  assert (Hf : forall l, List.filter
             (fun r => match r with ReqInsertMany _ _ => true | _ => false end)
             (requests w ++ l) =
           (List.filter (fun r => match r with ReqInsertMany _ _ => true | _ => false end)
              (requests w) ++
            List.filter (fun r => match r with ReqInsertMany _ _ => true | _ => false end) l)%list)
    by (intros l; apply List.filter_app).
  destruct err as [[m|we m]|]; try destruct (vectorstore.Debug _);
    try destruct (_ =? 0); unfold ret; cbn [fst snd requests]; rewrite Hf; reflexivity.
Qed.

(** ** Vector search *)

(** C6, as the code has it.  When the store answers the aggregation with a
    cursor whose documents all decode, [VectorSearch] returns exactly
    those documents with their scores, in the order of the cursor: it
    sends [k] to the store in the [$search] stage and neither sorts nor
    truncates.  So the result is as long as the store's answer, and is
    best match first under a metric exactly when the store's answer is. *)
Theorem VectorSearch_keeps_store_order
    (S : Services) (vs : vectorstore.VectorStore) (queryVector : list spec_float) (kk : Z)
    (w : World) (cursor : Cursor) (docs : list ScoredDocument) :
  Collection_Aggregate (collection w)
    (mkPipeline queryVector (vectorstore.EmbeddedField (vectorstore.config vs)) kk)
    = Ok cursor ->
  batch cursor = List.map Ok docs ->
  cursor_Err cursor = None ->
  let results := List.map (fun d => mkHotelSearchResult (document d) (score d)) docs in
  fst (vectorstore.VectorSearch vs queryVector kk w) = Ok results /\
  length results = length docs /\
  List.map Score results = List.map score docs /\
  (forall metric,
      best_first metric (List.map Score results) = best_first metric (List.map score docs)) /\
  requests (snd (vectorstore.VectorSearch vs queryVector kk w)) =
    (requests w ++
     [ReqAggregate
        (mkPipeline queryVector (vectorstore.EmbeddedField (vectorstore.config vs)) kk)])%list.
Proof.
  intros Hagg Hbatch Herr results.
  assert (Hscores : List.map Score results = List.map score docs).
  { subst results. rewrite List.map_map. reflexivity. }
  repeat split.
  - unfold vectorstore.VectorSearch, vectorstore.Aggregate. run_monad.
    rewrite Hagg, Hbatch, decodeAll_Ok, Herr. cbn [app].
    destruct (vectorstore.Debug _); reflexivity.
  - subst results. apply List.length_map.
  - exact Hscores.
  - intros metric. now rewrite Hscores.
  - apply VectorSearch_world.
Qed.

(** The store answers best first and so does the search. *)
Lemma VectorSearch_keeps_order_witness :
  fst (@vectorstore.VectorSearch Scenario.happy (Scenario.vstore false) [] 2 Scenario.w0) =
  Ok [mkHotelSearchResult Scenario.hotelB Scenario.high;
      mkHotelSearchResult Scenario.hotelA Scenario.low].
Proof.
  refine (proj1 (VectorSearch_keeps_store_order Scenario.happy (Scenario.vstore false) [] 2
            Scenario.w0 Scenario.cursorHighLow
            [mkScoredDocument Scenario.high Scenario.hotelB;
             mkScoredDocument Scenario.low Scenario.hotelA] _ _ _));
    reflexivity.
Defined.

(** C6 as stated fails: a store of two hotels that answers a search for
    two neighbours worst match first gets its answer back unchanged, the
    score 1/8 before the score 7/8 under the cosine metric. *)
Lemma VectorSearch_does_not_reorder : ~ Stated.search_normalizes_order.
Proof.
  intros Hclaim.
  destruct (Hclaim Scenario.worstFirst COS (Scenario.vstore false) [] 2 Scenario.w0
              Scenario.cursorLowHigh
              [mkScoredDocument Scenario.low Scenario.hotelA;
               mkScoredDocument Scenario.high Scenario.hotelB])
    as [results [Hres [_ Hbest]]];
    try reflexivity; [lia | discriminate |].
  vm_compute in Hres. injection Hres as <-.
  vm_compute in Hbest. discriminate.
Qed.

(** ** Numbers in decimal *)

Lemma all_digits_cons (c : ascii) (s : string) :
  all_digits (String c s) =
  ((48 <=? nat_of_ascii c)%nat && (nat_of_ascii c <=? 57)%nat) && all_digits s.
Proof. reflexivity. Qed.

Lemma all_digits_append (s t : string) :
  all_digits (s +:+ t) = all_digits s && all_digits t.
Proof.
  induction s as [|c s IH]; [reflexivity|].
  rewrite append_cons, !all_digits_cons, IH. now rewrite andb_assoc.
Qed.

Lemma all_digits_uint (u : Decimal.uint) : all_digits (NilEmpty.string_of_uint u) = true.
Proof. induction u; cbn [NilEmpty.string_of_uint]; rewrite ?all_digits_cons, ?IHu; reflexivity. Qed.

(** A non-negative integer is written with digits only, at least one. *)
Lemma Itoa_nonneg (n : Z) : 0 <= n -> fmt.Itoa n <> "" /\ all_digits (fmt.Itoa n) = true.
Proof.
  intros Hn. unfold fmt.Itoa. destruct n as [|p|p]; [split; [discriminate|reflexivity]| |lia].
  cbn [Z.to_int NilZero.string_of_int]. unfold NilZero.string_of_uint.
  pose proof (all_digits_uint (Pos.to_uint p)) as Hd.
  destruct (Pos.to_uint p); (split; [discriminate|exact Hd || reflexivity]).
Qed.

Lemma frac_digits_length (width : nat) :
  forall n, String.length (fmt.frac_digits width n) = width.
Proof.
  induction width as [|width IH]; intros n; [reflexivity|].
  cbn [fmt.frac_digits]. rewrite length_append, IH. simpl. lia.
Qed.

Lemma digit_is_digit (n : Z) : all_digits (String (fmt.digit (n mod 10)) "") = true.
Proof.
  pose proof (Z.mod_pos_bound n 10 ltac:(lia)) as Hb.
  rewrite all_digits_cons. unfold fmt.digit.
  rewrite nat_ascii_embedding by lia.
  rewrite andb_true_r, andb_true_iff, !Nat.leb_le. lia.
Qed.

Lemma frac_digits_all_digits (width : nat) :
  forall n, all_digits (fmt.frac_digits width n) = true.
Proof.
  induction width as [|width IH]; intros n; [reflexivity|].
  cbn [fmt.frac_digits]. now rewrite all_digits_append, IH, digit_is_digit.
Qed.

Lemma scaled_round_nonneg (tie : fmt.tie_rule) (m : positive) (e : Z) (prec : nat) :
  0 <= fmt.scaled_round tie m e prec.
Proof.
  unfold fmt.scaled_round.
  assert (Hnum : 0 <= Z.pos m * 10 ^ Z.of_nat prec) by (apply Z.mul_nonneg_nonneg; lia).
  destruct (0 <=? e) eqn:He.
  - apply Z.mul_nonneg_nonneg; [exact Hnum|]. apply Z.pow_nonneg. lia.
  - assert (Hd : 0 < 2 ^ (- e)) by (apply Z.pow_pos_nonneg; lia).
    assert (Hq : 0 <= Z.pos m * 10 ^ Z.of_nat prec / 2 ^ (- e)) by (apply Z.div_pos; lia).
    cbv zeta.
    destruct (_ ?= _); [destruct tie; [destruct (Z.even _)|]| |]; lia.
Qed.

(** The writing of a non-negative scaled integer with six decimals. *)
Lemma fixed_digits_six (n : Z) :
  0 <= n ->
  exists ip fp,
    fmt.fixed_digits n 6 = ip +:+ "." +:+ fp /\
    ip <> "" /\ all_digits ip = true /\ all_digits fp = true /\ String.length fp = 6%nat.
Proof.
  intros Hn. unfold fmt.fixed_digits.
  assert (H0 : 0 <= n / 10 ^ Z.of_nat 6) by (apply Z.div_pos; lia).
  destruct (Itoa_nonneg _ H0) as [Hne Hd].
  exists (fmt.Itoa (n / 10 ^ Z.of_nat 6)), (fmt.frac_digits 6 (n mod 10 ^ Z.of_nat 6)).
  repeat split; auto using frac_digits_all_digits, frac_digits_length.
Qed.

(** Go's [%.6f] of a finite float has exactly six decimals. *)
Lemma FormatFloat_six_decimals (x : spec_float) :
  is_finite x = true -> six_decimals (fmt.FormatFloat x 6).
Proof.
  destruct x as [s|s| |s m e]; try discriminate; intros _; cbn [fmt.FormatFloat].
  - destruct (fixed_digits_six 0 ltac:(lia)) as (ip & fp & -> & Hrest).
    exists (if s then "-" else ""), ip, fp. destruct s; intuition.
  - destruct (fixed_digits_six _ (scaled_round_nonneg fmt.TieEven m e 6))
      as (ip & fp & -> & Hrest).
    exists (if s then "-" else ""), ip, fp. destruct s; intuition.
Qed.

(** JavaScript's [toFixed(6)] of a finite number below [10^21] has exactly
    six decimals. *)
Lemma toFixed_six_decimals `{JS.Runtime} (x : spec_float) :
  is_finite x = true -> JS.at_least_1e21 x = false -> six_decimals (JS.toFixed x 6).
Proof.
  destruct x as [s|s| |s m e]; try discriminate; intros _ Hbig; cbn [JS.toFixed].
  - destruct (fixed_digits_six 0 ltac:(lia)) as (ip & fp & -> & Hrest).
    exists "", ip, fp. intuition.
  - rewrite Hbig.
    destruct (fixed_digits_six _ (scaled_round_nonneg fmt.TieUp m e 6))
      as (ip & fp & -> & Hrest).
    exists (if s then "-" else ""), ip, fp. destruct s; intuition.
Qed.

(** ** The TypeScript formatter *)

Section ts_format.
Import JS.
Context `{Runtime}.

(** Induction on a value, through the elements of an array. *)
Lemma Value_elements_ind (P : Value -> Prop) :
  P JSUndefined -> P JSNull -> (forall b, P (JSBoolean b)) -> (forall x, P (JSNumber x)) ->
  (forall s, P (JSString s)) ->
  (forall elems, List.Forall P elems -> P (JSArray elems)) ->
  (forall props, P (JSObject props)) ->
  forall v, P v.
Proof.
  intros Hu Hn Hb Hx Hs Ha Ho. fix IH 1.
  intros [| |b|x|s|elems|props];
    [exact Hu|exact Hn|apply Hb|apply Hx|apply Hs| |apply Ho].
  apply Ha. revert elems. fix IHl 1. intros [|e l]; constructor; [apply IH|apply IHl].
Qed.

Lemma mapC_Throw_inv {A B} (f : A -> Completion B) (l : list A) (e : Value) :
  mapC f l = Throw e -> exists x, In x l /\ f x = Throw e.
Proof.
  induction l as [|x l IH]; cbn [mapC]; [discriminate|].
  destruct (f x) as [y|e0] eqn:Hx.
  - destruct (mapC f l) as [ys|e1]; [discriminate|]. intros [= <-].
    destruct (IH eq_refl) as (x' & Hin & Hx'). exists x'. split; [now right|assumption].
  - intros [= <-]. exists x. split; [now left|assumption].
Qed.

(** The only value a conversion to text throws. *)
Lemma ToString_throws (v : Value) (e : Value) :
  ToString v = Throw e -> e = TypeError "Cannot convert object to primitive value".
Proof.
  revert e. induction v as [| |b|x|s|elems IH|props] using Value_elements_ind; intros e;
    cbn [ToString]; try discriminate.
  - destruct (mapC _ elems) as [texts|e0] eqn:Hmap; cbn [cbind]; [discriminate|].
    intros [= <-]. apply mapC_Throw_inv in Hmap as (x & Hin & Hx).
    rewrite List.Forall_forall in IH. specialize (IH x Hin e0).
    destruct x; try discriminate; now apply IH.
  - destruct (has_key props "toString"); [now intros [= <-]|discriminate].
Qed.

Lemma ToString_cases (v : Value) :
  ToString v =
  if converts v then Return (textOf v)
  else Throw (TypeError "Cannot convert object to primitive value").
Proof.
  unfold converts, textOf. destruct (ToString v) as [s|e] eqn:Hv; [reflexivity|].
  f_equal. now apply ToString_throws with (v := v).
Qed.

Lemma join_cases (elems : list Value) (sep : string) :
  join elems sep =
  if converts (JSArray elems)
  then Return (match join elems sep with Return text => text | Throw _ => "" end)
  else Throw (TypeError "Cannot convert object to primitive value").
Proof.
  pose proof (ToString_throws (JSArray elems)) as Hthrow.
  unfold converts, join. cbn [ToString] in *.
  destruct (mapC _ elems) as [texts|e]; cbn [cbind] in *; [reflexivity|].
  f_equal. now apply Hthrow.
Qed.

Lemma ToNumber_Return (v : Value) :
  converts v = true -> exists x, ToNumber v = Return x.
Proof.
  unfold converts. destruct v; cbn [ToNumber]; eauto;
    destruct (ToString _); cbn [cbind]; eauto; discriminate.
Qed.

Lemma ToNumber_Throw (v : Value) :
  converts v = false ->
  ToNumber v = Throw (TypeError "Cannot convert object to primitive value").
Proof.
  intros Hv. pose proof (ToString_cases v) as Hs. rewrite Hv in Hs.
  destruct v; try discriminate; cbn [ToNumber]; now rewrite Hs.
Qed.

(** Which values convert: a primitive does, an object does unless it has
    a property of its own named [toString], an array does when its
    elements do. *)
Lemma converts_cases (v : Value) :
  converts v =
  match v with
  | JSArray elems => forallb converts elems
  | JSObject props => negb (has_key props "toString")
  | _ => true
  end.
Proof.
  destruct v as [| |b|x|s|elems|props]; try reflexivity.
  - unfold converts at 1. cbn [ToString].
    induction elems as [|e elems IH]; [reflexivity|]. cbn [mapC forallb].
    assert (He : converts e = match (match e with
                                     | JSUndefined | JSNull => Return ""
                                     | _ => ToString e
                                     end) with
                              | Return _ => true
                              | Throw _ => false
                              end).
    { destruct e; reflexivity. }
    rewrite He, <- IH.
    destruct (match e with JSUndefined | JSNull => Return "" | _ => ToString e end);
      [|reflexivity].
    destruct (mapC _ elems); reflexivity.
  - unfold converts. cbn [ToString]. destruct (has_key props "toString"); reflexivity.
Qed.

(** A field with a default. *)
Lemma field_cases (v : Value) (default : string) :
  ToString (nullish v (JSString default)) =
  if converts v then Return (TSSpec.textOr v default)
  else Throw (TypeError "Cannot convert object to primitive value").
Proof. destruct v; try reflexivity; apply ToString_cases. Qed.

Lemma flag_text (v : Value) :
  ToString (JSBoolean (is_true v)) = Return (TSSpec.flagText v).
Proof. destruct v as [| |[|]| | | |]; reflexivity. Qed.

Lemma tags_cases (v : Value) :
  match v with
  | JSArray elems => join elems ", "
  | _ => ToString (or_else v (JSString ""))
  end =
  if converts v then Return (TSSpec.tagsText v)
  else Throw (TypeError "Cannot convert object to primitive value").
Proof.
  destruct v as [| |b|x|s|elems|props]; try apply join_cases;
    unfold TSSpec.tagsText, or_else; destruct (truthy _) eqn:Ht;
    try discriminate Ht; try reflexivity; apply ToString_cases.
Qed.

Lemma score_cases (score : Value) :
  cbind (ToNumber (nullish score (JSNumber (S754_zero false))))
        (fun scoreNumber => Return (toFixed scoreNumber 6)) =
  if converts score then Return (TSSpec.scoreText score)
  else Throw (TypeError "Cannot convert object to primitive value").
Proof.
  destruct (converts score) eqn:Hc.
  - destruct score; try reflexivity; cbn [nullish TSSpec.scoreText];
      destruct (ToNumber_Return _ Hc) as [x ->]; reflexivity.
  - destruct score; try discriminate; cbn [nullish]; now rewrite (ToNumber_Throw _ Hc).
Qed.

(** On a metadata object the formatter returns the block of the
    specification when the values it prints convert to text, and throws
    when one of them does not. *)
Lemma formatHotelForSynthesizer_object (props : list (string * Value)) (score : Value) :
  TS.formatHotelForSynthesizer (JSObject props) score =
  if TSSpec.printable props score then Return (TSSpec.hotelBlock props score)
  else Throw (TypeError "Cannot convert object to primitive value").
Proof.
  unfold TS.formatHotelForSynthesizer, TS.formatAddress, TSSpec.printable, TSSpec.printed,
    or_else.
  cbn [Get GetOpt cbind forallb].
  rewrite tags_cases.
  destruct (converts (lookup_prop props "Tags")); [|reflexivity]. cbn [cbind andb].
  pose proof (score_cases score) as Hscore.
  destruct (converts score).
  2:{ destruct (ToNumber _); [discriminate Hscore|]. cbn [cbind]. exact Hscore. }
  destruct (ToNumber _) as [scoreNumber|]; [|discriminate Hscore].
  cbn [cbind] in Hscore. injection Hscore as Hscore. cbn [cbind andb app mapC].
  rewrite !field_cases, !flag_text. cbn [ToString cbind].
  destruct (converts (lookup_prop props "HotelId")); [|reflexivity]. cbn [cbind andb].
  destruct (converts (lookup_prop props "HotelName")); [|reflexivity]. cbn [cbind andb].
  destruct (converts (lookup_prop props "Description")); [|reflexivity]. cbn [cbind andb].
  destruct (converts (lookup_prop props "Category")); [|reflexivity]. cbn [cbind andb].
  destruct (converts (lookup_prop props "LastRenovationDate")); [|reflexivity]. cbn [cbind andb].
  destruct (converts (lookup_prop props "Rating")); [|reflexivity]. cbn [cbind andb].
  destruct (converts (GetOpt _ "StreetAddress")); [|reflexivity]. cbn [cbind andb].
  destruct (converts (GetOpt _ "City")); [|reflexivity]. cbn [cbind andb].
  destruct (converts (GetOpt _ "StateProvince")); [|reflexivity]. cbn [cbind andb].
  destruct (converts (GetOpt _ "PostalCode")); [|reflexivity]. cbn [cbind andb].
  destruct (converts (GetOpt _ "Country")); [|reflexivity]. cbn [cbind andb].
  rewrite Hscore. cbn [List.map app String.concat].
  unfold TSSpec.hotelBlock, TSSpec.addressField. reflexivity.
Qed.

(** On undefined or null metadata the formatter throws. *)
Lemma formatHotelForSynthesizer_nullish (md score : Value) :
  TSSpec.absent md -> exists e, TS.formatHotelForSynthesizer md score = Throw e.
Proof. intros [->| ->]; eexists; reflexivity. Qed.

End ts_format.

(** C9, as the code has it.  For a metadata object, whatever fields it
    has, and a score, the TypeScript formatter returns the complete block
    of seventeen lines when the values it prints (the tags, the score and
    the fields that are not flags) convert to text, and throws a
    [TypeError] when one of them does not.  A missing value and every
    other primitive converts, an object does unless it has a property of
    its own named [toString], an array does when its elements do.  In the
    block a missing identifier or name reads [N/A], a
    missing text, date, rating or tags field is empty, a missing flag
    reads [false], every field of a missing address (and every missing
    field of an address) is empty, and a missing score reads
    [0.000000]. *)
Theorem formatHotelForSynthesizer_defaults
    (R : JS.Runtime) (props : list (string * JS.Value)) (score : JS.Value) :
  TS.formatHotelForSynthesizer (JS.JSObject props) score =
    (if TSSpec.printable props score
     then JS.Return (TSSpec.hotelBlock props score)
     else JS.Throw (JS.TypeError "Cannot convert object to primitive value")) /\
  (forall v,
      JS.converts v =
      match v with
      | JS.JSArray elems => forallb JS.converts elems
      | JS.JSObject props' => negb (JS.has_key props' "toString")
      | _ => true
      end) /\
  (forall v default, TSSpec.absent v -> TSSpec.textOr v default = default) /\
  (forall v, TSSpec.absent v -> TSSpec.tagsText v = "") /\
  (forall v, TSSpec.absent v -> TSSpec.flagText v = "false") /\
  (forall address key,
      TSSpec.absent address \/ TSSpec.absent (JS.GetOpt address key) ->
      TSSpec.addressField address key = "") /\
  (TSSpec.absent score -> TSSpec.scoreText score = "0.000000") /\
  TS.formatHotelForSynthesizer (JS.JSObject []) JS.JSUndefined =
    JS.Return
      ("--- HOTEL START ---" +:+ nl +:+ "HotelId: N/A" +:+ nl +:+ "HotelName: N/A" +:+ nl +:+
       "Description: " +:+ nl +:+ "Category: " +:+ nl +:+ "Tags: " +:+ nl +:+
       "ParkingIncluded: false" +:+ nl +:+ "IsDeleted: false" +:+ nl +:+
       "LastRenovationDate: " +:+ nl +:+ "Rating: " +:+ nl +:+
       "Address.StreetAddress: " +:+ nl +:+ "Address.City: " +:+ nl +:+
       "Address.StateProvince: " +:+ nl +:+ "Address.PostalCode: " +:+ nl +:+
       "Address.Country: " +:+ nl +:+ "Score: 0.000000" +:+ nl +:+ "--- HOTEL END ---").
Proof.
  split; [apply formatHotelForSynthesizer_object|].
  split; [apply converts_cases|].
  repeat split.
  - intros v default [->| ->]; reflexivity.
  - intros v [->| ->]; reflexivity.
  - intros v [->| ->]; reflexivity.
  - intros address key [[->| ->]|Habs]; [reflexivity..|].
    unfold TSSpec.addressField.
    destruct (JS.truthy address); [destruct Habs as [->| ->]; reflexivity|reflexivity].
  - intros [->| ->]; reflexivity.
Qed.

(** C9 as stated fails: a metadata object whose description is an object
    with a property [toString] makes the formatter throw. *)
Lemma formatHotelForSynthesizer_throws : ~ Stated.ts_formatter_total.
Proof.
  intros Hclaim.
  destruct (Hclaim Scenario.runtime0
              [("HotelName", JS.JSString "Old Century Hotel");
               ("Description", JS.JSObject [("toString", JS.JSString "x")])]
              (JS.JSNumber Scenario.high)) as [block Hblock].
  vm_compute in Hblock. discriminate.
Qed.

(** ** The TypeScript tool *)

Section ts_tool.
Import JS.
Context `{Runtime}.

(** What the [catch] clause makes of a throw in the [try] block. *)
Lemma tool_catches (query : string) (nn : spec_float) (config : TS.ToolConfig)
    (c c' : list ConsoleEntry) (e : Value) :
  TS.searchAndFormat query nn config c = (Throw e, c') ->
  TS.getHotelsToMatchSearchQuery query nn config c =
  (Return TS.errorText,
   (c' ++ [console_error "Error in getHotelsToMatchSearchQuery tool:" e])%list).
Proof. unfold TS.getHotelsToMatchSearchQuery, try_catch. now intros ->. Qed.

Lemma tool_passes (query : string) (nn : spec_float) (config : TS.ToolConfig)
    (c c' : list ConsoleEntry) (s : string) :
  TS.searchAndFormat query nn config c = (Return s, c') ->
  TS.getHotelsToMatchSearchQuery query nn config c = (Return s, c').
Proof. unfold TS.getHotelsToMatchSearchQuery, try_catch. now intros ->. Qed.

(** The tool function never throws. *)
Lemma tool_never_throws (query : string) (nn : spec_float) (config : TS.ToolConfig)
    (c : list ConsoleEntry) :
  exists s c', TS.getHotelsToMatchSearchQuery query nn config c = (Return s, c').
Proof.
  destruct (TS.searchAndFormat query nn config c) as [[s|e] c'] eqn:Hbody.
  - rewrite (tool_passes _ _ _ _ _ _ Hbody). eauto.
  - rewrite (tool_catches _ _ _ _ _ _ Hbody). eauto.
Qed.

Lemma printable_name_score (props : list (string * Value)) (score : Value) :
  TSSpec.printable props score = true ->
  converts (lookup_prop props "HotelName") = true /\ converts score = true.
Proof.
  unfold TSSpec.printable, TSSpec.printed. cbn [forallb]. rewrite !andb_true_iff. tauto.
Qed.

Lemma formatHit_printable (hit : TS.Hit) (c : list ConsoleEntry) :
  TSSpec.printableHit hit = true ->
  exists c', TS.formatHit hit c = (Return (TSSpec.blockOf hit), c').
Proof.
  unfold TS.formatHit, TSSpec.blockOf, TSSpec.printableHit.
  destruct (TS.metadata hit) as [| | | | | |props]; try discriminate. intros Hp.
  destruct (printable_name_score _ _ Hp) as [Hname Hscore].
  unfold jbind, lift, console. cbn [Get GetOpt].
  rewrite field_cases, Hname, (ToString_cases (TS.hit_score hit)), Hscore,
    formatHotelForSynthesizer_object, Hp. eauto.
Qed.

Lemma formatHit_unprintable (hit : TS.Hit) (props : list (string * Value))
    (c : list ConsoleEntry) :
  TS.metadata hit = JSObject props ->
  TSSpec.printable props (TS.hit_score hit) = false ->
  exists e c', TS.formatHit hit c = (Throw e, c').
Proof.
  intros Hmd Hp. unfold TS.formatHit, jbind, lift, console. rewrite Hmd. cbn [Get GetOpt].
  destruct (ToString (nullish _ _)); [|eauto].
  destruct (ToString (TS.hit_score hit)); [|eauto].
  rewrite formatHotelForSynthesizer_object, Hp. eauto.
Qed.

Lemma formatHit_absent (hit : TS.Hit) (c : list ConsoleEntry) :
  TSSpec.absent (TS.metadata hit) -> exists e, TS.formatHit hit c = (Throw e, c).
Proof. unfold TS.formatHit, jbind, lift. intros [->| ->]; cbn [Get]; eauto. Qed.

Lemma mapM_all (hits : list TS.Hit) :
  Forall (fun hit => TSSpec.printableHit hit = true) hits ->
  forall c, exists c', mapM TS.formatHit hits c = (Return (List.map TSSpec.blockOf hits), c').
Proof.
  induction 1 as [|hit hits Hobj _ IH]; intros c; cbn [mapM List.map].
  - unfold jret. eauto.
  - unfold jbind at 1. destruct (formatHit_printable hit c Hobj) as [c1 ->].
    unfold jbind at 1. destruct (IH c1) as [c2 ->]. unfold jret. eauto.
Qed.

(** One hit that cannot be formatted makes the whole [map] throw. *)
Lemma mapM_throws_at (hits : list TS.Hit) (bad : TS.Hit) :
  In bad hits -> (forall c, exists e c', TS.formatHit bad c = (Throw e, c')) ->
  forall c, exists e c', mapM TS.formatHit hits c = (Throw e, c').
Proof.
  intros Hin Hbad. induction hits as [|hit hits IH]; [contradiction|]. intros c.
  cbn [mapM]. unfold jbind at 1.
  destruct (TS.formatHit hit c) as [[s|e] c1] eqn:Hhit; [|eauto].
  destruct Hin as [->|Hin].
  - destruct (Hbad c) as (e & c' & He). congruence.
  - unfold jbind at 1. destruct (IH Hin c1) as (e & c2 & ->). eauto.
Qed.

Lemma mapM_throws (hits : list TS.Hit) (bad : TS.Hit) :
  In bad hits -> TSSpec.absent (TS.metadata bad) ->
  forall c, exists e c', mapM TS.formatHit hits c = (Throw e, c').
Proof.
  intros Hin Habs. apply mapM_throws_at with (bad := bad); [assumption|].
  intros c. destruct (formatHit_absent bad c Habs) as [e He]. eauto.
Qed.

(** The [try] block once the context, the embedding and the search are
    there: the hits are formatted one by one. *)
Lemma searchAndFormat_hits (query : string) (nn : spec_float) (config : TS.ToolConfig)
    (ctx : TS.Context) (queryVector : list spec_float) (hits : list TS.Hit)
    (c : list ConsoleEntry) :
  TS.context config = Some ctx ->
  TS.embedQuery (TS.embeddingClient ctx) query = Return queryVector ->
  TS.similaritySearchVectorWithScore (TS.store ctx) queryVector nn = Return hits ->
  TS.searchAndFormat query nn config c =
  jbind (mapM TS.formatHit hits) (fun formatted => jret (String.concat (nl +:+ nl) formatted))
    (c ++ [console_log ("Found " +:+ fmt.Itoa (Z.of_nat (length hits)) +:+
                        " documents from vector store")])%list.
Proof.
  intros Hctx Hemb Hsearch. unfold TS.searchAndFormat.
  rewrite Hctx. unfold jbind at 1, lift at 1. cbv iota beta zeta.
  rewrite Hemb. unfold jbind at 1, lift at 1. cbv iota beta.
  rewrite Hsearch. unfold jbind at 1, lift at 1. cbv iota beta.
  unfold jbind at 1, console at 1. cbv iota beta. reflexivity.
Qed.

End ts_tool.

(** ** The Go blocks *)

(** The Go formatter writes the block of the specification. *)
Lemma FormatHotelForSynthesizer_block (r : HotelSearchResult) :
  vectorstore.FormatHotelForSynthesizer r = Spec.hotelBlock r.
Proof.
  unfold vectorstore.FormatHotelForSynthesizer. rewrite !Join_concat.
  unfold Spec.hotelBlock, fmt.FormatBool. cbn [String.concat].
  rewrite !append_assoc. reflexivity.
Qed.

Lemma hotelBlock_wrapped (r : HotelSearchResult) :
  wrapped "--- HOTEL START ---" "--- HOTEL END ---" (Spec.hotelBlock r).
Proof.
  exists ("HotelId: " +:+ HotelID (Hotel r) +:+ nl +:+
          "HotelName: " +:+ HotelName (Hotel r) +:+ nl +:+
          "Description: " +:+ Description (Hotel r) +:+ nl +:+
          "Category: " +:+ Category (Hotel r) +:+ nl +:+
          "Tags: " +:+ String.concat ", " (Tags (Hotel r)) +:+ nl +:+
          "ParkingIncluded: " +:+ (if ParkingIncluded (Hotel r) then "true" else "false") +:+ nl +:+
          "IsDeleted: " +:+ (if IsDeleted (Hotel r) then "true" else "false") +:+ nl +:+
          "LastRenovationDate: " +:+ Format_2006_01_02 (LastRenovationDate (Hotel r)) +:+ nl +:+
          "Rating: " +:+ fmt.FormatFloat (Rating (Hotel r)) 1 +:+ nl +:+
          "Address.StreetAddress: " +:+ StreetAddress (Address (Hotel r)) +:+ nl +:+
          "Address.City: " +:+ City (Address (Hotel r)) +:+ nl +:+
          "Address.StateProvince: " +:+ StateProvince (Address (Hotel r)) +:+ nl +:+
          "Address.PostalCode: " +:+ PostalCode (Address (Hotel r)) +:+ nl +:+
          "Address.Country: " +:+ Country (Address (Hotel r)) +:+ nl +:+
          "Score: " +:+ fmt.FormatFloat (Score r) 6).
  unfold Spec.hotelBlock. rewrite !append_assoc. reflexivity.
Qed.

Lemma tsHotelBlock_wrapped `{JS.Runtime} (props : list (string * JS.Value)) (score : JS.Value) :
  wrapped "--- HOTEL START ---" "--- HOTEL END ---" (TSSpec.hotelBlock props score).
Proof.
  exists ("HotelId: " +:+ TSSpec.textOr (JS.lookup_prop props "HotelId") "N/A" +:+ nl +:+
    "HotelName: " +:+ TSSpec.textOr (JS.lookup_prop props "HotelName") "N/A" +:+ nl +:+
    "Description: " +:+ TSSpec.textOr (JS.lookup_prop props "Description") "" +:+ nl +:+
    "Category: " +:+ TSSpec.textOr (JS.lookup_prop props "Category") "" +:+ nl +:+
    "Tags: " +:+ TSSpec.tagsText (JS.lookup_prop props "Tags") +:+ nl +:+
    "ParkingIncluded: " +:+ TSSpec.flagText (JS.lookup_prop props "ParkingIncluded") +:+ nl +:+
    "IsDeleted: " +:+ TSSpec.flagText (JS.lookup_prop props "IsDeleted") +:+ nl +:+
    "LastRenovationDate: " +:+ TSSpec.textOr (JS.lookup_prop props "LastRenovationDate") "" +:+ nl +:+
    "Rating: " +:+ TSSpec.textOr (JS.lookup_prop props "Rating") "" +:+ nl +:+
    "Address.StreetAddress: " +:+
      TSSpec.addressField (JS.lookup_prop props "Address") "StreetAddress" +:+ nl +:+
    "Address.City: " +:+ TSSpec.addressField (JS.lookup_prop props "Address") "City" +:+ nl +:+
    "Address.StateProvince: " +:+
      TSSpec.addressField (JS.lookup_prop props "Address") "StateProvince" +:+ nl +:+
    "Address.PostalCode: " +:+
      TSSpec.addressField (JS.lookup_prop props "Address") "PostalCode" +:+ nl +:+
    "Address.Country: " +:+ TSSpec.addressField (JS.lookup_prop props "Address") "Country" +:+ nl +:+
    "Score: " +:+ TSSpec.scoreText score).
  unfold TSSpec.hotelBlock. rewrite !append_assoc. reflexivity.
Qed.

Lemma blockOf_wrapped `{JS.Runtime} (hit : TS.Hit) :
  TSSpec.printableHit hit = true ->
  wrapped "--- HOTEL START ---" "--- HOTEL END ---" (TSSpec.blockOf hit).
Proof.
  unfold TSSpec.blockOf, TSSpec.printableHit.
  destruct (TS.metadata hit); try discriminate. intros _.
  apply tsHotelBlock_wrapped.
Qed.

(** A block enclosed by a start line begins with it. *)
Lemma wrapped_prefix (start_marker end_marker block rest : string) :
  wrapped start_marker end_marker block ->
  strings.HasPrefix (block +:+ rest) start_marker = true.
Proof. intros [body ->]. rewrite !append_assoc. apply HasPrefix_append. Qed.

(** C4, as the code has it.  For a non-empty list of results the output of
    the Search Tool is one block per result, in order, with an empty line
    between consecutive blocks; each block lies between the lines
    [--- HOTEL START ---] and [--- HOTEL END ---] and lists identifier,
    name, description, category, tags joined by comma and space, the two
    flags as true or false, the renovation date, the rating, the five
    address fields and the score; a finite score is written with exactly
    six decimals.  This holds for the Go tool and, on hits whose metadata
    are objects with values that convert to text, for the TypeScript
    tool; one hit whose metadata is an object with a value that does not
    convert makes the TypeScript tool return its error text instead. *)
Theorem search_output_is_hotel_blocks
    (S : Services) (R : JS.Runtime)
    (t : agents.VectorSearchTool) (query : string) (kk : Z) (w : World)
    (results : list HotelSearchResult)
    (nn : spec_float) (config : TS.ToolConfig) (c : list JS.ConsoleEntry)
    (ctx : TS.Context) (queryVector : list spec_float) (hits : list TS.Hit) :
  results <> [] ->
  Spec.searchResultsOf t query kk w = Some results ->
  hits <> [] ->
  TS.context config = Some ctx ->
  TS.embedQuery (TS.embeddingClient ctx) query = JS.Return queryVector ->
  TS.similaritySearchVectorWithScore (TS.store ctx) queryVector nn = JS.Return hits ->
  (fst (agents.Execute t query kk w) =
     Ok (String.concat (nl +:+ nl) (List.map Spec.hotelBlock results)) /\
   length (List.map Spec.hotelBlock results) = length results /\
   Forall (wrapped "--- HOTEL START ---" "--- HOTEL END ---")
          (List.map Spec.hotelBlock results) /\
   (forall r, In r results -> is_finite (Score r) = true ->
              six_decimals (fmt.FormatFloat (Score r) 6))) /\
  (Forall (fun hit => TSSpec.printableHit hit = true) hits ->
   fst (TS.getHotelsToMatchSearchQuery query nn config c) =
     JS.Return (String.concat (nl +:+ nl) (List.map TSSpec.blockOf hits)) /\
   length (List.map TSSpec.blockOf hits) = length hits /\
   Forall (wrapped "--- HOTEL START ---" "--- HOTEL END ---")
          (List.map TSSpec.blockOf hits) /\
   (forall hit x, In hit hits -> TS.hit_score hit = JS.JSNumber x ->
                  is_finite x = true -> JS.at_least_1e21 x = false ->
                  six_decimals (TSSpec.scoreText (TS.hit_score hit)))) /\
  (forall bad props,
      In bad hits -> TS.metadata bad = JS.JSObject props ->
      TSSpec.printable props (TS.hit_score bad) = false ->
      fst (TS.getHotelsToMatchSearchQuery query nn config c) = JS.Return TS.errorText).
Proof.
  intros _ Hres _ Hctx Hemb Hsearch. split; [|split].
  - repeat split.
    + rewrite (Execute_output _ _ _ _ _ Hres). do 2 f_equal.
      apply List.map_ext. intros r. apply FormatHotelForSynthesizer_block.
    + apply List.length_map.
    + apply List.Forall_forall. intros b Hb. apply in_map_iff in Hb as [r [<- _]].
      apply hotelBlock_wrapped.
    + intros r _ Hfin. now apply FormatFloat_six_decimals.
  - intros Hobj. repeat split.
    + destruct (mapM_all hits Hobj
        (c ++ [JS.console_log ("Found " +:+ fmt.Itoa (Z.of_nat (length hits)) +:+
                               " documents from vector store")])%list) as [c' Hmap].
      erewrite tool_passes; [reflexivity|].
      rewrite (searchAndFormat_hits _ _ _ _ _ _ _ Hctx Hemb Hsearch).
      unfold JS.jbind. rewrite Hmap. reflexivity.
    + apply List.length_map.
    + apply List.Forall_forall. intros b Hb. apply in_map_iff in Hb as [hit [<- Hin]].
      apply blockOf_wrapped. rewrite List.Forall_forall in Hobj. now apply Hobj.
    + intros hit x _ -> Hfin Hbig. cbn [TSSpec.scoreText JS.ToNumber].
      now apply toFixed_six_decimals.
  - intros bad props Hin Hmd Hbad.
    destruct (mapM_throws_at hits bad Hin
                (fun c0 => formatHit_unprintable bad props c0 Hmd Hbad)
      (c ++ [JS.console_log ("Found " +:+ fmt.Itoa (Z.of_nat (length hits)) +:+
                             " documents from vector store")])%list) as (e & c' & Hmap).
    erewrite tool_catches; [reflexivity|].
    rewrite (searchAndFormat_hits _ _ _ _ _ _ _ Hctx Hemb Hsearch).
    unfold JS.jbind. rewrite Hmap. reflexivity.
Qed.

(** Two results in Go, two hits in TypeScript. *)
Lemma search_output_witness :
  fst (@agents.Execute Scenario.happy Scenario.tool "budget hotel" 5 Scenario.w0) =
    Ok (String.concat (nl +:+ nl) (List.map Spec.hotelBlock Scenario.happyResults)) /\
  fst (@TS.getHotelsToMatchSearchQuery Scenario.runtime0 "budget hotel" (float_of_Z 5)
         Scenario.tsConfigOk []) =
    JS.Return (String.concat (nl +:+ nl)
                 (List.map (@TSSpec.blockOf Scenario.runtime0) Scenario.tsHits)).
Proof.
  split.
  - refine (proj1 (proj1 (search_output_is_hotel_blocks Scenario.happy Scenario.runtime0
              Scenario.tool "budget hotel" 5 Scenario.w0 Scenario.happyResults
              (float_of_Z 5) Scenario.tsConfigOk [] Scenario.tsContextOk
              [float_of_Z 1; float_of_Z 0] Scenario.tsHits _ _ _ _ _ _)));
      try discriminate; reflexivity.
  - refine (proj1 (proj1 (proj2 (search_output_is_hotel_blocks Scenario.happy
              Scenario.runtime0 Scenario.tool "budget hotel" 5 Scenario.w0
              Scenario.happyResults (float_of_Z 5) Scenario.tsConfigOk []
              Scenario.tsContextOk [float_of_Z 1; float_of_Z 0] Scenario.tsHits
              _ _ _ _ _ _)) _)); try discriminate; try reflexivity.
    repeat constructor.
Defined.

(** C4 as stated fails: the blocks of the [happy] run begin with the line
    [--- HOTEL START ---], not with [--- RECORD START ---]. *)
Lemma search_output_has_no_record_markers :
  ~ Stated.blocks_between "--- RECORD START ---" "--- RECORD END ---".
Proof.
  intros Hclaim.
  destruct (Hclaim Scenario.happy Scenario.tool "budget hotel" 5 Scenario.w0
              Scenario.happyResults
              (String.concat (nl +:+ nl)
                 (List.map vectorstore.FormatHotelForSynthesizer Scenario.happyResults)))
    as [blocks [Hout [Hlen Hall]]]; [discriminate | reflexivity | reflexivity |].
  destruct blocks as [|b1 rest]; [discriminate Hlen|].
  apply List.Forall_inv in Hall.
  assert (Hprefix : strings.HasPrefix
            (String.concat (nl +:+ nl)
               (List.map vectorstore.FormatHotelForSynthesizer Scenario.happyResults))
            "--- RECORD START ---" = true).
  { rewrite Hout. cbn [String.concat]. destruct rest.
    - rewrite <- (append_nil_r b1). now apply wrapped_prefix with (end_marker := "--- RECORD END ---").
    - now apply wrapped_prefix with (end_marker := "--- RECORD END ---"). }
  vm_compute in Hprefix. discriminate.
Qed.

(** ** Failures of the Search Tool *)

Section go_failures.
Context `{Services}.

(** The value of [GenerateEmbedding] depends on the service only. *)
Lemma GenerateEmbedding_value (c : clients.OpenAIClients) (text : string) (w : World) :
  fst (clients.GenerateEmbedding c text w) =
  match Embeddings_New (clients.EmbeddingDeployment (clients.config c)) text with
  | Err err => Err (Errorf ("failed to generate embedding: " +:+ Error err))
  | Ok [] => Err (Errorf "no embeddings returned")
  | Ok (d0 :: _) => Ok (List.map float32_of_float64 (Embedding_ d0))
  end.
Proof.
  unfold clients.GenerateEmbedding. run_monad.
  destruct (Embeddings_New _ text) as [[|d0 Data]|err]; reflexivity.
Qed.

Lemma Execute_embedding_error (t : agents.VectorSearchTool) (query : string) (kk : Z)
    (w : World) (err : error) :
  fst (clients.GenerateEmbedding (agents.tool_openAIClients t) query w) = Err err ->
  agents.Execute t query kk w =
  (Err (Errorf ("failed to generate embedding: " +:+ Error err)),
   snd (clients.GenerateEmbedding (agents.tool_openAIClients t) query w)).
Proof.
  unfold agents.Execute. run_monad.
  destruct (clients.GenerateEmbedding _ query w) as [[qv|e] w1]; cbn [fst snd];
    [discriminate|]. now intros [= ->].
Qed.

Lemma Execute_search_error (t : agents.VectorSearchTool) (query : string) (kk : Z)
    (w w1 : World) (qv : list spec_float) (err : error) :
  clients.GenerateEmbedding (agents.tool_openAIClients t) query w = (Ok qv, w1) ->
  fst (vectorstore.VectorSearch (agents.vectorStore t) qv kk w1) = Err err ->
  fst (agents.Execute t query kk w) = Err (Errorf ("vector search failed: " +:+ Error err)).
Proof.
  unfold agents.Execute. run_monad. intros ->.
  destruct (vectorstore.VectorSearch _ qv kk w1) as [[rs|e] w2]; cbn [fst snd];
    [discriminate|]. now intros [= ->].
Qed.

(** [Run] hands the error of the Search Tool on to its caller. *)
Lemma invokeSearchTool_error (a : agents.PlannerAgent) (toolName query : string) (kk : Z)
    (w : World) (err : error) :
  fst (agents.Execute (agents.searchTool a) query kk
         (mkWorld (stdout w ++ ["Tool: " +:+ toolName +:+ nl] ++
                   ["Query: " +:+ query +:+ nl] ++ ["K: " +:+ fmt.Itoa kk +:+ nl])%list
                  (requests w) (collection w))) = Err err ->
  fst (Spec.invokeSearchTool a toolName query kk w) =
  Err (Errorf ("search tool execution failed: " +:+ Error err)).
Proof.
  unfold Spec.invokeSearchTool. run_monad. cbn [stdout requests collection].
  rewrite <- !app_assoc.
  destruct (agents.Execute _ query kk _) as [[s|e] w2]; cbn [fst]; [discriminate|].
  now intros [= ->].
Qed.

End go_failures.

(** C3, as the code has it.  The TypeScript tool function never throws:
    it returns a string, and when the context is missing, the embedding
    request or the vector search throws, or a hit cannot be formatted, the
    string is the fixed text [Error occurred while searching for hotels.].
    The Go [Execute] instead returns an error, which wraps the error of
    the failed embedding request or vector search, and [Run] returns it
    wrapped once more. *)
Theorem search_tool_failures
    (R : JS.Runtime) (S : Services)
    (query : string) (nn : spec_float) (config : TS.ToolConfig) (c : list JS.ConsoleEntry)
    (t : agents.VectorSearchTool) (kk : Z) (w : World) :
  (exists s c', TS.getHotelsToMatchSearchQuery query nn config c = (JS.Return s, c')) /\
  (TS.context config = None ->
   fst (TS.getHotelsToMatchSearchQuery query nn config c) = JS.Return TS.errorText) /\
  (forall ctx e,
      TS.context config = Some ctx ->
      TS.embedQuery (TS.embeddingClient ctx) query = JS.Throw e ->
      fst (TS.getHotelsToMatchSearchQuery query nn config c) = JS.Return TS.errorText) /\
  (forall ctx queryVector e,
      TS.context config = Some ctx ->
      TS.embedQuery (TS.embeddingClient ctx) query = JS.Return queryVector ->
      TS.similaritySearchVectorWithScore (TS.store ctx) queryVector nn = JS.Throw e ->
      fst (TS.getHotelsToMatchSearchQuery query nn config c) = JS.Return TS.errorText) /\
  (forall ctx queryVector hits bad,
      TS.context config = Some ctx ->
      TS.embedQuery (TS.embeddingClient ctx) query = JS.Return queryVector ->
      TS.similaritySearchVectorWithScore (TS.store ctx) queryVector nn = JS.Return hits ->
      In bad hits -> TSSpec.absent (TS.metadata bad) ->
      fst (TS.getHotelsToMatchSearchQuery query nn config c) = JS.Return TS.errorText) /\
  (forall err,
      Embeddings_New (clients.EmbeddingDeployment (clients.config (agents.tool_openAIClients t)))
        query = Err err ->
      fst (agents.Execute t query kk w) =
      Err (Errorf ("failed to generate embedding: failed to generate embedding: " +:+ Error err))) /\
  (forall qv w1 err,
      clients.GenerateEmbedding (agents.tool_openAIClients t) query w = (Ok qv, w1) ->
      fst (vectorstore.VectorSearch (agents.vectorStore t) qv kk w1) = Err err ->
      fst (agents.Execute t query kk w) = Err (Errorf ("vector search failed: " +:+ Error err))) /\
  (forall a toolName err,
      fst (agents.Execute (agents.searchTool a) query kk
             (mkWorld (stdout w ++ ["Tool: " +:+ toolName +:+ nl] ++
                       ["Query: " +:+ query +:+ nl] ++ ["K: " +:+ fmt.Itoa kk +:+ nl])%list
                      (requests w) (collection w))) = Err err ->
      fst (Spec.invokeSearchTool a toolName query kk w) =
      Err (Errorf ("search tool execution failed: " +:+ Error err))).
Proof.
  split; [apply tool_never_throws|].
  split.
  { intros Hctx. erewrite tool_catches; [reflexivity|].
    unfold TS.searchAndFormat. rewrite Hctx. reflexivity. }
  split.
  { intros ctx e Hctx Hemb. erewrite tool_catches; [reflexivity|].
    unfold TS.searchAndFormat. rewrite Hctx.
    unfold JS.jbind at 1, JS.lift at 1. cbv iota beta zeta. rewrite Hemb. reflexivity. }
  split.
  { intros ctx qv e Hctx Hemb Hsearch. erewrite tool_catches; [reflexivity|].
    unfold TS.searchAndFormat. rewrite Hctx.
    unfold JS.jbind at 1, JS.lift at 1. cbv iota beta zeta. rewrite Hemb.
    unfold JS.jbind at 1, JS.lift at 1. cbv iota beta. rewrite Hsearch. reflexivity. }
  split.
  { intros ctx qv hits bad Hctx Hemb Hsearch Hin Habs.
    destruct (mapM_throws hits bad Hin Habs
      (c ++ [JS.console_log ("Found " +:+ fmt.Itoa (Z.of_nat (length hits)) +:+
                             " documents from vector store")])%list) as (e & c' & Hmap).
    erewrite tool_catches; [reflexivity|].
    rewrite (searchAndFormat_hits _ _ _ _ _ _ _ Hctx Hemb Hsearch).
    unfold JS.jbind. rewrite Hmap. reflexivity. }
  split.
  { intros err Herr.
    rewrite (Execute_embedding_error t query kk w
               (Errorf ("failed to generate embedding: " +:+ Error err))).
    - reflexivity.
    - rewrite GenerateEmbedding_value, Herr. reflexivity. }
  split.
  { intros qv w1 err. apply Execute_search_error. }
  intros a toolName err. apply invokeSearchTool_error.
Qed.

(** The embedding client rejects: the TypeScript tool answers with the
    fixed text. *)
Lemma search_tool_failures_witness :
  fst (@TS.getHotelsToMatchSearchQuery Scenario.runtime0 "budget hotel" (float_of_Z 5)
         Scenario.tsConfigEmbeddingDown []) = JS.Return TS.errorText.
Proof.
  refine (proj1 (proj2 (proj2 (search_tool_failures Scenario.runtime0 Scenario.embeddingDown
            "budget hotel" (float_of_Z 5) Scenario.tsConfigEmbeddingDown []
            Scenario.tool 5 Scenario.w0))) _ _ _ _); reflexivity.
Defined.

(** C3 as stated fails for the Go tool: with the embedding service down
    [Execute] returns an error, not a string. *)
Lemma Execute_returns_the_error : ~ Stated.execute_always_returns_string.
Proof.
  intros Hclaim.
  destruct (Hclaim Scenario.embeddingDown Scenario.tool "budget hotel" 5 Scenario.w0)
    as [s Hs].
  vm_compute in Hs. discriminate.
Qed.

(** ** A reply without a tool call *)

Section ts_planner.
Import JS.
Context `{Runtime}.

(** Without a tool message the TypeScript extraction warns and returns
    the empty string. *)
Lemma extractPlannerToolOutput_no_tool (messages : list Value) (c : list ConsoleEntry) :
  List.find TS.isToolMessage messages = None ->
  TS.extractPlannerToolOutput (JSArray messages) c =
  (Return (JSString ""), (c ++ [console_warn TS.notInvokedWarning])%list).
Proof.
  intros Hfind. unfold TS.extractPlannerToolOutput, or_else. cbn [truthy].
  rewrite Hfind. reflexivity.
Qed.

Lemma runPlannerAgent_no_tool (userQuery : string) (nn : spec_float)
    (aprops : list (string * Value)) (messages : list Value) (c : list ConsoleEntry) :
  fst (agent_invoke (TS.plannerUserMessage userQuery nn)) = Return (JSObject aprops) ->
  lookup_prop aprops "messages" = JSArray messages ->
  List.find TS.isToolMessage messages = None ->
  fst (TS.runPlannerAgent userQuery nn c) = Return (JSString "").
Proof.
  intros Hinv Hmsgs Hfind. unfold TS.runPlannerAgent.
  unfold jbind at 1, console at 1. cbv iota beta zeta.
  unfold jbind at 1, writing at 1. rewrite Hinv. cbv iota beta.
  unfold jbind at 1, lift at 1. cbn [Get GetOpt]. rewrite Hmsgs.
  unfold or_else. cbn [truthy].
  rewrite (extractPlannerToolOutput_no_tool _ _ Hfind). reflexivity.
Qed.

End ts_planner.

(** C1, as the code has it.  When the reply of the planner model has no
    tool call, the Go [Run] fails without calling the Search Tool; the
    error carries the text of the reply when the text is not empty and
    the finish reason is [tool_calls] or [stop] (a reply with another
    finish reason is refused for that reason, and its text is left out).
    The TypeScript planner has a fallback: when no message of the agent
    is a tool message it warns and returns the empty string. *)
Theorem reply_without_tool_call
    (S : Services) (R : JS.Runtime)
    (a : agents.PlannerAgent) (userQuery : string) (requestedK : Z)
    (w w1 : World) (resp : ChatCompletion) (c0 : Choice) (rest : list Choice)
    (nn : spec_float) (aprops : list (string * JS.Value)) (messages : list JS.Value)
    (c : list JS.ConsoleEntry) :
  Spec.plannerCall a userQuery requestedK w = (Ok resp, w1) ->
  Choices resp = c0 :: rest ->
  ToolCalls (Message_ c0) = [] ->
  fst (JS.agent_invoke (TS.plannerUserMessage userQuery nn)) =
    JS.Return (JS.JSObject aprops) ->
  JS.lookup_prop aprops "messages" = JS.JSArray messages ->
  List.find TS.isToolMessage messages = None ->
  (exists e,
      agents.Run a userQuery requestedK w = (Err e, w1) /\
      ((FinishReason c0 = "tool_calls" \/ FinishReason c0 = "stop") ->
       Content (Message_ c0) <> "" ->
       Error e = "failed to extract tool call: no tool calls in response - model returned: "
                 +:+ Content (Message_ c0) /\
       strings.Contains (Error e) (Content (Message_ c0)) = true)) /\
  TS.extractPlannerToolOutput (JS.JSArray messages) c =
    (JS.Return (JS.JSString ""), (c ++ [JS.console_warn TS.notInvokedWarning])%list) /\
  fst (TS.runPlannerAgent userQuery nn c) = JS.Return (JS.JSString "").
Proof.
  intros Hcall Hc Hno Hinv Hmsgs Hfind. split; [|split].
  - destruct (extractToolCallRaw_no_calls resp c0 rest Hc Hno) as [e [He Htext]].
    exists (Errorf ("failed to extract tool call: " +:+ Error e)). split.
    + rewrite (Run_after_reply _ _ _ _ _ _ Hcall), (ExtractToolCall_Err _ _ He). reflexivity.
    + intros Hfin Hne. rewrite (Htext Hfin Hne). split; [reflexivity|].
      cbn [Error Errorf].
      rewrite <- (append_assoc "failed to extract tool call: "
                    "no tool calls in response - model returned: " (Content (Message_ c0))).
      apply Contains_suffix.
  - now apply extractPlannerToolOutput_no_tool.
  - now apply runPlannerAgent_no_tool with (aprops := aprops) (messages := messages).
Qed.

(** The model answers in text and stops: the Go [Run] fails. *)
Lemma reply_without_tool_call_witness :
  exists e,
    @agents.Run Scenario.declined Scenario.agent "cheap hotel" 5 Scenario.w0 =
    (Err e, snd (@Spec.plannerCall Scenario.declined Scenario.agent "cheap hotel" 5
                   Scenario.w0)) /\
    (("stop" = "tool_calls" \/ "stop" = "stop") ->
     "I cannot search for hotels." <> "" ->
     Error e = "failed to extract tool call: no tool calls in response - model returned: "
               +:+ "I cannot search for hotels." /\
     strings.Contains (Error e) "I cannot search for hotels." = true).
Proof.
  refine (proj1 (reply_without_tool_call Scenario.declined Scenario.runtimeDeclined
            Scenario.agent "cheap hotel" 5 Scenario.w0 _
            (Scenario.textReply "I cannot search for hotels." "stop")
            (mkChoice "stop" (mkChatCompletionMessage "I cannot search for hotels." [])) []
            (float_of_Z 5) _ Scenario.messagesWithoutTool [] _ _ _ _ _ _)); reflexivity.
Defined.

(** C1 as stated fails in both programs: in Go a reply in text that was
    cut off by the length limit makes [Run] fail with the error of the
    length limit, which does not contain the text; in TypeScript a run
    whose messages hold no tool message returns the empty string instead
    of failing. *)
Lemma text_reply_counterexample :
  ~ Stated.text_reply_fails_with_text /\ ~ Stated.ts_planner_fails_without_tool.
Proof.
  split; intros Hclaim.
  2:{ destruct (Hclaim Scenario.runtimeDeclined "cheap hotel" (float_of_Z 5) []
                  [("messages", JS.JSArray Scenario.messagesWithoutTool)]
                  Scenario.messagesWithoutTool eq_refl eq_refl eq_refl) as [e He].
      vm_compute in He. discriminate. }
  destruct (Hclaim Scenario.truncated Scenario.agent "cheap hotel" 5 Scenario.w0
              (snd (@Spec.plannerCall Scenario.truncated Scenario.agent "cheap hotel" 5
                      Scenario.w0))
              (Scenario.textReply "I can suggest a few hotels near" "length")
              (mkChoice "length" (mkChatCompletionMessage "I can suggest a few hotels near" []))
              [])
    as [e [Hrun Hcontains]]; [reflexivity | reflexivity | reflexivity | discriminate |].
  vm_compute in Hrun. injection Hrun as <-.
  vm_compute in Hcontains. discriminate.
Qed.

(** ** The neighbour count *)

Section go_default_k.
Context `{Services}.

Lemma searched_ks_requests (w w' : World) :
  requests w = requests w' -> searched_ks w = searched_ks w'.
Proof. unfold searched_ks. now intros ->. Qed.

Lemma invokeSearchTool_searched_ks (a : agents.PlannerAgent) (toolName query : string)
    (kk : Z) (w : World) :
  forall k', In k' (searched_ks (snd (Spec.invokeSearchTool a toolName query kk w))) ->
             In k' (searched_ks w) \/ k' = kk.
Proof.
  intros k' Hin.
  rewrite (searched_ks_requests _ _ (invokeSearchTool_requests a toolName query kk w)) in Hin.
  apply Execute_searched_ks in Hin as [Hin | ->]; [left|now right].
  erewrite searched_ks_requests; [exact Hin|reflexivity].
Qed.

(** With the embedding at hand the Search Tool issues one search, with
    its neighbour count. *)
Lemma invokeSearchTool_searches (a : agents.PlannerAgent) (toolName query : string)
    (kk : Z) (w : World) (d0 : Embedding) (Data : list Embedding) :
  Embeddings_New
    (clients.EmbeddingDeployment
       (clients.config (agents.tool_openAIClients (agents.searchTool a)))) query
    = Ok (d0 :: Data) ->
  searched_ks (snd (Spec.invokeSearchTool a toolName query kk w)) =
  (searched_ks w ++ [kk])%list.
Proof.
  intros Hemb.
  rewrite (searched_ks_requests _ _ (invokeSearchTool_requests a toolName query kk w)).
  unfold searched_ks. rewrite Execute_requests, GenerateEmbedding_value, Hemb.
  cbn [requests]. rewrite flat_map_app. reflexivity.
Qed.

End go_default_k.

Section ts_default_k.
Import JS.
Context `{Runtime}.

(** The schema of the TypeScript tool puts 5 for a missing
    [nearestNeighbors], and lets a zero through. *)
Lemma tool_invoke_missing (props : list (string * Value)) (q : string)
    (config : TS.ToolConfig) (c : list ConsoleEntry) :
  lookup_prop props "query" = JSString q ->
  lookup_prop props "nearestNeighbors" = JSUndefined ->
  TS.tool_invoke (JSObject props) config c =
  TS.getHotelsToMatchSearchQuery q (float_of_Z 5) config c.
Proof.
  intros Hq Hnn. unfold TS.tool_invoke, TS.schema_parse. rewrite Hq, Hnn. reflexivity.
Qed.

Lemma tool_invoke_zero (props : list (string * Value)) (q : string) (s : bool)
    (config : TS.ToolConfig) (c : list ConsoleEntry) :
  lookup_prop props "query" = JSString q ->
  lookup_prop props "nearestNeighbors" = JSNumber (S754_zero s) ->
  TS.tool_invoke (JSObject props) config c =
  TS.getHotelsToMatchSearchQuery q (S754_zero s) config c.
Proof.
  intros Hq Hnn. unfold TS.tool_invoke, TS.schema_parse. rewrite Hq, Hnn. reflexivity.
Qed.

End ts_default_k.

(** C2, as the code has it.  When the parsed arguments of the tool call
    have the neighbour count 0 (the argument was missing or zero), the Go
    [Run] calls the Search Tool with the caller's [requestedK]: every
    search it issues carries [requestedK], which is not zero when
    [requestedK] is not zero, and with the embedding at hand it issues
    exactly that one search.  In the TypeScript tool the schema substitutes
    the constant 5 for a missing [nearestNeighbors] and passes a zero on
    unchanged. *)
Theorem missing_k_defaults_to_requestedK
    (S : Services) (R : JS.Runtime)
    (a : agents.PlannerAgent) (userQuery : string) (requestedK : Z)
    (w w1 : World) (resp : ChatCompletion) (argsMap : gmap string any)
    (args : agents.toolArguments)
    (props : list (string * JS.Value)) (q : string) (config : TS.ToolConfig)
    (c : list JS.ConsoleEntry) :
  Spec.plannerCall a userQuery requestedK w = (Ok resp, w1) ->
  clients.ExtractToolCall (Some resp) = Ok (prompts.ToolName, argsMap) ->
  agents.parseToolArgumentsFromMap argsMap = Ok args ->
  agents.NearestNeighbors args = 0 ->
  JS.lookup_prop props "query" = JS.JSString q ->
  agents.Run a userQuery requestedK w =
    Spec.invokeSearchTool a prompts.ToolName (agents.Query args) requestedK w1 /\
  (forall kk,
      In kk (searched_ks (snd (agents.Run a userQuery requestedK w))) ->
      ~ In kk (searched_ks w) ->
      kk = requestedK /\ (requestedK <> 0 -> kk <> 0)) /\
  (forall d0 Data,
      Embeddings_New
        (clients.EmbeddingDeployment
           (clients.config (agents.tool_openAIClients (agents.searchTool a))))
        (agents.Query args) = Ok (d0 :: Data) ->
      searched_ks (snd (agents.Run a userQuery requestedK w)) =
      (searched_ks w ++ [requestedK])%list) /\
  (JS.lookup_prop props "nearestNeighbors" = JS.JSUndefined ->
   TS.tool_invoke (JS.JSObject props) config c =
   TS.getHotelsToMatchSearchQuery q (float_of_Z 5) config c) /\
  (forall s,
      JS.lookup_prop props "nearestNeighbors" = JS.JSNumber (S754_zero s) ->
      TS.tool_invoke (JS.JSObject props) config c =
      TS.getHotelsToMatchSearchQuery q (S754_zero s) config c).
Proof.
  intros Hcall Hex Hparse Hzero Hq.
  assert (Hrun : agents.Run a userQuery requestedK w =
                 Spec.invokeSearchTool a prompts.ToolName (agents.Query args) requestedK w1).
  { rewrite (Run_after_reply _ _ _ _ _ _ Hcall), Hex, Hparse, Hzero. reflexivity. }
  destruct (plannerCall_requests _ _ _ _ _ _ Hcall) as [Hks _].
  split; [exact Hrun|]. split; [|split; [|split]].
  - intros kk Hin Hnot. rewrite Hrun in Hin.
    apply invokeSearchTool_searched_ks in Hin as [Hin | ->].
    + rewrite Hks in Hin. contradiction.
    + split; [reflexivity|auto].
  - intros d0 Data Hemb. rewrite Hrun, (invokeSearchTool_searches _ _ _ _ _ _ _ Hemb), Hks.
    reflexivity.
  - intros Hnn. now apply tool_invoke_missing.
  - intros s Hnn. now apply tool_invoke_zero.
Qed.

(** The model names only the query and the caller asked for 5: the search
    uses 5. *)
Lemma missing_k_witness :
  searched_ks (snd (@agents.Run Scenario.happy Scenario.agent "cheap hotel" 5 Scenario.w0)) =
  (searched_ks Scenario.w0 ++ [5])%list.
Proof.
  refine (proj1 (proj2 (proj2 (missing_k_defaults_to_requestedK Scenario.happy
            Scenario.runtime0 Scenario.agent "cheap hotel" 5 Scenario.w0 _ _
            Scenario.argsMap (agents.mktoolArguments "budget hotel with good value" 0)
            [("query", JS.JSString "budget hotel")] "budget hotel"
            Scenario.tsConfigOk [] _ _ _ _ _))) _ _ _); reflexivity.
Defined.

(** C2 as stated fails in both programs: the Go [Run] called with
    [requestedK = 0] searches with the neighbour count 0; the TypeScript
    tool called without [nearestNeighbors] searches with 5 where the
    caller asked for 7. *)
Lemma default_k_counterexample :
  ~ Stated.default_k_never_zero /\ ~ Stated.ts_missing_k_is_requestedK.
Proof.
  split; intros Hclaim.
  2:{ specialize (Hclaim Scenario.runtime0 (float_of_Z 7)
                    [("query", JS.JSString "budget hotel")] "budget hotel"
                    Scenario.tsConfigByK [] eq_refl eq_refl).
      vm_compute in Hclaim. discriminate. }
  destruct (Hclaim Scenario.happy Scenario.agent "cheap hotel" 0 Scenario.w0
              (snd (@Spec.plannerCall Scenario.happy Scenario.agent "cheap hotel" 0
                      Scenario.w0))
              (Scenario.callReply prompts.ToolName "tool_calls")
              Scenario.argsMap (agents.mktoolArguments "budget hotel with good value" 0)
              eq_refl eq_refl eq_refl eq_refl 0) as [_ Hnz].
  - vm_compute. auto.
  - vm_compute. tauto.
  - now apply Hnz.
Qed.

(** A hit with sparse metadata and no score. *)
Lemma formatHotelForSynthesizer_witness :
  @TSSpec.scoreText Scenario.runtime0 JS.JSUndefined = "0.000000".
Proof.
  refine (proj1 (proj2 (proj2 (proj2 (proj2 (proj2
            (proj2 (formatHotelForSynthesizer_defaults Scenario.runtime0
               [("HotelName", JS.JSString "Old Century Hotel")] JS.JSUndefined))))))) _).
  left. reflexivity.
Defined.

(* ===================================================================== *)
(** * Further properties of the Go agent *)
(* ===================================================================== *)

Section go_more_steps.
Context `{Services}.

(** The model call sends one chat request and leaves the collection. *)
Lemma plannerCall_world (a : agents.PlannerAgent) (userQuery : string) (requestedK : Z)
    (w w1 : World) (r : result ChatCompletion) :
  Spec.plannerCall a userQuery requestedK w = (r, w1) ->
  requests w1 =
    (requests w ++
     [ReqChatCompletion (clients.PlannerDeployment (clients.config (agents.openAIClients a)))
        PlannerSystemPrompt (Spec.plannerUserMessage userQuery requestedK)
        [prompts.ToolName]])%list /\
  collection w1 = collection w.
Proof.
  unfold Spec.plannerCall, clients.ChatCompletionWithTools, agents.GetToolDefinition,
    clients.debugResponse. run_monad.
  destruct (clients.Debug _);
    (destruct (Completions_New _ _ _) as [[resp|] [err|]];
     try (intros [= <- <-]; split; reflexivity)).
  destruct (Choices resp) as [|c0 rest]; [intros [= <- <-]; split; reflexivity|].
  destruct (bool_decide _ && negb _); intros [= <- <-]; split; reflexivity.
Qed.

Lemma Run_call_failed (a : agents.PlannerAgent) (userQuery : string) (requestedK : Z)
    (w w1 : World) (err : error) :
  Spec.plannerCall a userQuery requestedK w = (Err err, w1) ->
  agents.Run a userQuery requestedK w =
  (Err (Errorf ("planner failed: " +:+ Error err)), w1).
Proof.
  unfold Spec.plannerCall, agents.Run, Spec.plannerUserMessage. run_monad. now intros ->.
Qed.

Lemma Execute_collection (t : agents.VectorSearchTool) (query : string) (kk : Z) (w : World) :
  collection (snd (agents.Execute t query kk w)) = collection w.
Proof.
  unfold agents.Execute. run_monad.
  pose proof (GenerateEmbedding_world (agents.tool_openAIClients t) query w) as Hw.
  destruct (clients.GenerateEmbedding _ query w) as [[qv|err] w1]; cbn [fst snd] in *; subst w1;
    [|reflexivity].
  pose proof (VectorSearch_world (agents.vectorStore t) qv kk
    (mkWorld (stdout w)
       (requests w ++ [ReqEmbedding
          (clients.EmbeddingDeployment (clients.config (agents.tool_openAIClients t))) query])%list
       (collection w))) as [_ Hc].
  destruct (vectorstore.VectorSearch _ qv kk _) as [[results|err] w2]; cbn [fst snd] in *;
    [|exact Hc].
  pose proof (formatLoop_world results 0 [] w2) as [_ Hc2].
  destruct (agents.formatLoop 0 results [] w2) as [fr w3]; cbn [fst snd] in *.
  now rewrite Hc2.
Qed.

Lemma invokeSearchTool_collection (a : agents.PlannerAgent) (toolName query : string) (kk : Z)
    (w : World) :
  collection (snd (Spec.invokeSearchTool a toolName query kk w)) = collection w.
Proof.
  unfold Spec.invokeSearchTool. run_monad. cbn [stdout requests collection].
  pose proof (Execute_collection (agents.searchTool a) query kk
    (mkWorld (((stdout w ++ ["Tool: " +:+ toolName +:+ nl]) ++
               ["Query: " +:+ query +:+ nl]) ++ ["K: " +:+ fmt.Itoa kk +:+ nl])%list
             (requests w) (collection w))) as Hc.
  destruct (agents.Execute _ query kk _) as [[s|err] w2]; exact Hc.
Qed.

(** What a successful [Execute] returned. *)
Lemma Execute_Ok_inv (t : agents.VectorSearchTool) (query : string) (kk : Z) (w : World)
    (s : string) :
  fst (agents.Execute t query kk w) = Ok s ->
  exists results,
    Spec.searchResultsOf t query kk w = Some results /\
    s = String.concat (nl +:+ nl) (List.map vectorstore.FormatHotelForSynthesizer results).
Proof.
  intros Hs.
  destruct (Spec.searchResultsOf t query kk w) as [results|] eqn:Hres.
  - exists results. split; [reflexivity|].
    rewrite (Execute_output _ _ _ _ _ Hres) in Hs. now injection Hs as <-.
  - exfalso. revert Hs Hres. unfold Spec.searchResultsOf, agents.Execute. run_monad.
    destruct (clients.GenerateEmbedding _ query w) as [[qv|err] w1]; [|discriminate].
    destruct (vectorstore.VectorSearch _ qv kk w1) as [[rs|err] w2]; discriminate.
Qed.

Lemma invokeSearchTool_Ok_inv (a : agents.PlannerAgent) (toolName query : string) (kk : Z)
    (w : World) (s : string) :
  fst (Spec.invokeSearchTool a toolName query kk w) = Ok s ->
  fst (agents.Execute (agents.searchTool a) query kk
         (mkWorld (stdout w ++ ["Tool: " +:+ toolName +:+ nl] ++
                   ["Query: " +:+ query +:+ nl] ++ ["K: " +:+ fmt.Itoa kk +:+ nl])%list
                  (requests w) (collection w))) = Ok s.
Proof.
  unfold Spec.invokeSearchTool. run_monad. cbn [stdout requests collection].
  rewrite <- !app_assoc.
  destruct (agents.Execute _ query kk _) as [[s'|e] w2]; cbn [fst]; [trivial|discriminate].
Qed.

End go_more_steps.

(** X1. Whatever the services answer, [Run] first sends exactly one chat
    completion request, with the planner prompt, the user message and the
    one tool; after it come nothing, or the embedding request of the
    Search Tool, or that request followed by one aggregation.  [Run] never
    inserts and leaves the collection as it found it. *)
Theorem Run_request_discipline
    (S : Services) (a : agents.PlannerAgent) (userQuery : string) (requestedK : Z)
    (w : World) :
  let w' := snd (agents.Run a userQuery requestedK w) in
  let model :=
    clients.EmbeddingDeployment
      (clients.config (agents.tool_openAIClients (agents.searchTool a))) in
  (exists tail,
      requests w' =
        (requests w ++
         ReqChatCompletion (clients.PlannerDeployment (clients.config (agents.openAIClients a)))
           PlannerSystemPrompt (Spec.plannerUserMessage userQuery requestedK)
           [prompts.ToolName] :: tail)%list /\
      (tail = [] \/
       (exists q, tail = [ReqEmbedding model q]) \/
       (exists q p, tail = [ReqEmbedding model q; ReqAggregate p]))) /\
  collection w' = collection w /\
  insert_calls w' = insert_calls w.
Proof.
  intros w' model. subst w'.
  destruct (Spec.plannerCall a userQuery requestedK w) as [r w1] eqn:Hcall.
  destruct (plannerCall_world _ _ _ _ _ _ Hcall) as [Hreq Hcoll].
  assert (Hshape :
    (exists tail,
      requests (snd (agents.Run a userQuery requestedK w)) =
        (requests w ++
         ReqChatCompletion (clients.PlannerDeployment (clients.config (agents.openAIClients a)))
           PlannerSystemPrompt (Spec.plannerUserMessage userQuery requestedK)
           [prompts.ToolName] :: tail)%list /\
      (tail = [] \/
       (exists q, tail = [ReqEmbedding model q]) \/
       (exists q p, tail = [ReqEmbedding model q; ReqAggregate p]))) /\
    collection (snd (agents.Run a userQuery requestedK w)) = collection w).
  { assert (Hstop : forall r', agents.Run a userQuery requestedK w = (r', w1) ->
      (exists tail,
        requests (snd (agents.Run a userQuery requestedK w)) =
          (requests w ++
           ReqChatCompletion (clients.PlannerDeployment (clients.config (agents.openAIClients a)))
             PlannerSystemPrompt (Spec.plannerUserMessage userQuery requestedK)
             [prompts.ToolName] :: tail)%list /\
        (tail = [] \/
         (exists q, tail = [ReqEmbedding model q]) \/
         (exists q p, tail = [ReqEmbedding model q; ReqAggregate p]))) /\
      collection (snd (agents.Run a userQuery requestedK w)) = collection w).
    { intros r' ->. cbn [snd]. split; [|exact Hcoll]. exists []. split; [exact Hreq|auto]. }
    destruct r as [resp|err]; [|eapply Hstop, Run_call_failed, Hcall].
    pose proof (Run_after_reply _ _ _ _ _ _ Hcall) as Hrun.
    destruct (clients.ExtractToolCall (Some resp)) as [[toolName argsMap]|err];
      [|eapply Hstop, Hrun].
    destruct (negb (String.eqb toolName prompts.ToolName)); [eapply Hstop, Hrun|].
    destruct (agents.parseToolArgumentsFromMap argsMap) as [args|err]; [|eapply Hstop, Hrun].
    rewrite Hrun. split.
    - rewrite invokeSearchTool_requests, Execute_requests. cbn [requests]. rewrite Hreq.
      rewrite <- app_assoc. cbn [app]. eexists. split; [reflexivity|].
      right. destruct (fst (clients.GenerateEmbedding _ _ _)); eauto.
    - now rewrite invokeSearchTool_collection. }
  destruct Hshape as [[tail [Htail Hcases]] Hc].
  split; [eauto|]. split; [exact Hc|].
  unfold insert_calls. rewrite Htail, List.filter_app. cbn [List.filter].
  destruct Hcases as [->|[[q ->]|[q [p ->]]]]; cbn [List.filter]; now rewrite app_nil_r.
Qed.

(** X2. When the arguments of the first tool call are not valid JSON,
    [Run] fails with the parse error and the raw arguments in its message,
    has not looked at the tool name, and sends nothing after the chat
    request. *)
Theorem Run_malformed_arguments
    (S : Services) (a : agents.PlannerAgent) (userQuery : string) (requestedK : Z)
    (w w1 : World) (resp : ChatCompletion) (toolName argsJSON : string) (err : error) :
  Spec.plannerCall a userQuery requestedK w = (Ok resp, w1) ->
  clients.extractToolCallRaw (Some resp) = Ok (toolName, argsJSON) ->
  json_Unmarshal argsJSON = Err err ->
  agents.Run a userQuery requestedK w =
  (Err (Errorf ("failed to extract tool call: failed to parse tool arguments: " +:+
                Error err +:+ " (raw arguments: " +:+ argsJSON +:+ ")")), w1) /\
  strings.Contains
    ("failed to extract tool call: failed to parse tool arguments: " +:+
     Error err +:+ " (raw arguments: " +:+ argsJSON +:+ ")") argsJSON = true.
Proof.
  intros Hcall Hraw Hjson. split.
  - rewrite (Run_after_reply _ _ _ _ _ _ Hcall).
    unfold clients.ExtractToolCall. rewrite Hraw, Hjson. reflexivity.
  - apply Contains_spec.
    exists ("failed to extract tool call: failed to parse tool arguments: " +:+
            Error err +:+ " (raw arguments: "), ")".
    now rewrite !append_assoc.
Qed.

(** X3. [extractToolCallRaw] reads the first choice and its first tool
    call only: further choices and further tool calls change nothing.  A
    first tool call whose type is not [function] is refused whatever it
    names. *)
Theorem extractToolCallRaw_reads_first_only
    (c0 : Choice) (rest : list Choice) (tc : ToolCall) (tcs : list ToolCall) :
  ToolCalls (Message_ c0) = tc :: tcs ->
  clients.extractToolCallRaw (Some (mkChatCompletion (c0 :: rest))) =
    clients.extractToolCallRaw
      (Some (mkChatCompletion
               [mkChoice (FinishReason c0)
                  (mkChatCompletionMessage (Content (Message_ c0)) [tc])])) /\
  (Type_ tc <> "function" ->
   exists e, clients.extractToolCallRaw (Some (mkChatCompletion (c0 :: rest))) = Err e).
Proof.
  intros Htc. unfold clients.extractToolCallRaw.
  cbn [Choices FinishReason Message_ ToolCalls Content]. rewrite Htc. split; [reflexivity|].
  intros Hty.
  destruct (String.eqb (FinishReason c0) "length"); [eauto|].
  destruct (negb _ && negb _); [eauto|].
  destruct (String.eqb_spec (Type_ tc) "function"); [contradiction|]. cbn [negb]. eauto.
Qed.

(** X4. [VectorSearch] is all or nothing: when it returns results, the
    aggregation succeeded, every document of the cursor decoded, the
    cursor reported no error, and the results are the documents of the
    cursor, all of them, in order.  A document that does not decode or a
    cursor error gives an error and no partial list. *)
Theorem VectorSearch_all_or_nothing
    (S : Services) (vs : vectorstore.VectorStore) (queryVector : list spec_float) (kk : Z)
    (w : World) :
  (forall results,
      fst (vectorstore.VectorSearch vs queryVector kk w) = Ok results ->
      exists cursor docs,
        Collection_Aggregate (collection w)
          (mkPipeline queryVector (vectorstore.EmbeddedField (vectorstore.config vs)) kk)
          = Ok cursor /\
        batch cursor = List.map Ok docs /\
        cursor_Err cursor = None /\
        results = List.map (fun d => mkHotelSearchResult (document d) (score d)) docs) /\
  (forall cursor,
      Collection_Aggregate (collection w)
        (mkPipeline queryVector (vectorstore.EmbeddedField (vectorstore.config vs)) kk)
        = Ok cursor ->
      (exists e, In (Err e) (batch cursor)) \/ cursor_Err cursor <> None ->
      exists e, fst (vectorstore.VectorSearch vs queryVector kk w) = Err e).
Proof.
  assert (Hdecode : forall items acc rs,
    vectorstore.decodeAll items acc = Ok rs ->
    exists docs, items = List.map Ok docs /\
      rs = (acc ++ List.map (fun d => mkHotelSearchResult (document d) (score d)) docs)%list).
  { induction items as [|[d|e] items IH]; intros acc rs; cbn [vectorstore.decodeAll].
    - intros [= <-]. exists []. now rewrite app_nil_r.
    - intros Hd. destruct (IH _ _ Hd) as [docs [-> ->]].
      exists (d :: docs). cbn [List.map]. now rewrite <- app_assoc.
    - discriminate. }
  assert (Hbad : forall items acc e,
    In (Err e) items -> exists e', vectorstore.decodeAll items acc = Err e').
  { induction items as [|[d|e0] items IH]; intros acc e; cbn [vectorstore.decodeAll In].
    - contradiction.
    - intros [Heq|Hin]; [discriminate|]. eauto.
    - eauto. }
  split.
  - intros results. unfold vectorstore.VectorSearch, vectorstore.Aggregate. run_monad.
    destruct (Collection_Aggregate _ _) as [cursor|err]; [|discriminate].
    destruct (vectorstore.decodeAll (batch cursor) []) as [rs|err] eqn:Hd; [|discriminate].
    destruct (cursor_Err cursor) eqn:Hce; [discriminate|].
    destruct (Hdecode _ _ _ Hd) as [docs [Hb ->]].
    destruct (vectorstore.Debug _); intros [= <-]; exists cursor, docs; auto.
  - intros cursor Hagg Hfail.
    unfold vectorstore.VectorSearch, vectorstore.Aggregate. run_monad. rewrite Hagg.
    destruct Hfail as [[e Hin]|Hce].
    + destruct (Hbad _ [] _ Hin) as [e' ->]. eauto.
    + destruct (vectorstore.decodeAll (batch cursor) []); [|eauto].
      destruct (cursor_Err cursor); [eauto|contradiction].
Qed.

(** The arguments [{query:] do not parse. *)
Lemma Run_malformed_arguments_witness :
  fst (@agents.Run Scenario2.brokenArguments Scenario.agent "cheap hotel" 5 Scenario.w0) =
  Err (Errorf ("failed to extract tool call: failed to parse tool arguments: " +:+
               "invalid character" +:+ " (raw arguments: " +:+ "{query:" +:+ ")")).
Proof.
  refine (f_equal fst (proj1 (Run_malformed_arguments Scenario2.brokenArguments Scenario.agent
            "cheap hotel" 5 Scenario.w0 _ Scenario2.brokenReply "book_hotel" "{query:"
            (errorString "invalid character") _ _ _))); reflexivity.
Defined.

(** A second choice and a second tool call are not read. *)
Lemma extractToolCallRaw_first_only_witness :
  clients.extractToolCallRaw
    (Some (mkChatCompletion [Scenario2.firstChoice; mkChoice "length" (mkChatCompletionMessage "" [])])) =
  Ok (prompts.ToolName, Scenario.argsJSON).
Proof.
  rewrite (proj1 (extractToolCallRaw_reads_first_only Scenario2.firstChoice
             [mkChoice "length" (mkChatCompletionMessage "" [])]
             (mkToolCall "call_1" "function" (mkFunctionCall prompts.ToolName Scenario.argsJSON))
             [mkToolCall "call_2" "function" (mkFunctionCall "book_hotel" "{}")] eq_refl)).
  reflexivity.
Defined.

(** One document of two does not decode: the search fails. *)
Lemma VectorSearch_all_or_nothing_witness :
  exists e,
    fst (@vectorstore.VectorSearch Scenario2.undecodable (Scenario.vstore false) [] 2
           Scenario.w0) = Err e.
Proof.
  refine (proj2 (VectorSearch_all_or_nothing Scenario2.undecodable (Scenario.vstore false) [] 2
            Scenario.w0) Scenario2.cursorUndecodable eq_refl _).
  left. exists (errorString "cannot decode string into a float64"). simpl. auto.
Defined.

(* ===================================================================== *)
(** ** Inserts that succeed or fail as a whole *)
(* ===================================================================== *)

(** X5. A non-empty insert is one unordered [InsertMany] call with all
    the hotels in their order, and the collection afterwards is what the
    store made of it, whatever the outcome.  Without an error the insert
    succeeds; an error that is not a bulk write exception is returned
    wrapped, with nothing printed, and what the store had written before
    it failed stays. *)
Theorem InsertHotels_one_unordered_call
    (S : Services) (vs : vectorstore.VectorStore) (hotels : list HotelForVectorStore)
    (w : World) (coll' : list HotelForVectorStore) (res : InsertManyResult)
    (err : option error) :
  hotels <> [] ->
  Collection_InsertMany (collection w) hotels false = (coll', res, err) ->
  let out := vectorstore.InsertHotelsWithEmbeddings vs hotels w in
  requests (snd out) = (requests w ++ [ReqInsertMany hotels false])%list /\
  collection (snd out) = coll' /\
  (err = None -> fst out = None) /\
  (forall m, err = Some (errorString m) ->
     fst out = Some (Errorf ("failed to insert documents: " +:+ m)) /\
     stdout (snd out) = stdout w).
Proof.
  intros Hne Hins out. subst out.
  unfold vectorstore.InsertHotelsWithEmbeddings, vectorstore.InsertMany.
  destruct hotels as [|h hs]; [contradiction|].
  rewrite bool_decide_eq_false_2 by discriminate.
  run_monad. rewrite Hins.
  destruct err as [[m|we m]|]; try destruct (vectorstore.Debug _); try destruct (_ =? 0);
    unfold ret; cbn [fst snd requests collection stdout];
    (split; [reflexivity|split; [reflexivity|split]]);
    try (intros Hnone; first [discriminate Hnone | reflexivity]);
    intros m' Hm'; first [discriminate Hm' | injection Hm' as <-; split; reflexivity].
Qed.

(** The store cannot be reached: the insert of two hotels fails. *)
Lemma InsertHotels_one_call_witness :
  fst (@vectorstore.InsertHotelsWithEmbeddings Scenario2.storeUnreachable (Scenario.vstore true)
         [Scenario.hotelA; Scenario.hotelB] (mkWorld [] [] [])) =
  Some (Errorf "failed to insert documents: server selection timeout").
Proof.
  refine (proj1 (proj2 (proj2 (proj2 (InsertHotels_one_unordered_call Scenario2.storeUnreachable
            (Scenario.vstore true) [Scenario.hotelA; Scenario.hotelB] (mkWorld [] [] [])
            [] (mkInsertManyResult []) (Some (errorString "server selection timeout")) _ _)))
            "server selection timeout" eq_refl)).
  - discriminate.
  - reflexivity.
Defined.

(* ===================================================================== *)
(** ** A search without hits *)
(* ===================================================================== *)

(** X6. A search that finds nothing is not an error: [Execute] returns
    the empty string, and it returns the empty string only then. *)
Theorem Execute_empty_iff_no_results
    (S : Services) (t : agents.VectorSearchTool) (query : string) (kk : Z) (w : World)
    (s : string) :
  fst (agents.Execute t query kk w) = Ok s ->
  (s = "" <-> Spec.searchResultsOf t query kk w = Some []).
Proof.
  intros Hs. destruct (Execute_Ok_inv t query kk w s Hs) as [results [Hres ->]].
  rewrite Hres. destruct results as [|r rs].
  - split; reflexivity.
  - split; [|discriminate]. intros Hempty. exfalso. revert Hempty.
    cbn [List.map String.concat]. rewrite FormatHotelForSynthesizer_block.
    unfold Spec.hotelBlock.
    destruct (List.map vectorstore.FormatHotelForSynthesizer rs);
      rewrite ?append_cons; discriminate.
Qed.

(** The store finds nothing for the query. *)
Lemma Execute_no_results_witness :
  @Spec.searchResultsOf Scenario2.nothingFound Scenario.tool "budget hotel" 3 Scenario.w0 =
  Some [].
Proof.
  refine (proj1 (Execute_empty_iff_no_results Scenario2.nothingFound Scenario.tool
            "budget hotel" 3 Scenario.w0 "" _) eq_refl).
  reflexivity.
Defined.

(* ===================================================================== *)
(** ** The debug flags *)
(* ===================================================================== *)

Section go_observation.
Context `{Services}.

Lemma plannerCall_value (a a' : agents.PlannerAgent) (userQuery : string) (requestedK : Z)
    (w w' : World) :
  clients.PlannerDeployment (clients.config (agents.openAIClients a)) =
  clients.PlannerDeployment (clients.config (agents.openAIClients a')) ->
  fst (Spec.plannerCall a userQuery requestedK w) =
  fst (Spec.plannerCall a' userQuery requestedK w').
Proof.
  intros Hdep.
  assert (Hone : forall (b : agents.PlannerAgent) (v : World),
    fst (Spec.plannerCall b userQuery requestedK v) =
    match Completions_New (clients.PlannerDeployment (clients.config (agents.openAIClients b)))
            PlannerSystemPrompt (Spec.plannerUserMessage userQuery requestedK) with
    | (_, Some err) => Err (Errorf ("planner chat completion failed: " +:+ Error err))
    | (None, None) => Err (Errorf "planner returned nil response")
    | (Some resp, None) => Ok resp
    end).
  { intros b v.
    unfold Spec.plannerCall, clients.ChatCompletionWithTools, agents.GetToolDefinition,
      clients.debugResponse. run_monad.
    destruct (clients.Debug _);
      destruct (Completions_New _ _ _) as [[resp|] [err|]]; try reflexivity.
    destruct (Choices resp) as [|c0 rest]; [reflexivity|].
    match goal with |- context [if ?c then _ else _] => destruct c end; reflexivity. }
  rewrite !Hone, Hdep. reflexivity.
Qed.

Lemma VectorSearch_value (vs : vectorstore.VectorStore) (qv : list spec_float) (kk : Z)
    (w : World) :
  fst (vectorstore.VectorSearch vs qv kk w) =
  match Collection_Aggregate (collection w)
          (mkPipeline qv (vectorstore.EmbeddedField (vectorstore.config vs)) kk) with
  | Err err => Err (Errorf ("vector search failed: " +:+ Error err))
  | Ok cursor =>
      match vectorstore.decodeAll (batch cursor) [] with
      | Err err => Err err
      | Ok results =>
          match cursor_Err cursor with
          | Some err => Err (Errorf ("cursor error: " +:+ Error err))
          | None => Ok results
          end
      end
  end.
Proof.
  unfold vectorstore.VectorSearch, vectorstore.Aggregate. run_monad.
  destruct (Collection_Aggregate _ _) as [cursor|err]; [|reflexivity].
  destruct (vectorstore.decodeAll _ _) as [results|err]; [|reflexivity].
  destruct (cursor_Err cursor); [reflexivity|].
  destruct (vectorstore.Debug _); reflexivity.
Qed.

Lemma Execute_value (t : agents.VectorSearchTool) (query : string) (kk : Z) (w : World) :
  fst (agents.Execute t query kk w) =
  match fst (clients.GenerateEmbedding (agents.tool_openAIClients t) query w) with
  | Err err => Err (Errorf ("failed to generate embedding: " +:+ Error err))
  | Ok qv =>
      match Collection_Aggregate (collection w)
              (mkPipeline qv
                 (vectorstore.EmbeddedField (vectorstore.config (agents.vectorStore t))) kk) with
      | Err err =>
          Err (Errorf ("vector search failed: " +:+ "vector search failed: " +:+ Error err))
      | Ok cursor =>
          match vectorstore.decodeAll (batch cursor) [] with
          | Err err => Err (Errorf ("vector search failed: " +:+ Error err))
          | Ok results =>
              match cursor_Err cursor with
              | Some err =>
                  Err (Errorf ("vector search failed: " +:+ "cursor error: " +:+ Error err))
              | None =>
                  Ok (strings.Join
                        (List.map vectorstore.FormatHotelForSynthesizer results) (nl +:+ nl))
              end
          end
      end
  end.
Proof.
  unfold agents.Execute. run_monad.
  pose proof (GenerateEmbedding_world (agents.tool_openAIClients t) query w) as Hw.
  destruct (clients.GenerateEmbedding _ query w) as [[qv|err] w1]; cbn [fst snd] in *;
    [|reflexivity]. subst w1.
  pose proof (VectorSearch_value (agents.vectorStore t) qv kk
    (mkWorld (stdout w)
       (requests w ++ [ReqEmbedding
          (clients.EmbeddingDeployment (clients.config (agents.tool_openAIClients t))) query])%list
       (collection w))) as Hv.
  cbn [collection] in Hv.
  destruct (vectorstore.VectorSearch _ qv kk _) as [[results|err] w2]; cbn [fst snd] in *.
  - pose proof (formatLoop_value results 0 [] w2) as Hf.
    destruct (agents.formatLoop 0 results [] w2) as [fr w3]; cbn [fst snd] in *. subst fr.
    cbn [app].
    destruct (Collection_Aggregate _ _) as [cursor|e]; [|discriminate].
    destruct (vectorstore.decodeAll _ _) as [rs|e]; [|discriminate].
    destruct (cursor_Err cursor); [discriminate|]. now injection Hv as ->.
  - destruct (Collection_Aggregate _ _) as [cursor|e].
    + destruct (vectorstore.decodeAll _ _) as [rs|e].
      * destruct (cursor_Err cursor); [|discriminate]. now injection Hv as ->.
      * now injection Hv as ->.
    + now injection Hv as ->.
Qed.

Lemma invokeSearchTool_value (a : agents.PlannerAgent) (toolName query : string) (kk : Z)
    (w : World) :
  fst (Spec.invokeSearchTool a toolName query kk w) =
  match fst (agents.Execute (agents.searchTool a) query kk
               (mkWorld (stdout w ++ ["Tool: " +:+ toolName +:+ nl] ++
                         ["Query: " +:+ query +:+ nl] ++ ["K: " +:+ fmt.Itoa kk +:+ nl])%list
                        (requests w) (collection w))) with
  | Err err => Err (Errorf ("search tool execution failed: " +:+ Error err))
  | Ok s => Ok s
  end.
Proof.
  unfold Spec.invokeSearchTool. run_monad. cbn [stdout requests collection].
  rewrite <- !app_assoc.
  destruct (agents.Execute _ query kk _) as [[s|e] w2]; reflexivity.
Qed.

(** The last part of [Run] on two agents with the same settings, in two
    worlds with the same requests and collection. *)
Lemma invokeSearchTool_same (a a' : agents.PlannerAgent) (toolName query : string) (kk : Z)
    (w w' : World) :
  clients.EmbeddingDeployment
    (clients.config (agents.tool_openAIClients (agents.searchTool a))) =
  clients.EmbeddingDeployment
    (clients.config (agents.tool_openAIClients (agents.searchTool a'))) ->
  vectorstore.EmbeddedField (vectorstore.config (agents.vectorStore (agents.searchTool a))) =
  vectorstore.EmbeddedField (vectorstore.config (agents.vectorStore (agents.searchTool a'))) ->
  requests w = requests w' -> collection w = collection w' ->
  fst (Spec.invokeSearchTool a toolName query kk w) =
    fst (Spec.invokeSearchTool a' toolName query kk w') /\
  requests (snd (Spec.invokeSearchTool a toolName query kk w)) =
    requests (snd (Spec.invokeSearchTool a' toolName query kk w')) /\
  collection (snd (Spec.invokeSearchTool a toolName query kk w)) =
    collection (snd (Spec.invokeSearchTool a' toolName query kk w')).
Proof.
  intros Hemb Hfield Hreq Hcoll. split; [|split].
  - rewrite !invokeSearchTool_value, !Execute_value, !GenerateEmbedding_value.
    cbn [collection]. now rewrite Hemb, Hfield, Hcoll.
  - rewrite !invokeSearchTool_requests, !Execute_requests, !GenerateEmbedding_value.
    cbn [requests]. now rewrite Hemb, Hfield, Hreq.
  - now rewrite !invokeSearchTool_collection.
Qed.

End go_observation.

(** X7. The debug flags, the synthesizer deployment and the names of the
    collection and of the index change what [Run] prints and nothing
    else: two agents with the same planner deployment, embedding
    deployment and embedded field, started where the same requests were
    sent and the collection is the same, return the same result, send the
    same requests and leave the same collection. *)
Theorem Run_debug_changes_output_only
    (S : Services) (a a' : agents.PlannerAgent) (userQuery : string) (requestedK : Z)
    (w w' : World) :
  clients.PlannerDeployment (clients.config (agents.openAIClients a)) =
  clients.PlannerDeployment (clients.config (agents.openAIClients a')) ->
  clients.EmbeddingDeployment
    (clients.config (agents.tool_openAIClients (agents.searchTool a))) =
  clients.EmbeddingDeployment
    (clients.config (agents.tool_openAIClients (agents.searchTool a'))) ->
  vectorstore.EmbeddedField (vectorstore.config (agents.vectorStore (agents.searchTool a))) =
  vectorstore.EmbeddedField (vectorstore.config (agents.vectorStore (agents.searchTool a'))) ->
  requests w = requests w' -> collection w = collection w' ->
  fst (agents.Run a userQuery requestedK w) = fst (agents.Run a' userQuery requestedK w') /\
  requests (snd (agents.Run a userQuery requestedK w)) =
    requests (snd (agents.Run a' userQuery requestedK w')) /\
  collection (snd (agents.Run a userQuery requestedK w)) =
    collection (snd (agents.Run a' userQuery requestedK w')).
Proof.
  intros Hplan Hemb Hfield Hreq Hcoll.
  pose proof (plannerCall_value a a' userQuery requestedK w w' Hplan) as Hval.
  destruct (Spec.plannerCall a userQuery requestedK w) as [r w1] eqn:Hcall.
  destruct (Spec.plannerCall a' userQuery requestedK w') as [r' w1'] eqn:Hcall'.
  cbn [fst] in Hval. subst r'.
  destruct (plannerCall_world _ _ _ _ _ _ Hcall) as [Hreq1 Hcoll1].
  destruct (plannerCall_world _ _ _ _ _ _ Hcall') as [Hreq1' Hcoll1'].
  assert (Hr : requests w1 = requests w1') by (rewrite Hreq1, Hreq1', Hplan, Hreq; reflexivity).
  assert (Hc : collection w1 = collection w1') by congruence.
  destruct r as [resp|err].
  - rewrite (Run_after_reply _ _ _ _ _ _ Hcall), (Run_after_reply _ _ _ _ _ _ Hcall').
    destruct (clients.ExtractToolCall (Some resp)) as [[toolName argsMap]|err];
      [|cbn [fst snd]; auto].
    destruct (negb (String.eqb toolName prompts.ToolName)); [cbn [fst snd]; auto|].
    destruct (agents.parseToolArgumentsFromMap argsMap) as [args|err]; [|cbn [fst snd]; auto].
    now apply invokeSearchTool_same.
  - rewrite (Run_call_failed _ _ _ _ _ _ Hcall), (Run_call_failed _ _ _ _ _ _ Hcall').
    cbn [fst snd]. auto.
Qed.

(** The quiet agent and the one with every debug flag on return the same
    blocks. *)
Lemma Run_debug_witness :
  fst (@agents.Run Scenario.happy Scenario.agent "cheap hotel" 2 Scenario.w0) =
  fst (@agents.Run Scenario.happy Scenario3.loudAgent "cheap hotel" 2
         (mkWorld ["DEBUG mode is ON"] [] [Scenario.hotelA; Scenario.hotelB])).
Proof.
  refine (proj1 (Run_debug_changes_output_only Scenario.happy Scenario.agent Scenario3.loudAgent
            "cheap hotel" 2 Scenario.w0
            (mkWorld ["DEBUG mode is ON"] [] [Scenario.hotelA; Scenario.hotelB]) _ _ _ _ _));
    reflexivity.
Defined.

(* ===================================================================== *)
(** * Further properties of the TypeScript agent *)
(* ===================================================================== *)

Section ts_more.
Import JS.
Context `{Runtime}.

Lemma find_first (elems pre post : list Value) (m : Value) :
  elems = (pre ++ m :: post)%list ->
  List.Forall (fun x => TS.isToolMessage x = false) pre ->
  TS.isToolMessage m = true ->
  List.find TS.isToolMessage elems = Some m.
Proof.
  intros -> Hpre Hm. induction Hpre as [|x pre Hx _ IH]; cbn [app List.find].
  - now rewrite Hm.
  - now rewrite Hx.
Qed.

End ts_more.

(** X8. The planner's result is the content of the first tool message of
    the agent's reply: a message counts as a tool message by its name,
    its role or a tool call id, earlier messages are skipped and later
    tool messages are not read.  A string content is returned as it is.
    The planner itself writes the banner and nothing else: the console
    then holds the banner followed by what the run of the agent wrote. *)
Theorem runPlannerAgent_returns_first_tool_message
    (R : JS.Runtime) (userQuery : string) (nn : spec_float) (c : list JS.ConsoleEntry)
    (props : list (string * JS.Value)) (pre post : list JS.Value) (m : JS.Value)
    (content : string) :
  fst (JS.agent_invoke (TS.plannerUserMessage userQuery nn)) = JS.Return (JS.JSObject props) ->
  JS.lookup_prop props "messages" = JS.JSArray (pre ++ m :: post) ->
  List.Forall (fun x => TS.isToolMessage x = false) pre ->
  TS.isToolMessage m = true ->
  JS.GetOpt m "content" = JS.JSString content ->
  TS.runPlannerAgent userQuery nn c =
  (JS.Return (JS.JSString content),
   ((c ++ [JS.console_log (nl +:+ "--- PLANNER ---")]) ++
    snd (JS.agent_invoke (TS.plannerUserMessage userQuery nn)))%list).
Proof.
  intros Hagent Hmsgs Hpre Hm Hcontent.
  unfold TS.runPlannerAgent, JS.jbind, JS.console, JS.writing. rewrite Hagent.
  unfold JS.lift. cbn [JS.Get JS.GetOpt]. rewrite Hmsgs. cbn [JS.or_else JS.truthy].
  unfold TS.extractPlannerToolOutput. cbn [JS.or_else JS.truthy].
  rewrite (find_first _ pre post m eq_refl Hpre Hm), Hcontent. reflexivity.
Qed.

(** The model called the tool twice: the first answer is returned, and
    the lines of the tool follow the banner. *)
Lemma runPlannerAgent_first_tool_witness :
  @TS.runPlannerAgent Scenario3.runtimeCalled "cheap hotel" (float_of_Z 5) [] =
  (JS.Return (JS.JSString "--- HOTEL START ---"),
   [ JS.console_log (nl +:+ "--- PLANNER ---");
     JS.console_log "Found 1 documents from vector store";
     JS.console_log "Hotel: Old Century Hotel, Score: 4.5" ]).
Proof.
  refine (runPlannerAgent_returns_first_tool_message Scenario3.runtimeCalled
            "cheap hotel" (float_of_Z 5) []
            [("messages", JS.JSArray Scenario3.messagesWithTool)]
            [ JS.JSObject [("type", JS.JSString "human");
                           ("content", JS.JSString "Use the tool")];
              JS.JSObject [("type", JS.JSString "ai"); ("content", JS.JSString "")] ]
            [ JS.JSObject [("role", JS.JSString "tool");
                           ("content", JS.JSString "second answer")] ]
            (JS.JSObject [("name", JS.JSString TS.TOOL_NAME);
                          ("content", JS.JSString "--- HOTEL START ---")])
            "--- HOTEL START ---" _ _ _ _ _); try reflexivity.
  repeat constructor.
Defined.

(* ===================================================================== *)
(** * Start-up, the synthesizer and the programs of the Go agent *)
(* ===================================================================== *)

(** ** Integer settings *)

Lemma digits_value_acc (u : Decimal.uint) (acc : positive) :
  strconv.digits_value (NilEmpty.string_of_uint u) (Z.pos acc) =
  Some (Z.pos (Pos.of_uint_acc u acc)).
Proof.
  revert acc. induction u; intros acc; cbn [NilEmpty.string_of_uint Pos.of_uint_acc];
    [reflexivity|..];
    unfold strconv.digits_value; fold strconv.digits_value;
    match goal with
    | |- context [strconv.digit_value ?c] =>
        let v := eval vm_compute in (strconv.digit_value c) in
        change (strconv.digit_value c) with v
    end;
    cbv iota beta; rewrite <- IHu; f_equal; lia.
Qed.

Lemma digits_value_uint (u : Decimal.uint) :
  strconv.digits_value (NilEmpty.string_of_uint u) 0 = Some (Z.of_N (Pos.of_uint u)).
Proof.
  induction u; cbn [NilEmpty.string_of_uint Pos.of_uint]; [reflexivity|..];
    unfold strconv.digits_value; fold strconv.digits_value;
    match goal with
    | |- context [strconv.digit_value ?c] =>
        let v := eval vm_compute in (strconv.digit_value c) in
        change (strconv.digit_value c) with v
    end;
    cbv iota beta; first [exact IHu | apply digits_value_acc].
Qed.

(** The decimal of a positive number starts with a digit. *)
Lemma to_uint_starts_with_digit (p : positive) :
  exists c rest,
    NilZero.string_of_uint (Pos.to_uint p) = String c rest /\
    NilEmpty.string_of_uint (Pos.to_uint p) = String c rest /\
    c <> "+"%char /\ c <> "-"%char.
Proof.
  pose proof (Unsigned.of_to p) as Hp.
  destruct (Pos.to_uint p) as [|u|u|u|u|u|u|u|u|u|u]; [discriminate|..];
    cbn [NilZero.string_of_uint NilEmpty.string_of_uint];
    eexists _, _; (split; [reflexivity|split; [reflexivity|split; discriminate]]).
Qed.

Lemma Atoi_digits (c : ascii) (rest : string) (n : Z) :
  c <> "+"%char -> c <> "-"%char ->
  strconv.digits_value (String c rest) 0 = Some n ->
  strconv.Atoi (String c rest) =
  if (- 2 ^ 63 <=? n) && (n <=? 2 ^ 63 - 1) then Some n else None.
Proof.
  intros Hplus Hminus Hd. unfold strconv.Atoi.
  destruct c as [[] [] [] [] [] [] [] []]; try contradiction;
    cbv beta iota zeta; rewrite Hd; reflexivity.
Qed.

(** [strconv.Atoi] reads back what [%d] prints. *)
Lemma Atoi_Itoa (n : Z) :
  - 2 ^ 63 <= n <= 2 ^ 63 - 1 -> strconv.Atoi (fmt.Itoa n) = Some n.
Proof.
  intros Hrange. unfold fmt.Itoa. destruct n as [|p|p]; [reflexivity|..];
    cbn [Z.to_int NilZero.string_of_int];
    destruct (to_uint_starts_with_digit p) as (c & rest & Hz & He & Hplus & Hminus);
    pose proof (digits_value_uint (Pos.to_uint p)) as Hd;
    rewrite Unsigned.of_to, He in Hd; cbn [Z.of_N] in Hd; rewrite Hz.
  - rewrite (Atoi_digits c rest (Z.pos p) Hplus Hminus Hd).
    destruct (Z.leb_spec (- 2 ^ 63) (Z.pos p)); [|lia].
    destruct (Z.leb_spec (Z.pos p) (2 ^ 63 - 1)); [reflexivity|lia].
  - unfold strconv.Atoi. rewrite Hd. cbv zeta.
    change (- Z.pos p) with (Z.neg p).
    destruct (Z.leb_spec (- 2 ^ 63) (Z.neg p)); [|lia].
    destruct (Z.leb_spec (Z.neg p) (2 ^ 63 - 1)); [reflexivity|lia].
Qed.

Lemma Itoa_not_empty (n : Z) : fmt.Itoa n <> "".
Proof.
  unfold fmt.Itoa. destruct n as [|p|p]; [discriminate|..];
    cbn [Z.to_int NilZero.string_of_int]; [|discriminate].
  destruct (to_uint_starts_with_digit p) as (c & rest & -> & _). discriminate.
Qed.

(** X10. An integer setting of the index or of the agent that holds the
    decimal of a 64-bit integer, as [%d] prints it, is read as that
    integer, whatever the default: zero and negative numbers are taken as
    they are.  A setting that is not set is the default. *)
Theorem envInt_reads_decimal (Hst : Host) (name : string) (default n : Z) :
  (- 2 ^ 63 <= n <= 2 ^ 63 - 1 -> Getenv name = fmt.Itoa n -> envInt name default = n) /\
  (Getenv name = "" -> envInt name default = default).
Proof.
  split.
  - intros Hrange Henv. unfold envInt. rewrite Henv, (Atoi_Itoa n Hrange).
    destruct (String.eqb_spec (fmt.Itoa n) "") as [Hempty|_]; [|reflexivity].
    now apply Itoa_not_empty in Hempty.
  - intros Henv. unfold envInt. now rewrite Henv.
Qed.

(** A neighbour count of zero is read as zero, not as the default. *)
Lemma envInt_reads_decimal_witness :
  @envInt Scenario4.hostZeroNeighbours "NEAREST_NEIGHBORS" 5 = 0.
Proof.
  refine (proj1 (envInt_reads_decimal Scenario4.hostZeroNeighbours "NEAREST_NEIGHBORS" 5 0)
            _ _); [lia|reflexivity].
Defined.

(** ** Creating the clients and connecting *)

Ltac run_proc :=
  unfold pwhen, Printf, Println, log_Printf, log_Fatalf, liftM, emit, newCredential,
    pbind, pret, Print in *;
  cbn [fst snd world events stdout requests collection] in *.

(** X11. [NewOpenAIClients] refuses an empty endpoint before doing
    anything.  Otherwise it builds one client for the endpoint, with the
    API version of the embedding settings (or [2024-06-01]) and no other;
    the client uses a token credential when the passwordless flag is set
    or no API key is given, and the API key only when the flag is off and
    a key is given.  So the error about a missing API key is never
    returned.  A credential is created exactly in the passwordless case,
    and nothing is sent to a service. *)
Theorem NewOpenAIClients_authentication
    (Hst : Host) (config : openai.OpenAIConfig) (p : Process) :
  let r := fst (openai.NewOpenAIClients config p) in
  let p' := snd (openai.NewOpenAIClients config p) in
  let passwordless :=
    openai.UsePasswordless config || String.eqb (openai.APIKey config) "" in
  (openai.Endpoint config = "" ->
   r = Err (Errorf "AZURE_OPENAI_ENDPOINT is required") /\ p' = p) /\
  r <> Err (Errorf "AZURE_OPENAI_API_KEY is required when USE_PASSWORDLESS is not enabled") /\
  (forall c, r = Ok c ->
     openai.Endpoint config <> "" /\
     c = openai.mkOpenAIClients config
           (mkClient (openai.Endpoint config)
              (if String.eqb (openai.EmbeddingAPIVersion config) "" then "2024-06-01"
               else openai.EmbeddingAPIVersion config)
              (if passwordless then WithTokenCredential
               else WithAPIKey (openai.APIKey config)))) /\
  events p' =
    (events p ++
     (if negb (String.eqb (openai.Endpoint config) "") && passwordless
      then [EvCredential] else []))%list /\
  requests (world p') = requests (world p) /\
  collection (world p') = collection (world p).
Proof.
  intros r p' passwordless. subst r p' passwordless. unfold openai.NewOpenAIClients.
  destruct (String.eqb_spec (openai.Endpoint config) "") as [Hend|Hend].
  - cbn [negb andb fst snd pret]. unfold pret. cbn [fst snd]. rewrite app_nil_r.
    repeat split; try discriminate.
  - destruct (openai.UsePasswordless config); cbn [orb negb andb].
    + run_proc.
      destruct (openai.Debug config); cbn [fst snd world events stdout requests collection];
        destruct (NewDefaultAzureCredential (events p));
        cbn [fst snd world events stdout requests collection];
        (split; [intros Hempty; contradiction|]);
        (split; [unfold Errorf; rewrite ?append_cons; discriminate|]);
        (split; [intros c Hc; first [discriminate Hc | injection Hc as <-; auto]|]);
        auto.
    + destruct (String.eqb_spec (openai.APIKey config) "") as [Hkey|Hkey]; run_proc.
      * destruct (openai.Debug config); cbn [fst snd world events stdout requests collection];
          destruct (NewDefaultAzureCredential (events p));
          cbn [fst snd world events stdout requests collection];
          (split; [intros Hempty; contradiction|]);
          (split; [unfold Errorf; rewrite ?append_cons; discriminate|]);
          (split; [intros c Hc; first [discriminate Hc | injection Hc as <-; auto]|]);
          auto.
      * destruct (openai.Debug config); cbn [fst snd world events stdout requests collection];
          rewrite ?app_nil_r;
          (split; [intros Hempty; contradiction|]);
          (split; [discriminate|]);
          (split; [intros c Hc; injection Hc as <-; auto|]);
          auto.
Qed.

(** With the passwordless flag set a credential is created, although a
    key is given. *)
Lemma NewOpenAIClients_authentication_witness :
  events (snd (@openai.NewOpenAIClients Scenario5.hostPasswordless
                 (@openai.LoadConfigFromEnv Scenario5.hostPasswordless) Scenario4.p0)) =
  [EvCredential].
Proof.
  exact (proj1 (proj2 (proj2 (proj2 (NewOpenAIClients_authentication Scenario5.hostPasswordless
           (@openai.LoadConfigFromEnv Scenario5.hostPasswordless) Scenario4.p0))))).
Defined.

(** X12. [NewVectorStore] authenticates with OIDC when the passwordless
    flag is set, or when there is no connection string but a cluster
    name.  It finds a missing cluster name or connection string before it
    contacts anything.  When it succeeds it has connected one client, to
    the cluster's address or to the connection string, and pinged it.  It
    never disconnects: after a ping that failed the client stays
    connected. *)
Theorem NewVectorStore_connection
    (Hst : Host) (config : store.VectorStoreConfig) (p : Process) :
  let r := fst (store.NewVectorStore config p) in
  let p' := snd (store.NewVectorStore config p) in
  let passwordless :=
    store.UsePasswordless config ||
    (String.eqb (store.ConnectionString config) "" &&
     negb (String.eqb (store.ClusterName config) "")) in
  let client :=
    if passwordless
    then mkMongoClient ("mongodb+srv://" +:+ store.ClusterName config +:+
                        ".global.mongocluster.cosmos.azure.com/") true
    else mkMongoClient (store.ConnectionString config) false in
  (store.UsePasswordless config = true -> store.ClusterName config = "" ->
   r = Err (Errorf "AZURE_DOCUMENTDB_CLUSTER is required for passwordless authentication") /\
   events p' = events p) /\
  (store.UsePasswordless config = false -> store.ConnectionString config = "" ->
   store.ClusterName config = "" ->
   r = Err (Errorf
     "AZURE_DOCUMENTDB_CONNECTION_STRING is required when USE_PASSWORDLESS is not enabled") /\
   events p' = events p) /\
  (forall vs, r = Ok vs ->
     vs = store.mkVectorStore config client /\
     events p' =
       (events p ++ (if passwordless then [EvCredential] else []) ++
        [EvConnect client; EvPing])%list) /\
  (exists tail,
      events p' = (events p ++ tail)%list /\
      ~ In EvDisconnect tail /\
      (forall err, In EvPing tail -> client_Ping client = Some err ->
         r = Err (Errorf ("failed to ping MongoDB: " +:+ Error err)) /\
         In (EvConnect client) tail)) /\
  requests (world p') = requests (world p) /\
  collection (world p') = collection (world p).
Proof.
  intros r p' passwordless client. subst r p' passwordless client.
  unfold store.NewVectorStore, store.connectWithOIDC, store.connect.
  destruct (store.UsePasswordless config) eqn:Hflag; cbn [orb];
    destruct (String.eqb_spec (store.ClusterName config) "") as [Hcluster|Hcluster];
    destruct (String.eqb_spec (store.ConnectionString config) "") as [Hconn|Hconn];
    cbn [andb negb]; run_proc;
    destruct (store.Debug config); cbn [fst snd world events stdout requests collection];
    try destruct (NewDefaultAzureCredential (events p));
    cbn [fst snd world events stdout requests collection];
    try destruct (mongo_Connect _);
    cbn [fst snd world events stdout requests collection];
    try destruct (client_Ping _) eqn:Hping;
    cbn [fst snd world events stdout requests collection];
    rewrite <- ?app_assoc; cbn [app];
    (split; [intros Hf Hc; first [discriminate Hf | contradiction | split; reflexivity]|]);
    (split; [intros Hf Hs Hc;
             first [discriminate Hf | contradiction | split; reflexivity]|]);
    (split; [intros vs Hvs;
             first [discriminate Hvs | injection Hvs as <-; split; reflexivity]|]);
    (split; [|split; reflexivity]);
    match goal with
    | |- exists tail, ?l = (?l ++ tail)%list /\ _ => exists []; rewrite app_nil_r
    | |- exists tail, (?l ++ ?t)%list = (?l ++ tail)%list /\ _ => exists t
    end;
    (split; [reflexivity|]);
    (split; [cbn [In]; intuition discriminate|]);
    intros err' Hin Herr';
    first [ discriminate Herr'
          | injection Herr' as <-; split; [reflexivity|cbn [In]; auto]
          | exfalso; cbn [In] in Hin; intuition discriminate ].
Qed.

(** The ping fails: the error is returned and the client stays connected. *)
Lemma NewVectorStore_connection_witness :
  fst (@store.NewVectorStore Scenario5.hostPingFails
         (@store.LoadConfigFromEnv Scenario5.hostPingFails) Scenario4.p0) =
  Err (Errorf "failed to ping MongoDB: context deadline exceeded").
Proof.
  destruct (proj1 (proj2 (proj2 (proj2 (NewVectorStore_connection Scenario5.hostPingFails
              (@store.LoadConfigFromEnv Scenario5.hostPingFails) Scenario4.p0)))))
    as [tail [Htail [_ Hping]]].
  refine (proj1 (Hping (errorString "context deadline exceeded") _ eq_refl)).
  vm_compute in Htail. rewrite <- Htail. cbn [In]. auto.
Defined.
(** ** The vector index *)

(** X13. [CreateVectorIndex] runs no command for an algorithm other than
    [vector-ivf], [vector-hnsw] and [vector-diskann]: it returns the error
    that names the algorithm and changes nothing.  For one of the three
    it runs exactly one command, on the collection, the index name and
    the embedded field of the store, whose options carry the algorithm as
    kind, the dimensions, the similarity as it is set (unchecked, [COS]
    when unset) and the parameters of the algorithm, each with its default
    when unset or unreadable; its result is that of the command. *)
Theorem CreateVectorIndex_command (Hst : Host) (vs : store.VectorStore) (p : Process) :
  let algorithm :=
    if String.eqb (Getenv "VECTOR_INDEX_ALGORITHM") "" then "vector-ivf"
    else Getenv "VECTOR_INDEX_ALGORITHM" in
  let similarity :=
    if String.eqb (Getenv "VECTOR_SIMILARITY") "" then "COS" else Getenv "VECTOR_SIMILARITY" in
  let out := store.CreateVectorIndex vs p in
  (algorithm <> "vector-ivf" -> algorithm <> "vector-hnsw" -> algorithm <> "vector-diskann" ->
   out = (Some (Errorf ("unsupported vector index algorithm: " +:+ algorithm)), p)) /\
  (algorithm = "vector-ivf" \/ algorithm = "vector-hnsw" \/ algorithm = "vector-diskann" ->
   exists options,
     let command :=
       mkIndexCommand (store.CollectionName (store.config vs)) (store.IndexName (store.config vs))
         (store.EmbeddedField (store.config vs)) options in
     events (snd out) = (events p ++ [EvRunCommand command])%list /\
     In ("kind", BsonString algorithm) options /\
     In ("dimensions", BsonInt (envInt "EMBEDDING_DIMENSIONS" 1536)) options /\
     In ("similarity", BsonString similarity) options /\
     (algorithm = "vector-ivf" ->
      In ("numLists", BsonInt (envInt "IVF_NUM_LISTS" 10)) options) /\
     (algorithm = "vector-hnsw" ->
      In ("m", BsonInt (envInt "HNSW_M" 16)) options /\
      In ("efConstruction", BsonInt (envInt "HNSW_EF_CONSTRUCTION" 64)) options) /\
     (algorithm = "vector-diskann" ->
      In ("maxDegree", BsonInt (envInt "DISKANN_MAX_DEGREE" 20)) options /\
      In ("lBuild", BsonInt (envInt "DISKANN_L_BUILD" 10)) options) /\
     fst out =
       match database_RunCommand command with
       | Some err => Some (Errorf ("failed to create vector index: " +:+ Error err))
       | None => None
       end) /\
  requests (world (snd out)) = requests (world p) /\
  collection (world (snd out)) = collection (world p).
Proof.
  intros algorithm similarity out. subst out. unfold store.CreateVectorIndex.
  fold algorithm. fold similarity. clearbody similarity.
  destruct (String.eqb_spec algorithm "vector-ivf") as [Hivf|Hivf];
    [|destruct (String.eqb_spec algorithm "vector-hnsw") as [Hhnsw|Hhnsw];
      [|destruct (String.eqb_spec algorithm "vector-diskann") as [Hdisk|Hdisk]]].
  4: { split; [reflexivity|]. split; [|split; reflexivity].
       intros [Ha|[Ha|Ha]]; contradiction. }
  all: (split; [intros; contradiction|]);
    (split; [intros _|run_proc;
             destruct (database_RunCommand _); [|destruct (store.Debug _)]; split; reflexivity]);
    eexists; cbv zeta; run_proc;
    (split; [destruct (database_RunCommand _); [|destruct (store.Debug _)]; reflexivity|]);
    (split; [first [rewrite Hivf | rewrite Hhnsw | rewrite Hdisk]; cbn [In]; tauto|]);
    (split; [cbn [In]; tauto|]);
    (split; [cbn [In]; tauto|]);
    (split; [intros Ha; first [cbn [In]; tauto
                              | exfalso; congruence]|]);
    (split; [intros Ha; first [split; cbn [In]; tauto
                              | exfalso; congruence]|]);
    (split; [intros Ha; first [split; cbn [In]; tauto
                              | exfalso; congruence]|]);
    destruct (database_RunCommand _); [|destruct (store.Debug _)]; reflexivity.
Qed.

(** An HNSW index whose dimension setting has a trailing blank gets the
    default dimension. *)
Lemma CreateVectorIndex_command_witness :
  exists options,
    events (snd (@store.CreateVectorIndex Scenario5.hostHnsw Scenario5.storeWithKeys
                   Scenario4.p0)) =
      [EvRunCommand (mkIndexCommand "hotels" "vectorIndex" "DescriptionVector" options)] /\
    In ("dimensions", BsonInt 1536) options /\
    In ("m", BsonInt 32) options.
Proof.
  destruct (proj1 (proj2 (CreateVectorIndex_command Scenario5.hostHnsw Scenario5.storeWithKeys
              Scenario4.p0)) (or_intror (or_introl eq_refl)))
    as (options & Hev & _ & Hdim & _ & _ & Hm & _).
  exists options. split; [exact Hev|]. split; [exact Hdim|]. exact (proj1 (Hm eq_refl)).
Defined.

(** ** The synthesizer *)

(** X14. The synthesizer sends exactly one chat completion request: to
    the synthesizer deployment, without tools, with the synthesizer
    prompt and a user message that holds the query and the hotel context
    as they are.  It returns the content of the first choice of the reply
    unchanged, whatever its finish reason, and the error of a failed call
    or of a reply without choices wrapped; a nil reply without an error
    makes it panic.  It leaves the collection alone. *)
Theorem Synthesizer_Run_single_call
    (S : Services) (Hst : Host) (a : synthesizer.SynthesizerAgent)
    (userQuery hotelContext : string) (w : World) :
  let model := clients.SynthDeployment (clients.config (synthesizer.openAIClients a)) in
  let prompt := synthesizer.CreateSynthesizerUserPrompt userQuery hotelContext in
  let out := synthesizer.Run a userQuery hotelContext w in
  requests (snd out) =
    (requests w ++ [ReqChatCompletion model SynthesizerSystemPrompt prompt []])%list /\
  collection (snd out) = collection w /\
  strings.Contains prompt userQuery = true /\
  strings.Contains prompt hotelContext = true /\
  (forall c0 rest,
      Completions_New model SynthesizerSystemPrompt prompt =
        (Some (mkChatCompletion (c0 :: rest)), None) ->
      fst out = Returns (Ok (Content (Message_ c0)))) /\
  (forall resp err,
      Completions_New model SynthesizerSystemPrompt prompt = (resp, Some err) ->
      fst out =
      Returns (Err (Errorf ("synthesizer failed: " +:+ "synthesizer chat completion failed: " +:+
                            Error err)))) /\
  (Completions_New model SynthesizerSystemPrompt prompt = (Some (mkChatCompletion []), None) ->
   fst out = Returns (Err (Errorf ("synthesizer failed: " +:+ "no completion choices returned")))) /\
  (Completions_New model SynthesizerSystemPrompt prompt = (None, None) ->
   exists msg, fst out = Panics msg).
Proof.
  intros model prompt out. subst out.
  unfold synthesizer.Run, openai.ChatCompletion. fold prompt. fold model. run_monad.
  split; [|split; [|split; [|split]]].
  - destruct (Completions_New _ _ _) as [[resp|] [err|]]; try reflexivity.
    destruct (Choices resp) as [|c0 rest]; [reflexivity|].
    destruct (clients.Debug _); reflexivity.
  - destruct (Completions_New _ _ _) as [[resp|] [err|]]; try reflexivity.
    destruct (Choices resp) as [|c0 rest]; [reflexivity|].
    destruct (clients.Debug _); reflexivity.
  - apply Contains_spec. subst prompt. unfold synthesizer.CreateSynthesizerUserPrompt.
    eexists "User asked: ", _. reflexivity.
  - apply Contains_spec. subst prompt. unfold synthesizer.CreateSynthesizerUserPrompt.
    exists ("User asked: " +:+ userQuery +:+ nl +:+ nl +:+ "Tool summary:" +:+ nl). eexists.
    rewrite !append_assoc. reflexivity.
  - split; [|split; [|split]].
    + intros c0 rest ->. cbn [Choices]. destruct (clients.Debug _); reflexivity.
    + intros resp err ->. destruct resp; reflexivity.
    + intros ->. reflexivity.
    + intros ->. eexists. reflexivity.
Qed.

(** A reply that was cut off by the length limit is returned as the
    answer. *)
Lemma Synthesizer_Run_witness :
  fst (@synthesizer.Run Scenario5.synthServices Scenario4.hostWithKeys Scenario5.synthAgent
         "cheap hotel" "--- HOTEL START ---" Scenario.w0) =
  Returns (Ok "1. COMPARISON SUMMARY: Old Century").
Proof.
  exact (proj1 (proj2 (proj2 (proj2 (proj2 (Synthesizer_Run_single_call Scenario5.synthServices
           Scenario4.hostWithKeys Scenario5.synthAgent "cheap hotel" "--- HOTEL START ---"
           Scenario.w0)))))
         (mkChoice "length" (mkChatCompletionMessage "1. COMPARISON SUMMARY: Old Century" []))
         [] eq_refl).
Defined.
(** ** The programs *)

Section go_programs.
Context `{Services} `{Host}.



(** Creating the clients sends nothing and closes nothing. *)
Lemma NewOpenAIClients_frame (config : openai.OpenAIConfig) (p : Process) :
  requests (world (snd (openai.NewOpenAIClients config p))) = requests (world p) /\
  collection (world (snd (openai.NewOpenAIClients config p))) = collection (world p) /\
  (exists tail,
      events (snd (openai.NewOpenAIClients config p)) = (events p ++ tail)%list /\
      ~ In EvDisconnect tail) /\
  (forall c, fst (openai.NewOpenAIClients config p) = Ok c -> openai.config c = config).
Proof.
  unfold openai.NewOpenAIClients.
  destruct (String.eqb (openai.Endpoint config) "");
    [|destruct (openai.UsePasswordless config || String.eqb (openai.APIKey config) "");
      [|destruct (String.eqb (openai.APIKey config) "")]];
    run_proc;
    destruct (openai.Debug config); cbn [fst snd world events stdout requests collection];
    try destruct (NewDefaultAzureCredential (events p));
    cbn [fst snd world events stdout requests collection];
    (split; [reflexivity|]); (split; [reflexivity|]);
    (split; [|intros c Hc; first [discriminate Hc | injection Hc as <-; reflexivity]]);
    match goal with
    | |- exists tail, ?l = (?l ++ tail)%list /\ _ => exists []; rewrite app_nil_r
    | |- exists tail, (?l ++ ?t)%list = (?l ++ tail)%list /\ _ => exists t
    end;
    (split; [reflexivity|cbn [In]; intuition discriminate]).
Qed.

(** Connecting sends nothing and closes nothing; a store was pinged. *)
Lemma NewVectorStore_frame (config : store.VectorStoreConfig) (p : Process) :
  requests (world (snd (store.NewVectorStore config p))) = requests (world p) /\
  collection (world (snd (store.NewVectorStore config p))) = collection (world p) /\
  (exists tail,
      events (snd (store.NewVectorStore config p)) = (events p ++ tail)%list /\
      ~ In EvDisconnect tail /\
      (forall e, In e tail -> e = EvCredential \/ (exists c, e = EvConnect c) \/ e = EvPing) /\
      (forall vs, fst (store.NewVectorStore config p) = Ok vs -> In EvPing tail)) /\
  (forall vs, fst (store.NewVectorStore config p) = Ok vs -> store.config vs = config).
Proof.
  unfold store.NewVectorStore, store.connectWithOIDC, store.connect.
  destruct (store.UsePasswordless config ||
            String.eqb (store.ConnectionString config) "" &&
            negb (String.eqb (store.ClusterName config) ""));
    destruct (String.eqb (store.ClusterName config) "");
    destruct (String.eqb (store.ConnectionString config) "");
    run_proc;
    destruct (store.Debug config); cbn [fst snd world events stdout requests collection];
    try destruct (NewDefaultAzureCredential (events p));
    cbn [fst snd world events stdout requests collection];
    try destruct (mongo_Connect _);
    cbn [fst snd world events stdout requests collection];
    try destruct (client_Ping _);
    cbn [fst snd world events stdout requests collection];
    rewrite <- ?app_assoc; cbn [app];
    (split; [reflexivity|]); (split; [reflexivity|]);
    (split; [|intros vs Hvs; first [discriminate Hvs | injection Hvs as <-; reflexivity]]);
    match goal with
    | |- exists tail, ?l = (?l ++ tail)%list /\ _ => exists []; rewrite app_nil_r
    | |- exists tail, (?l ++ ?t)%list = (?l ++ tail)%list /\ _ => exists t
    end;
    (split; [reflexivity|]);
    (split; [cbn [In]; intuition discriminate|]);
    (split; [cbn [In]; intros ev0 Hev0; intuition eauto|]);
    intros vs Hvs; first [discriminate Hvs | cbn [In]; auto].
Qed.

End go_programs.
Section go_agent_main.
Context `{Services} `{Host}.

(** The runs of the agent program, exit by exit. *)
Lemma agent_main_cases (p : Process) :
  let openaiConfig := openai.LoadConfigFromEnv in
  let vsConfig := store.LoadConfigFromEnv in
  let debug := openai.Debug openaiConfig in
  let query :=
    if String.eqb (Getenv "QUERY") ""
    then "quintessential lodging near running trails, eateries, retail"
    else Getenv "QUERY" in
  let k := envInt "NEAREST_NEIGHBORS" 5 in
  exists p1,
    requests (world p1) = requests (world p) /\
    collection (world p1) = collection (world p) /\
    (exists l, events p1 = (events p ++ l)%list /\ ~ In EvDisconnect l) /\
    ((exists err p2,
         openai.NewOpenAIClients openaiConfig p1 = (Err err, p2) /\
         cmd_agent.main p =
         (1, mkProcess (world p2)
               (events p2 ++ [EvLog ("Failed to create OpenAI clients: " +:+ Error err)])%list)) \/
     (exists c p2,
         openai.NewOpenAIClients openaiConfig p1 = (Ok c, p2) /\
         ((exists err p3,
              store.NewVectorStore vsConfig p2 = (Err err, p3) /\
              cmd_agent.main p =
              (1, mkProcess (world p3)
                    (events p3 ++
                     [EvLog ("Failed to connect to vector store: " +:+ Error err)])%list)) \/
          (exists vs p3,
              store.NewVectorStore vsConfig p2 = (Ok vs, p3) /\
              let planner :=
                agents.mkPlannerAgent (openai.handle c)
                  (agents.mkVectorSearchTool (openai.handle c) (store.handle vs) debug) debug in
              let synth := synthesizer.mkSynthesizerAgent (openai.handle c) debug in
              let w4 :=
                mkWorld
                  ((stdout (world p3) ++ [nl +:+ "Query: " +:+ query +:+ nl]) ++
                   ["Nearest Neighbors: " +:+ fmt.Itoa k +:+ nl])%list
                  (requests (world p3)) (collection (world p3)) in
              ((exists err w5,
                   agents.Run planner query k w4 = (Err err, w5) /\
                   cmd_agent.main p =
                   (1, mkProcess w5
                         (events p3 ++ [EvLog ("Planner agent failed: " +:+ Error err)])%list)) \/
               (exists ctx w5,
                   agents.Run planner query k w4 = (Ok ctx, w5) /\
                   exists w6,
                     requests w6 = requests w5 /\ collection w6 = collection w5 /\
                     ((exists msg w7,
                          synthesizer.Run synth query ctx w6 = (Panics msg, w7) /\
                          cmd_agent.main p =
                          (2, mkProcess w7 (events p3 ++ [EvDisconnect])%list)) \/
                      (exists err w7,
                          synthesizer.Run synth query ctx w6 = (Returns (Err err), w7) /\
                          cmd_agent.main p =
                          (1, mkProcess w7
                                (events p3 ++
                                 [EvLog ("Synthesizer agent failed: " +:+ Error err)])%list)) \/
                      (exists answer w7,
                          synthesizer.Run synth query ctx w6 = (Returns (Ok answer), w7) /\
                          cmd_agent.main p =
                          (0, mkProcess
                                (mkWorld
                                   ((stdout w7 ++ [(nl +:+ "--- FINAL ANSWER ---") +:+ nl]) ++
                                    [answer +:+ nl])%list
                                   (requests w7) (collection w7))
                                (events p3 ++ [EvDisconnect])%list))))))))).
Proof.
  cbv zeta. unfold cmd_agent.main, store.Close. cbv zeta.
  generalize (openai.Debug openai.LoadConfigFromEnv) as debug. intros debug.
  unfold pwhen, Printf, Println, log_Printf, log_Fatalf, emit, pbind, pret.
  assert (Hstart : exists p1,
    (let '(_, p') := match godotenv_Load with
                     | Some err => fun p0 : Process =>
                         (tt, mkProcess (world p0)
                                (events p0 ++
                                 [EvLog ("Warning: .env file not found: " +:+ Error err)])%list)
                     | None => fun p0 : Process => (tt, p0)
                     end p in
     let '(_, p'0) := (if debug then liftM (Print ("DEBUG mode is ON" +:+ nl))
                       else fun p0 : Process => (tt, p0)) p' in p'0) = p1 /\
    requests (world p1) = requests (world p) /\
    collection (world p1) = collection (world p) /\
    (exists l, events p1 = (events p ++ l)%list /\ ~ In EvDisconnect l)).
  { eexists. split; [reflexivity|].
    destruct godotenv_Load; destruct debug; unfold liftM, Print;
      cbn [fst snd world events stdout requests collection];
      (split; [reflexivity|]); (split; [reflexivity|]).
    1,2: eexists; split; [reflexivity|cbn [In]; intuition discriminate].
    1,2: exists []; rewrite app_nil_r; split; [reflexivity|cbn [In]; tauto]. }
  destruct Hstart as (p1 & Hp1 & Hreq1 & Hcoll1 & Hev1).
  exists p1. split; [exact Hreq1|]. split; [exact Hcoll1|]. split; [exact Hev1|].
  clear Hreq1 Hcoll1 Hev1.
  destruct godotenv_Load; destruct debug; unfold liftM, Print in *;
    cbn [fst snd world events stdout requests collection] in *; subst p1;
    (destruct (openai.NewOpenAIClients _ _) as [[c|err] p2]; [right|left; eauto]);
    exists c, p2; (split; [reflexivity|]);
    (destruct (store.NewVectorStore _ p2) as [[vs|err] p3]; [right|left; eauto]);
    exists vs, p3; (split; [reflexivity|]);
    cbn [fst snd world events stdout requests collection];
    (destruct (agents.Run _ _ _ _) as [[ctx|err] w5]; [right|left; eauto]);
    exists ctx, w5; (split; [reflexivity|]);
    cbn [fst snd world events stdout requests collection];
    match goal with |- context [synthesizer.Run _ _ ctx ?w] => exists w end;
    (split; [reflexivity|]); (split; [reflexivity|]);
    (destruct (synthesizer.Run _ _ ctx _) as [[[answer|err]|msg] w7];
     [right; right|right; left|left]);
    eexists _, _; (split; reflexivity).
Qed.

End go_agent_main.
(** X15. The agent program ends with status 0, 1 or 2, and its last act
    tells which.  With status 0 it has connected and pinged the store,
    printed the final answer as its last two lines and then closed the
    connection.  With status 1 its last act is the fatal log line: the
    connection is never closed on a failure, also when the store was
    connected.  With status 2, after a panic of the synthesizer call, the
    connection is closed.  The connection is closed at most once and
    only as the last act. *)
Theorem agent_main_exit_status (S : Services) (Hst : Host) (p : Process) :
  let code := fst (cmd_agent.main p) in
  let p' := snd (cmd_agent.main p) in
  exists evs last,
    events p' = (events p ++ evs ++ [last])%list /\
    ~ In EvDisconnect evs /\
    ((code = 0 /\ last = EvDisconnect /\ In EvPing evs /\
      exists out answer,
        stdout (world p') =
        (out ++ [(nl +:+ "--- FINAL ANSWER ---") +:+ nl; answer +:+ nl])%list) \/
     (code = 1 /\ exists msg, last = EvLog msg) \/
     (code = 2 /\ last = EvDisconnect /\ In EvPing evs)).
Proof.
  intros code p'. subst code p'.
  destruct (agent_main_cases p) as (p1 & _ & _ & (l0 & Hev0 & Hno0) & Hcases).
  cbv zeta in Hcases.
  destruct Hcases as [(err & p2 & Hopen & ->)|(c & p2 & Hopen & Hcases)];
    pose proof (NewOpenAIClients_frame openai.LoadConfigFromEnv p1)
      as (_ & _ & (l1 & Hev1 & Hno1) & _);
    rewrite Hopen in Hev1; cbn [fst snd] in Hev1.
  { exists (l0 ++ l1)%list. eexists. cbn [fst snd events world].
    split; [rewrite Hev1, Hev0, <- !app_assoc; reflexivity|].
    split; [rewrite in_app_iff; tauto|]. right. left. eauto. }
  destruct Hcases as [(err & p3 & Hstore & ->)|(vs & p3 & Hstore & Hcases)];
    pose proof (NewVectorStore_frame store.LoadConfigFromEnv p2)
      as (_ & _ & (l2 & Hev2 & Hno2 & _ & Hping) & _);
    rewrite Hstore in Hev2, Hping; cbn [fst snd] in Hev2, Hping.
  { exists (l0 ++ l1 ++ l2)%list. eexists. cbn [fst snd events world].
    split; [rewrite Hev2, Hev1, Hev0, <- !app_assoc; reflexivity|].
    split; [rewrite !in_app_iff; tauto|]. right. left. eauto. }
  specialize (Hping vs eq_refl).
  assert (Hevs : forall last0,
            (events p3 ++ [last0])%list = (events p ++ (l0 ++ l1 ++ l2) ++ [last0])%list)
    by (intros last0; rewrite Hev2, Hev1, Hev0, <- !app_assoc; reflexivity).
  assert (Hno : ~ In EvDisconnect (l0 ++ l1 ++ l2)%list) by (rewrite !in_app_iff; tauto).
  assert (Hpinged : In EvPing (l0 ++ l1 ++ l2)%list) by (rewrite !in_app_iff; tauto).
  destruct Hcases as [(err & w5 & _ & ->)|(ctx & w5 & _ & w6 & _ & _ & Hcases)].
  { exists (l0 ++ l1 ++ l2)%list. eexists. cbn [fst snd events world].
    split; [apply Hevs|]. split; [exact Hno|]. right. left. eauto. }
  destruct Hcases as [(msg & w7 & _ & ->)|[(err & w7 & _ & ->)|(answer & w7 & _ & ->)]];
    exists (l0 ++ l1 ++ l2)%list; eexists; cbn [fst snd events world stdout];
    (split; [apply Hevs|]); (split; [exact Hno|]).
  - right. right. auto.
  - right. left. eauto.
  - left. split; [reflexivity|]. split; [reflexivity|]. split; [exact Hpinged|].
    exists (stdout w7), answer. rewrite <- app_assoc. reflexivity.
Qed.

(** X17. The clean-up program drops the database at most once, and only
    after it has connected and pinged the store: before the drop it has
    only logged, created a credential, connected and pinged.  When the
    drop succeeds the collection is what the store made of it, the
    program closes the connection and ends with status 0; when the drop
    fails it ends with status 1 on the fatal log line, which carries the
    store's error, without closing the connection.  When it cannot
    connect it drops nothing and ends with status 1. *)
Theorem cleanup_main_drops_once (Hst : Host) (p : Process) :
  let code := fst (cmd_cleanup.main p) in
  let p' := snd (cmd_cleanup.main p) in
  requests (world p') = requests (world p) /\
  exists pre dropped last,
    events p' = (events p ++ pre ++ dropped ++ [last])%list /\
    (forall e, In e pre ->
       (exists msg, e = EvLog msg) \/ e = EvCredential \/ (exists c, e = EvConnect c) \/
       e = EvPing) /\
    ((dropped = [] /\ code = 1 /\ (exists msg, last = EvLog msg) /\
      collection (world p') = collection (world p)) \/
     (dropped = [EvDrop (Getenv "AZURE_DOCUMENTDB_DATABASENAME")] /\ In EvPing pre /\
      exists coll' err,
        database_Drop (collection (world p)) = (coll', err) /\
        collection (world p') = coll' /\
        ((err = None /\ code = 0 /\ last = EvDisconnect) \/
         (exists e, err = Some e /\ code = 1 /\
            last = EvLog ("Failed to delete database: " +:+ "failed to drop database: " +:+
                          Error e))))).
Proof.
  intros code p'. subst code p'. unfold cmd_cleanup.main, store.DeleteDatabase, store.Close.
  cbv zeta. unfold pwhen, Printf, Println, log_Printf, log_Fatalf, emit, pbind, pret, liftM, Print.
  destruct godotenv_Load as [e0|]; cbn [fst snd world events stdout requests collection];
    match goal with
    | |- context [store.NewVectorStore ?c ?q] =>
        pose proof (NewVectorStore_frame c q)
          as (Hreq2 & Hcoll2 & (l2 & Hev2 & _ & Hkinds & Hping) & Hconfig);
        destruct (store.NewVectorStore c q) as [[vs|err] p3]
    end;
    cbn [fst snd world events stdout requests collection] in *;
    try (specialize (Hping vs eq_refl); rewrite (Hconfig vs eq_refl));
    try (destruct (database_Drop (collection (world p3))) as [coll' [err|]] eqn:Hdrop;
         try destruct (store.Debug store.LoadConfigFromEnv));
    cbn [fst snd world events stdout requests collection] in *;
    (split; [congruence|]);
    match type of Hev2 with
    | _ = ((events p ++ ?l0) ++ ?l1)%list => exists (l0 ++ l1)%list
    | _ = (events p ++ ?l1)%list => exists l1
    end;
    match goal with
    | |- exists dropped last0, ((_ ++ [?d]) ++ [?l])%list = _ /\ _ => exists [d], l
    | |- exists dropped last0, (_ ++ [?l])%list = _ /\ _ => exists [], l
    end;
    (split; [rewrite Hev2, <- ?app_assoc; reflexivity|]);
    (split;
     [intros ev0 Hev0; rewrite ?in_app_iff in Hev0; cbn [In] in Hev0;
      first [ destruct Hev0 as [[<-|[]]|Hev0]; [left; eauto|right; apply Hkinds, Hev0]
            | right; apply Hkinds, Hev0 ]|]);
    first [ left; split; [reflexivity|]; split; [reflexivity|]; split; [eauto|congruence]
          | right; split; [reflexivity|]; split; [rewrite ?in_app_iff; auto|];
            rewrite Hcoll2 in Hdrop; rewrite Hdrop; eexists _, _; split; [reflexivity|];
            split; [reflexivity|];
            first [ left; repeat split; reflexivity
                  | right; eexists; repeat split; reflexivity ] ].
Qed.

(* ===================================================================== *)
(** * The TypeScript documents and clean-up *)
(* ===================================================================== *)

Section ts_documents.
Import JS.
Context `{Runtime}.

Lemma lookup_filter (props : list (string * Value)) (key : string) :
  lookup_prop (List.filter (fun kv => negb (TSops.excluded (fst kv))) props) key =
  if TSops.excluded key then JSUndefined else lookup_prop props key.
Proof.
  induction props as [|[k v] props IH]; cbn [List.filter lookup_prop fst].
  - now destruct (TSops.excluded key).
  - destruct (TSops.excluded k) eqn:Hk; cbn [negb lookup_prop].
    + destruct (String.eqb_spec k key) as [->|_]; [now rewrite IH, Hk|exact IH].
    + destruct (String.eqb_spec k key) as [->|_]; [now rewrite Hk|exact IH].
Qed.

Lemma mapC_Return {A B} (f : A -> Completion B) (l : list A) (ys : list B) :
  JS.mapC f l = Return ys -> Forall2 (fun x y => f x = Return y) l ys.
Proof.
  revert ys. induction l as [|x l IH]; intros ys; cbn [JS.mapC].
  - intros [= <-]. constructor.
  - destruct (f x) as [y|e] eqn:Hx; [|discriminate].
    destruct (JS.mapC f l) as [ys'|e]; [|discriminate].
    intros [= <-]. constructor; auto.
Qed.

Lemma mapC_Throw {A B} (f : A -> Completion B) (l : list A) (bad : A) :
  In bad l -> (exists e, f bad = Throw e) -> exists e, JS.mapC f l = Throw e.
Proof.
  intros Hin [e He]. induction l as [|x l IH]; [contradiction|]. cbn [JS.mapC].
  destruct (f x) as [y|e'] eqn:Hx; [|eauto].
  destruct Hin as [->|Hin]; [congruence|].
  destruct (IH Hin) as [e'' ->]. eauto.
Qed.

End ts_documents.

(** X18. A document that [getStore] builds from a hotel carries as
    metadata the hotel's properties without [Description_fr], [Location]
    and [Rooms]: these three read as undefined, every other property
    reads as in the hotel.  Its identifier is the text of the hotel's
    [HotelId], and its content is made of the name and the description. *)
Theorem toDocument_metadata
    (R : JS.Runtime) (props : list (string * JS.Value)) (doc : TSops.Document) :
  TSops.toDocument (JS.JSObject props) = JS.Return doc ->
  exists md name description,
    TSops.doc_metadata doc = JS.JSObject md /\
    (forall key,
        JS.lookup_prop md key =
        if TSops.excluded key then JS.JSUndefined else JS.lookup_prop props key) /\
    TSops.toString_method (JS.lookup_prop props "HotelId") = JS.Return (TSops.id doc) /\
    JS.ToString (JS.lookup_prop props "HotelName") = JS.Return name /\
    JS.ToString (JS.lookup_prop props "Description") = JS.Return description /\
    TSops.pageContent doc = "Hotel: " +:+ name +:+ nl +:+ nl +:+ description.
Proof.
  unfold TSops.toDocument, JS.cbind.
  destruct (JS.ToString (JS.lookup_prop props "HotelName")) as [name|e]; [|discriminate].
  destruct (JS.ToString (JS.lookup_prop props "Description")) as [description|e];
    [|discriminate].
  destruct (TSops.toString_method (JS.lookup_prop props "HotelId")) as [hotelId|e];
    [|discriminate].
  intros [= <-]. cbn [TSops.doc_metadata TSops.id TSops.pageContent].
  eexists _, name, description. split; [reflexivity|].
  split; [apply lookup_filter|]. repeat split.
Qed.

(** The French description, the location and the rooms are left out. *)
Lemma toDocument_metadata_witness :
  exists md,
    JS.lookup_prop md "Rooms" = JS.JSUndefined /\
    JS.lookup_prop md "Rating" = JS.JSNumber (S754_finite false 9 (-2)).
Proof.
  destruct (toDocument_metadata Scenario.runtime0
              [("HotelId", JS.JSString "1");
               ("HotelName", JS.JSString "Stay-Kay City Hotel");
               ("Description", JS.JSString "Ideally located.");
               ("Description_fr", JS.JSString "Situation ideale.");
               ("Rating", JS.JSNumber (S754_finite false 9 (-2)));
               ("Location", JS.JSObject [("type", JS.JSString "Point")]);
               ("Rooms", JS.JSArray [])]
              (TSops.mkDocument
                 ("Hotel: " +:+ "Stay-Kay City Hotel" +:+ nl +:+ nl +:+ "Ideally located.")
                 (JS.JSObject [("HotelId", JS.JSString "1");
                               ("HotelName", JS.JSString "Stay-Kay City Hotel");
                               ("Description", JS.JSString "Ideally located.");
                               ("Rating", JS.JSNumber (S754_finite false 9 (-2)))])
                 "1") eq_refl) as (md & _ & _ & _ & Hlookup & _).
  exists md. split; [exact (Hlookup "Rooms")|exact (Hlookup "Rating")].
Defined.

(** X19. [getStore] inserts all the hotels of the file or none.  When
    every hotel converts, it calls [fromDocuments] once, with one document
    per hotel in the order of the file, each the document of its hotel.
    When one hotel does not convert, for want of a [HotelId] say,
    [getStore] throws and has called nothing. *)
Theorem getStore_all_or_nothing
    (R : JS.Runtime) (Pf : TSops.Platform) (dataFilePath : string) (s : TSops.Effects)
    (elems : list JS.Value) :
  TSops.read_json dataFilePath = JS.Return (JS.JSArray elems) ->
  let out := TSops.getStore dataFilePath s in
  (forall docs,
      JS.mapC TSops.toDocument elems = JS.Return docs ->
      TSops.calls (snd out) = (TSops.calls s ++ [TSops.fromDocuments docs])%list /\
      Forall2 (fun hotel doc => TSops.toDocument hotel = JS.Return doc) elems docs /\
      fst out = TSops.fromDocuments_outcome docs) /\
  (forall bad,
      In bad elems -> (exists e, TSops.toDocument bad = JS.Throw e) ->
      (exists e, fst out = JS.Throw e) /\ snd out = s).
Proof.
  intros Hread out. subst out.
  unfold TSops.getStore, TSops.tbind, TSops.tlift, TSops.call, TSops.log, TSops.tret.
  rewrite Hread. split.
  - intros docs Hdocs. rewrite Hdocs.
    split; [|split; [now apply mapC_Return|]];
      destruct (TSops.fromDocuments_outcome docs); reflexivity.
  - intros bad Hin Hbad. destruct (mapC_Throw TSops.toDocument elems bad Hin Hbad) as [e ->].
    split; [eauto|reflexivity].
Qed.

(** The second hotel of the file has no identifier: nothing is inserted. *)
Lemma getStore_all_or_nothing_witness :
  snd (@TSops.getStore Scenario.runtime0 Scenario6.platformTwoHotels "hotels.json"
         Scenario6.effects0) = Scenario6.effects0.
Proof.
  refine (proj2 (proj2 (getStore_all_or_nothing Scenario.runtime0 Scenario6.platformTwoHotels
            "hotels.json" Scenario6.effects0 [Scenario6.hotelJSON; Scenario6.hotelWithoutId]
            eq_refl) Scenario6.hotelWithoutId _ _)).
  - cbn [In]. auto.
  - eexists. reflexivity.
Defined.

(** X20. Both versions of [deleteCosmosMongoDatabase] check their
    settings before they construct a client, and once the client is
    constructed they close it exactly once, as their last call, whatever
    happened before: after a failed connection nothing is dropped and the
    client is closed; the database is dropped only after the connection
    succeeded.  The function returns normally only when connecting,
    dropping and closing all succeeded, and an exception of the closing
    replaces an earlier one. *)
Theorem deleteCosmosMongoDatabase_always_closes
    (Pf : TSops.Platform) (databaseName : option string) (s : TSops.Effects) :
  let closing (r : JS.Completion unit) : JS.Completion unit :=
    match TSops.close_outcome with
    | JS.Throw e => JS.Throw e
    | JS.Return _ => r
    end in
  (let out := TSops.deleteCosmosMongoDatabase databaseName s in
   let dbName :=
     if TSops.missing databaseName then TSops.process_env "AZURE_DOCUMENTDB_DATABASENAME"
     else databaseName in
   let cs :=
     "mongodb+srv://" +:+ default "" (TSops.process_env "MONGO_CLUSTER_NAME") +:+
     ".global.mongocluster.cosmos.azure.com/" in
   (TSops.missing (TSops.process_env "MONGO_CLUSTER_NAME") = true \/
    TSops.missing dbName = true ->
    (exists e, fst out = JS.Throw e) /\ TSops.calls (snd out) = TSops.calls s) /\
   (TSops.missing (TSops.process_env "MONGO_CLUSTER_NAME") = false ->
    TSops.missing dbName = false ->
    match TSops.MongoClient_new cs, TSops.connect_outcome with
    | JS.Throw e, _ =>
        fst out = JS.Throw e /\
        TSops.calls (snd out) = (TSops.calls s ++ [TSops.new_MongoClient cs])%list
    | JS.Return _, JS.Throw e =>
        fst out = closing (JS.Throw e) /\
        TSops.calls (snd out) =
          (TSops.calls s ++
           [TSops.new_MongoClient cs; TSops.client_connect; TSops.client_close true])%list
    | JS.Return _, JS.Return _ =>
        fst out = closing (TSops.dropDatabase_outcome dbName) /\
        TSops.calls (snd out) =
          (TSops.calls s ++
           [TSops.new_MongoClient cs; TSops.client_connect; TSops.db_dropDatabase dbName;
            TSops.client_close true])%list
    end)) /\
  (let out := TSops.deleteCosmosMongoDatabase_connectionString s in
   let dbName := TSops.process_env "AZURE_DOCUMENTDB_DATABASENAME" in
   let cs := default "" (TSops.process_env "AZURE_DOCUMENTDB_CONNECTION_STRING") in
   (TSops.missing (TSops.process_env "AZURE_DOCUMENTDB_CONNECTION_STRING") = true ->
    (exists e, fst out = JS.Throw e) /\ TSops.calls (snd out) = TSops.calls s) /\
   (TSops.missing (TSops.process_env "AZURE_DOCUMENTDB_CONNECTION_STRING") = false ->
    match TSops.MongoClient_new cs, TSops.connect_outcome with
    | JS.Throw e, _ =>
        fst out = JS.Throw e /\
        TSops.calls (snd out) = (TSops.calls s ++ [TSops.new_MongoClient cs])%list
    | JS.Return _, JS.Throw e =>
        fst out = closing (JS.Throw e) /\
        TSops.calls (snd out) =
          (TSops.calls s ++
           [TSops.new_MongoClient cs; TSops.client_connect; TSops.client_close true])%list
    | JS.Return _, JS.Return _ =>
        fst out = closing (TSops.dropDatabase_outcome dbName) /\
        TSops.calls (snd out) =
          (TSops.calls s ++
           [TSops.new_MongoClient cs; TSops.client_connect; TSops.db_dropDatabase dbName;
            TSops.client_close true])%list
    end)).
Proof.
  cbv zeta. split.
  - unfold TSops.deleteCosmosMongoDatabase.
    destruct (TSops.missing (TSops.process_env "MONGO_CLUSTER_NAME")) eqn:Hcluster.
    { split; [intros _; split; [eexists; reflexivity|reflexivity]|discriminate]. }
    destruct (TSops.missing (if TSops.missing databaseName
                             then TSops.process_env "AZURE_DOCUMENTDB_DATABASENAME"
                             else databaseName)) eqn:Hdb.
    { split; [intros _; split; [eexists; reflexivity|reflexivity]|discriminate]. }
    split; [intros [Hf|Hf]; discriminate Hf|]. intros _ _.
    unfold TSops.tbind, TSops.try_finally, TSops.call, TSops.log, TSops.tthrow.
    cbn [fst snd TSops.calls TSops.console_entries].
    destruct (TSops.MongoClient_new _) as [[]|e];
      [|split; reflexivity].
    destruct TSops.connect_outcome as [[]|e];
      cbn [fst snd TSops.calls TSops.console_entries].
    + destruct (TSops.dropDatabase_outcome _) as [[]|e];
        cbn [fst snd TSops.calls TSops.console_entries];
        destruct TSops.close_outcome as [[]|e'];
        cbn [fst snd TSops.calls TSops.console_entries];
        rewrite <- ?app_assoc; split; reflexivity.
    + destruct TSops.close_outcome as [[]|e'];
        cbn [fst snd TSops.calls TSops.console_entries];
        rewrite <- ?app_assoc; split; reflexivity.
  - unfold TSops.deleteCosmosMongoDatabase_connectionString.
    destruct (TSops.missing (TSops.process_env "AZURE_DOCUMENTDB_CONNECTION_STRING"))
      eqn:Hconn.
    { split; [intros _; split; [eexists; reflexivity|reflexivity]|discriminate]. }
    split; [discriminate|]. intros _.
    unfold TSops.tbind, TSops.try_finally, TSops.call, TSops.log, TSops.tthrow.
    cbn [fst snd TSops.calls TSops.console_entries].
    destruct (TSops.MongoClient_new _) as [[]|e];
      [|split; reflexivity].
    destruct TSops.connect_outcome as [[]|e];
      cbn [fst snd TSops.calls TSops.console_entries].
    + destruct (TSops.dropDatabase_outcome _) as [[]|e];
        cbn [fst snd TSops.calls TSops.console_entries];
        destruct TSops.close_outcome as [[]|e'];
        cbn [fst snd TSops.calls TSops.console_entries];
        rewrite <- ?app_assoc; split; reflexivity.
    + destruct TSops.close_outcome as [[]|e'];
        cbn [fst snd TSops.calls TSops.console_entries];
        rewrite <- ?app_assoc; split; reflexivity.
Qed.

(** The cluster cannot be reached: nothing is dropped and the client is
    closed. *)
Lemma deleteCosmosMongoDatabase_witness :
  TSops.calls (snd (@TSops.deleteCosmosMongoDatabase Scenario6.platformUnreachable None
                      Scenario6.effects0)) =
  [TSops.new_MongoClient "mongodb+srv://hotels-cluster.global.mongocluster.cosmos.azure.com/";
   TSops.client_connect; TSops.client_close true].
Proof.
  exact (proj2 (proj2 (proj1 (deleteCosmosMongoDatabase_always_closes
           Scenario6.platformUnreachable None Scenario6.effects0)) eq_refl eq_refl)).
Defined.
(** ** Sample runs of the programs *)

Example agent_main_answers :
  let out := @cmd_agent.main Scenario6.pipeline Scenario4.hostWithKeys Scenario4.p0 in
  fst out = 0 /\
  events (snd out) =
    [EvLog "Warning: .env file not found: open .env: no such file or directory";
     EvConnect (mkMongoClient "mongodb://localhost:10260/" false); EvPing; EvDisconnect] /\
  List.length (requests (world (snd out))) = 4%nat /\
  List.last (stdout (world (snd out))) "" = "1. COMPARISON SUMMARY: Old Century" +:+ nl.
Proof. vm_compute. repeat split. Qed.

Example agent_main_without_endpoint :
  @cmd_agent.main Scenario.happy (Scenario4.host [] None None None None) Scenario4.p0 =
  (1, mkProcess Scenario.w0
        [EvLog "Warning: .env file not found: open .env: no such file or directory";
         EvLog "Failed to create OpenAI clients: AZURE_OPENAI_ENDPOINT is required"]).
Proof. vm_compute. reflexivity. Qed.

Example Atoi_samples :
  strconv.Atoi "5" = Some 5 /\ strconv.Atoi "+7" = Some 7 /\ strconv.Atoi "-3" = Some (-3) /\
  strconv.Atoi "007" = Some 7 /\ strconv.Atoi "" = None /\ strconv.Atoi "+" = None /\
  strconv.Atoi "5 " = None /\ strconv.Atoi "1_000" = None /\ strconv.Atoi "3.0" = None /\
  strconv.Atoi "9223372036854775807" = Some (2 ^ 63 - 1) /\
  strconv.Atoi "9223372036854775808" = None /\
  strconv.Atoi "-9223372036854775808" = Some (- 2 ^ 63).
Proof. vm_compute. repeat split. Qed.

(** ** The TypeScript synthesizer *)

(** X21. For a query and a tool summary that are strings, the user prompt
    of the TypeScript synthesizer is, character for character, the one of
    the Go synthesizer; so both hold the query and the summary as they
    are. *)
Theorem synthesizer_prompts_agree (R : JS.Runtime) (userQuery toolSummary : string) :
  TSsynth.createSynthesizerUserPrompt userQuery (JS.JSString toolSummary) =
    JS.Return (synthesizer.CreateSynthesizerUserPrompt userQuery toolSummary) /\
  strings.Contains (synthesizer.CreateSynthesizerUserPrompt userQuery toolSummary) userQuery
    = true /\
  strings.Contains (synthesizer.CreateSynthesizerUserPrompt userQuery toolSummary) toolSummary
    = true.
Proof.
  split; [reflexivity|]. unfold synthesizer.CreateSynthesizerUserPrompt. split.
  - apply Contains_spec. eexists "User asked: ", _. reflexivity.
  - apply Contains_spec.
    exists ("User asked: " +:+ userQuery +:+ nl +:+ nl +:+ "Tool summary:" +:+ nl). eexists.
    rewrite !append_assoc. reflexivity.
Qed.

(** X22. The TypeScript synthesizer returns the content of the last
    message of the agent's reply, unchanged, and writes three lines to the
    console; earlier messages are not read.  It throws when the reply has
    no message. *)
Theorem runSynthesizerAgent_returns_last_message
    (R : JS.Runtime) (A : TSsynth.SynthAgent) (userQuery hotelContext : string)
    (c : list JS.ConsoleEntry) :
  let prompt := synthesizer.CreateSynthesizerUserPrompt userQuery hotelContext in
  let out := TSsynth.runSynthesizerAgent userQuery (JS.JSString hotelContext) c in
  (forall earlier props answer,
      TSsynth.synth_invoke prompt = JS.Return (earlier ++ [JS.JSObject props])%list ->
      JS.lookup_prop props "content" = JS.JSString answer ->
      out =
      (JS.Return (JS.JSString answer),
       (c ++ [JS.console_log (nl +:+ "--- SYNTHESIZER ---");
              JS.console_log ("Context size is " +:+
                              JS.Number_toString
                                (float_of_Z (TSsynth.utf16_length hotelContext)) +:+
                              " characters");
              JS.console_log ("Output: " +:+
                              JS.Number_toString (float_of_Z (TSsynth.utf16_length answer)) +:+
                              " characters of final recommendation")])%list)) /\
  (TSsynth.synth_invoke prompt = JS.Return [] -> exists e, fst out = JS.Throw e).
Proof.
  intros prompt out. subst out.
  unfold TSsynth.runSynthesizerAgent, JS.jbind, JS.lift, JS.console, JS.jret.
  cbn [TSsynth.length_of JS.cbind JS.ToString JS.ToString].
  assert (Hprompt : TSsynth.createSynthesizerUserPrompt userQuery (JS.JSString hotelContext) =
                    JS.Return prompt) by reflexivity.
  rewrite Hprompt. split.
  - intros earlier props answer -> Hcontent. rewrite List.last_last.
    cbn [JS.Get JS.GetOpt]. rewrite Hcontent.
    cbn [TSsynth.length_of JS.cbind JS.ToString JS.ToString].
    rewrite <- !app_assoc. reflexivity.
  - intros ->. cbn [List.last JS.Get]. eauto.
Qed.

(** The answer of the model is the last of two messages. *)
Lemma runSynthesizerAgent_witness :
  fst (@TSsynth.runSynthesizerAgent Scenario.runtime0 Scenario7.synthAgent "cheap hotel"
         (JS.JSString "--- HOTEL START ---") []) =
  JS.Return (JS.JSString "1. COMPARISON SUMMARY").
Proof.
  refine (f_equal fst (proj1 (runSynthesizerAgent_returns_last_message Scenario.runtime0
            Scenario7.synthAgent "cheap hotel" "--- HOTEL START ---" [])
            [JS.JSObject [("type", JS.JSString "human");
                          ("content",
                           JS.JSString (synthesizer.CreateSynthesizerUserPrompt "cheap hotel"
                                          "--- HOTEL START ---"))]]
            [("type", JS.JSString "ai"); ("content", JS.JSString "1. COMPARISON SUMMARY")]
            "1. COMPARISON SUMMARY" eq_refl eq_refl)).
Defined.

(** ** The index options of the two programs *)

(** X23. The two programs treat the settings of the index differently.
    For an algorithm that is none of the three, the Go program returns an
    error and creates no index, while the TypeScript options are silently
    those of IVF.  The TypeScript options name their kind only for HNSW
    and DiskANN, never for IVF, and their similarity is always one of COS,
    L2 and IP, an unknown setting becoming COS, where Go passes the
    setting on unchecked. *)
Theorem index_options_diverge
    (B : TSindex.Builtins) (Pf : TSops.Platform) (Hst : Host)
    (vs : store.VectorStore) (p : Process) :
  let algorithm := TSindex.env_or "VECTOR_INDEX_ALGORITHM" "vector-ivf" in
  let base :=
    [("dimensions", TSindex.OptNumber
                      (TSindex.parseInt (TSindex.env_or "EMBEDDING_DIMENSIONS" "1536")));
     ("similarity", TSindex.OptSimilarity
                      (TSindex.getSimilarityType (TSindex.env_or "VECTOR_SIMILARITY" "COS")))] in
  Getenv "VECTOR_INDEX_ALGORITHM" = default "" (TSops.process_env "VECTOR_INDEX_ALGORITHM") ->
  (algorithm <> "vector-hnsw" -> algorithm <> "vector-diskann" ->
   TSindex.getVectorIndexOptions =
     (("numLists", TSindex.OptNumber (TSindex.parseInt (TSindex.env_or "IVF_NUM_LISTS" "10")))
      :: base) /\
   forall kind, ~ In ("kind", TSindex.OptKind kind) TSindex.getVectorIndexOptions) /\
  (algorithm <> "vector-ivf" -> algorithm <> "vector-hnsw" -> algorithm <> "vector-diskann" ->
   store.CreateVectorIndex vs p =
     (Some (Errorf ("unsupported vector index algorithm: " +:+ algorithm)), p)) /\
  (algorithm = "vector-diskann" ->
   TSindex.getVectorIndexOptions = (("kind", TSindex.OptKind "vector-diskann") :: base)) /\
  (forall setting,
      TSindex.toUpperCase setting <> "L2" -> TSindex.toUpperCase setting <> "IP" ->
      TSindex.getSimilarityType setting = COS).
Proof.
  intros algorithm base Henv.
  assert (Hgo : (if String.eqb (Getenv "VECTOR_INDEX_ALGORITHM") "" then "vector-ivf"
                 else Getenv "VECTOR_INDEX_ALGORITHM") = algorithm).
  { subst algorithm. unfold TSindex.env_or. rewrite Henv.
    destruct (TSops.process_env "VECTOR_INDEX_ALGORITHM") as [a|]; [|reflexivity].
    cbn [TSops.missing default]. reflexivity. }
  split; [|split; [|split]].
  - intros Hhnsw Hdisk. unfold TSindex.getVectorIndexOptions. fold algorithm.
    destruct (String.eqb_spec algorithm "vector-hnsw") as [Heq|_]; [contradiction|].
    destruct (String.eqb_spec algorithm "vector-diskann") as [Heq|_]; [contradiction|].
    split; [reflexivity|]. intros kind. cbn [app In]. intuition discriminate.
  - intros Hivf Hhnsw Hdisk. unfold store.CreateVectorIndex. rewrite Hgo.
    destruct (String.eqb_spec algorithm "vector-ivf") as [Heq|_]; [contradiction|].
    destruct (String.eqb_spec algorithm "vector-hnsw") as [Heq|_]; [contradiction|].
    destruct (String.eqb_spec algorithm "vector-diskann") as [Heq|_]; [contradiction|].
    reflexivity.
  - intros Hdisk. unfold TSindex.getVectorIndexOptions. fold algorithm. rewrite Hdisk.
    reflexivity.
  - intros setting Hl2 Hip. unfold TSindex.getSimilarityType.
    destruct (String.eqb_spec (TSindex.toUpperCase setting) "COS"); [reflexivity|].
    destruct (String.eqb_spec (TSindex.toUpperCase setting) "L2"); [contradiction|].
    destruct (String.eqb_spec (TSindex.toUpperCase setting) "IP"); [contradiction|].
    reflexivity.
Qed.

(** The algorithm [vector-flat]: an error in Go, the IVF options in
    TypeScript. *)
Lemma index_options_diverge_witness :
  fst (@store.CreateVectorIndex Scenario5.hostFlatIndex Scenario5.storeWithKeys Scenario4.p0) =
  Some (Errorf "unsupported vector index algorithm: vector-flat").
Proof.
  refine (f_equal fst (proj1 (proj2 (index_options_diverge Scenario8.builtins
            Scenario8.platformFlatIndex Scenario5.hostFlatIndex Scenario5.storeWithKeys
            Scenario4.p0 eq_refl)) _ _ _)); discriminate.
Defined.
